(** * Reflection-driven test-case synthesis engine

    A shallow embedding of the package [src/test_case_generator]:
    - [value_generators.py]   boundary values and random values per declared type,
    - [class_analyzer.py]     the class description built by reflection,
    - [test_generator.py]     case synthesis for free functions,
    - [test_generator_methods.py]  the equivalence filter and case synthesis
                              for constructors, methods and properties,
    - [models.py], [exceptions.py]  the case records and the timeout error,
    - [pytest_generator.py]   the checks rendered for the cases of a function,
    and, outside the package, of [utils.py] (window placement) and of the
    line arithmetic of [coverage_analyzer.py].

    Python values are an inductive type; the host runtime ([repr], the
    [random] module, the platform flag) is an interface the development is
    parametrised by; the target code under test is given by its observable
    behaviour on each call. *)

From Stdlib Require Import List String Ascii ZArith NArith QArith Bool Arith Lia.
From Stdlib Require Import Permutation Sorted.
Import ListNotations.
Close Scope Q_scope.
Open Scope string_scope.
Open Scope list_scope.

Set Implicit Arguments.
Set Warnings "-register-all".

(* ================================================================== *)
(** * Python values *)

Module Py.

(** A float is NaN, an infinity, or a finite number.  Only equality of
    floats is used by the engine; Python compares numbers of different
    numeric types by their mathematical value, so a finite float is kept as
    the rational it denotes. *)
Inductive pyfloat : Type :=
| FNaN
| FInf (negative : bool)
| FFinite (q : Q).

(** The values the engine builds and compares.  A [dict] keeps its
    insertion order; the dictionaries synthesised by [ValueGenerator] are
    keyed by strings.  [VObj] is an instance of a user class: its class
    name and its attribute dictionary. *)
Inductive value : Type :=
| VNone
| VInt (z : Z)
| VFloat (f : pyfloat)
| VStr (s : string)
| VBool (b : bool)
| VList (items : list value)
| VTuple (items : list value)
| VDict (entries : list (string * value))
| VObj (class_name : string) (attrs : list (string * value)).

(** [isinstance(v, (int, float, str, bool))] *)
Definition is_scalar (v : value) : bool :=
  match v with
  | VInt _ | VFloat _ | VStr _ | VBool _ => true
  | _ => false
  end.

(** [isinstance(v, (list, tuple))], with the items when it holds. *)
Definition as_sequence (v : value) : option (list value) :=
  match v with
  | VList xs | VTuple xs => Some xs
  | _ => None
  end.

Definition is_sequence (v : value) : bool :=
  match as_sequence v with Some _ => true | None => false end.

(** [isinstance(v, dict)] *)
Definition is_dict (v : value) : bool :=
  match v with VDict _ => true | _ => false end.

(** [a == b] on floats: NaN differs from everything, itself included. *)
Definition float_eqb (a b : pyfloat) : bool :=
  match a, b with
  | FFinite p, FFinite q => Qeq_bool p q
  | FInf s, FInf t => Bool.eqb s t
  | _, _ => false
  end.

(** The number a numeric scalar denotes ([bool] is a subclass of [int]). *)
Definition numeric (v : value) : option pyfloat :=
  match v with
  | VInt z => Some (FFinite (inject_Z z))
  | VBool b => Some (FFinite (inject_Z (if b then 1 else 0)))
  | VFloat f => Some f
  | _ => None
  end.

(** [a == b] for two scalars: numbers by value, strings by contents, a
    string never equals a number. *)
Definition scalar_eqb (a b : value) : bool :=
  match a, b with
  | VStr s, VStr t => String.eqb s t
  | VStr _, _ | _, VStr _ => false
  | _, _ =>
      match numeric a, numeric b with
      | Some x, Some y => float_eqb x y
      | _, _ => false
      end
  end.

(** Insertion-ordered dictionaries keyed by strings: [d.get(k)] and
    [d[k] = v] (an existing key keeps its place). *)
Fixpoint assoc_get {A : Type} (key : string) (d : list (string * A)) : option A :=
  match d with
  | [] => None
  | (k, v) :: rest => if String.eqb key k then Some v else assoc_get key rest
  end.

Fixpoint assoc_set {A : Type} (key : string) (v : A) (d : list (string * A)) : list (string * A) :=
  match d with
  | [] => [(key, v)]
  | (k, w) :: rest =>
      if String.eqb key k then (k, v) :: rest else (k, w) :: assoc_set key v rest
  end.

Definition dict_keys {A : Type} (d : list (string * A)) : list string := map fst d.

(** Python dictionaries have pairwise distinct keys, at every depth. *)
Fixpoint well_formed (v : value) : Prop :=
  match v with
  | VList xs | VTuple xs =>
      (fix all (l : list value) : Prop :=
         match l with [] => True | x :: r => well_formed x /\ all r end) xs
  | VDict d =>
      NoDup (dict_keys d) /\
      (fix all (l : list (string * value)) : Prop :=
         match l with [] => True | (_, x) :: r => well_formed x /\ all r end) d
  | _ => True
  end.

(** What an induction over values provides for the parts of [a]: [Q] for
    the items of a sequence and for the values of a dictionary. *)
Definition parts_satisfy (Q : value -> Prop) (a : value) : Prop :=
  (forall xs, as_sequence a = Some xs -> Forall Q xs) /\
  (forall d, a = VDict d -> Forall (fun kv => Q (snd kv)) d).

End Py.
Import Py.

(* ================================================================== *)
(** * Errors and the behaviour of target code *)

(** The kinds of error target code raises, as [type(e)]: the engine's own
    [TimeoutException] ([exceptions.py]), a class derived from it, or any
    other subclass of [Exception], each of the last two by its name. *)
Inductive exn : Type :=
| TimeoutException
| TimeoutSubclass (name : string)
| OtherException (name : string).

(** [isinstance(e, TimeoutException)], the test of an
    [except TimeoutException] clause. *)
Definition is_timeout (e : exn) : bool :=
  match e with
  | TimeoutException | TimeoutSubclass _ => true
  | OtherException _ => false
  end.

(** How a call ends when it is left to run. *)
Inductive completion (A : Type) : Type :=
| Returned (a : A)
| Raised (e : exn).
Arguments Raised {A} e.

(** The observable behaviour of one call of target code: it ends after
    [ticks] milliseconds, or it never returns.  A call is a function of
    the values it is passed: target code is taken to leave its arguments
    unchanged and to keep no state between calls. *)
Inductive behaviour (A : Type) : Type :=
| Finishes (ticks : N) (c : completion A)
| Never.
Arguments Never {A}.

(** Two calls in a row inside one [try] block: the second runs only when
    the first returned, and the running times add up. *)
Definition and_then {A B : Type} (b : behaviour A) (k : A -> behaviour B) : behaviour B :=
  match b with
  | Never => Never
  | Finishes t (Raised e) => Finishes t (Raised e)
  | Finishes t (Returned a) =>
      match k a with
      | Never => Never
      | Finishes t' c => Finishes (t + t') c
      end
  end.

(** [signal.alarm(3)], in milliseconds. *)
Definition DEADLINE : N := 3000.

(** The disposition installed for [SIGALRM] before the alarm is armed:
    [timeout_handler] of [exceptions.py], which raises [TimeoutException]
    in the running call, or the system default [signal.SIG_DFL], whose
    action for [SIGALRM] is to terminate the process. *)
Inductive handler : Type :=
| timeout_handler
| SIG_DFL.

(** How a step of the engine ends: normally, with the process terminated
    by the signal, or never. *)
Inductive run (A : Type) : Type :=
| Done (a : A)
| Killed
| Hangs.
Arguments Killed {A}.
Arguments Hangs {A}.

(* ================================================================== *)
(** * Declared types and target classes *)

(** An instance of a user class. *)
Record instance : Type := { inst_class : string; inst_attrs : list (string * value) }.

Definition obj_value (i : instance) : value := VObj (inst_class i) (inst_attrs i).

(** A declared parameter type, and what reflection sees of a class.
    - [pytype]: the seven types [ValueGenerator] knows, [typing.Any], a
      user class, or any other annotation (a [typing] generic, say);
    - [pyclass]: [__name__], [__bases__] and [__mro__] (both without
      [object], the latter also without the class itself), the class's
      own namespace [__dict__] in definition order, and the behaviour of
      the class at run time: [cls( *args)], [getattr(cls, name)( *args)],
      [getattr(obj, name)( *args)], [getattr(obj, prop)] and
      [setattr(obj, prop, v)], the last giving what the setter returned
      and the instance after the write;
    - [attribute]: an entry of a class namespace;
    - [pyfunction]: a function object under [inspect.signature] (its
      parameter names) and [get_type_hints] (parameter name, or
      ["return"], to type); [None] when that introspection raises.
    A class that names itself in its own annotations is given by an
    unfolding: the annotation is [TClass] of a class of the same name, the
    only thing the engine compares. *)
Inductive pytype : Type :=
| TInt | TFloat | TStr | TBool | TList | TDict | TTuple
| TAny
| TOther
| TClass (c : pyclass)
with pyclass : Type :=
| PyClass (name : string) (bases : list pyclass) (mro : list pyclass)
          (namespace : list (string * attribute))
          (new : list value -> behaviour instance)
          (call_on_class : string -> list value -> behaviour value)
          (call_on_instance : string -> instance -> list value -> behaviour value)
          (get_property : string -> instance -> behaviour value)
          (set_property : string -> instance -> value -> behaviour (value * instance))
with attribute : Type :=
| AFunction (f : pyfunction)
| AStaticMethod (f : pyfunction)
| AClassMethod (f : pyfunction)
| AProperty (fget fset fdel : option pyfunction)
| AData
with pyfunction : Type :=
| PyFunction (signature : option (list string))
             (hints : option (list (string * pytype))).

Definition cls_name (c : pyclass) : string :=
  match c with PyClass n _ _ _ _ _ _ _ _ => n end.
Definition cls_bases (c : pyclass) : list pyclass :=
  match c with PyClass _ b _ _ _ _ _ _ _ => b end.
Definition cls_mro (c : pyclass) : list pyclass :=
  match c with PyClass _ _ m _ _ _ _ _ _ => m end.
Definition cls_dict (c : pyclass) : list (string * attribute) :=
  match c with PyClass _ _ _ d _ _ _ _ _ => d end.
Definition cls_new (c : pyclass) : list value -> behaviour instance :=
  match c with PyClass _ _ _ _ f _ _ _ _ => f end.
Definition cls_call (c : pyclass) : string -> list value -> behaviour value :=
  match c with PyClass _ _ _ _ _ f _ _ _ => f end.
Definition obj_call (c : pyclass) : string -> instance -> list value -> behaviour value :=
  match c with PyClass _ _ _ _ _ _ f _ _ => f end.
Definition obj_getattr (c : pyclass) : string -> instance -> behaviour value :=
  match c with PyClass _ _ _ _ _ _ _ f _ => f end.
Definition obj_setattr (c : pyclass) : string -> instance -> value -> behaviour (value * instance) :=
  match c with PyClass _ _ _ _ _ _ _ _ f => f end.

Definition fn_signature (f : pyfunction) : option (list string) :=
  match f with PyFunction s _ => s end.
Definition fn_hints (f : pyfunction) : option (list (string * pytype)) :=
  match f with PyFunction _ h => h end.

(** A free function handed to the engine: [__name__], the parameter names
    of [inspect.signature], the result of [get_type_hints], and what a
    call does. *)
Record pyfunc : Type := {
  func_name : string;
  func_parameters : list string;
  func_type_hints : list (string * pytype);
  func_call : list value -> behaviour value
}.

(** [type_hints.get(param_name, Any)] *)
Definition hint_of (type_hints : list (string * pytype)) (param_name : string) : pytype :=
  match assoc_get param_name type_hints with
  | Some t => t
  | None => TAny
  end.

(* ================================================================== *)
(** * Case records ([models.py]) *)

(** The [description] strings of the records are display text built with
    f-strings; they are left out, and formatting them is taken not to
    fail.  [pre_state_validation] and [post_state_validation] are never
    set by the engine. *)
Module TestCase.
Record t : Type := {
  inputs : list value;
  expected_output : value;
  raises : option exn
}.
End TestCase.

Module ClassMethodTestCase.
Record t : Type := {
  class_type : pyclass;
  constructor_inputs : list value;
  method_name : string;
  method_inputs : list value;
  expected_output : value;
  raises : option exn;
  is_property_getter : bool
}.
End ClassMethodTestCase.

(* ================================================================== *)
(** * The host runtime *)

(** What the engine asks of the Python runtime: the [random] module
    (each draw consumes the state of the random source), [repr], and the
    platform flag [IS_WINDOWS] computed when the modules are loaded. *)
Class Runtime : Type := {
  rng : Type;
  (** [random.randint(a, b)] *)
  randint : Z -> Z -> rng -> Z * rng;
  (** [random.uniform(a, b)] *)
  uniform : pyfloat -> pyfloat -> rng -> pyfloat * rng;
  (** [''.join(random.choices(chars, k=k))] *)
  choices : string -> nat -> rng -> string * rng;
  (** [random.choice([True, False])] *)
  choice_bool : rng -> bool * rng;
  (** [repr(v)]; [None] when producing the representation raises.  For an
      instance it is a function of the class name and the attributes, as
      a [__repr__] written for the class is; the default representation,
      which holds the address of the object, tells two instances built
      alike apart and is not of that form. *)
  repr : value -> option string;
  (** [platform.system() == 'Windows'] *)
  IS_WINDOWS : bool
}.

(** [enumerate(xs)] *)
Definition enumerate {A : Type} (xs : list A) : list (nat * A) :=
  combine (seq 0 (List.length xs)) xs.

(** The engine's steps draw from the random source and may end with the
    process killed or hanging. *)
Section Steps.

Context {RT : Runtime}.

Definition M (A : Type) : Type := rng -> run (A * rng).

Definition ret {A : Type} (a : A) : M A := fun g => Done (a, g).

Definition bind {A B : Type} (m : M A) (k : A -> M B) : M B :=
  fun g =>
    match m g with
    | Done (a, g') => k a g'
    | Killed => Killed
    | Hangs => Hangs
    end.

(** One draw from the [random] module. *)
Definition draw {A : Type} (f : rng -> A * rng) : M A := fun g => Done (f g).

(** [[m for _ in range(n)]] *)
Fixpoint replicateM {A : Type} (n : nat) (m : M A) : M (list A) :=
  match n with
  | O => ret []
  | S n' => bind m (fun x => bind (replicateM n' m) (fun xs => ret (x :: xs)))
  end.

(** [[f(x) for x in xs]] *)
Fixpoint mapM {A B : Type} (f : A -> M B) (xs : list A) : M (list B) :=
  match xs with
  | [] => ret []
  | x :: rest => bind (f x) (fun y => bind (mapM f rest) (fun ys => ret (y :: ys)))
  end.

(** [for x in xs: s = body(x, s)] *)
Fixpoint for_each {A S : Type} (xs : list A) (body : A -> S -> M S) (s : S) : M S :=
  match xs with
  | [] => ret s
  | x :: rest => bind (body x s) (for_each rest body)
  end.

(** [for _ in range(n): s = body(s)] *)
Fixpoint repeatM {S : Type} (n : nat) (body : S -> M S) (s : S) : M S :=
  match n with
  | O => ret s
  | S n' => bind (body s) (repeatM n' body)
  end.

(** A call of target code with no alarm armed. *)
Definition call {A : Type} (b : behaviour A) : M (completion A) :=
  fun g =>
    match b with
    | Finishes _ c => Done (c, g)
    | Never => Hangs
    end.

(** The alarm goes off during a call when one was armed and the call is
    still running at the deadline. *)
Definition times_out {A : Type} (b : behaviour A) : bool :=
  negb IS_WINDOWS &&
  match b with
  | Finishes t _ => negb (t <? DEADLINE)%N
  | Never => true
  end.

(** What the pending alarm does when it goes off during a call. *)
Definition alarm_fires {A : Type} (h : handler) : M (completion A) :=
  fun g =>
    match h with
    | timeout_handler => Done (Raised TimeoutException, g)
    | SIG_DFL => Killed
    end.

(** The body of a [try] block run between [signal.signal(SIGALRM, h);
    signal.alarm(3)] and [signal.alarm(0)]; on Windows no alarm is armed.
    A call that has ended before the deadline is not touched by the
    alarm.  For a call still running at the deadline the handler's
    exception is raised inside the target, and the target is taken to let
    it through to the engine; code that catches it (an [except Exception]
    around its own work, say) goes on running, returns what it likes or
    never returns, and is outside what this definition describes.  The
    results that are to hold for every target are stated for calls that
    are [undisturbed]. *)
Definition call_with_alarm {A : Type} (h : handler) (b : behaviour A) : M (completion A) :=
  if times_out b then alarm_fires h else call b.

(** The target itself raises [TimeoutException] or an error derived from
    it. *)
Definition raises_timeout {A : Type} (b : behaviour A) : bool :=
  match b with
  | Finishes _ (Raised e) => is_timeout e
  | _ => false
  end.

(** A call whose candidate the [except TimeoutException] branch drops:
    the alarm went off (and its exception came through, see
    [call_with_alarm]), or the target raised the error itself. *)
Definition skipped {A : Type} (b : behaviour A) : bool :=
  times_out b || raises_timeout b.

(** A call no alarm is delivered to: it ends, and where an alarm is armed
    (everywhere but on Windows) it ends before the deadline.  What the
    engine does with such a call does not depend on how the target treats
    the handler's exception. *)
Definition undisturbed {A : Type} (b : behaviour A) : bool :=
  match b with
  | Finishes t _ => IS_WINDOWS || (t <? DEADLINE)%N
  | Never => false
  end.

(** [m] always ends normally. *)
Definition terminates {A : Type} (m : M A) : Prop :=
  forall g, exists a g', m g = Done (a, g').

(** [m] ensures [P]: whenever the step ends normally, its result
    satisfies [P]. *)
Definition ensures {A : Type} (m : M A) (P : A -> Prop) : Prop :=
  forall g a g', m g = Done (a, g') -> P a.

End Steps.

Notation "x <- m ;; k" := (bind m (fun x => k))
  (at level 61, m at next level, right associativity).
Notation "' p <- m ;; k" := (bind m (fun x => match x with p => k end))
  (at level 61, p pattern, m at next level, right associativity).

(* ================================================================== *)
(** * Boundary values and random values ([value_generators.py]) *)

Module ValueGenerator.
Section ValueGenerator.

Context {RT : Runtime}.

Definition ascii_lowercase : string := "abcdefghijklmnopqrstuvwxyz".
Definition ascii_uppercase : string := "ABCDEFGHIJKLMNOPQRSTUVWXYZ".
Definition ascii_letters : string := ascii_lowercase ++ ascii_uppercase.
Definition digits : string := "0123456789".

(** [s * n] *)
Fixpoint str_repeat (s : string) (n : nat) : string :=
  match n with O => "" | S n' => s ++ str_repeat s n' end.

(** [float(z)] for an integer [z] of magnitude at most [2 ** 53], where
    the conversion is exact; it is applied to such integers only (the
    boundary values and the default range of the generators).  Beyond
    that, [float(z)] rounds to the nearest binary float and raises on
    overflow, which this definition does not follow. *)
Definition py_float (z : Z) : pyfloat := FFinite (inject_Z z).

Definition generate_int_values (count : nat) (min_value max_value : Z) : M (list value) :=
  replicateM count (z <- draw (randint min_value max_value) ;; ret (VInt z)).

Definition generate_float_values (count : nat) (min_value max_value : pyfloat) : M (list value) :=
  replicateM count (f <- draw (uniform min_value max_value) ;; ret (VFloat f)).

Definition generate_string_values (count : nat) (min_length max_length : Z)
    (allowed_chars : string) : M (list value) :=
  replicateM count
    (k <- draw (randint min_length max_length) ;;
     s <- draw (choices allowed_chars (Z.to_nat k)) ;;
     ret (VStr s)).

Definition generate_bool_values (count : nat) : M (list value) :=
  replicateM count (b <- draw choice_bool ;; ret (VBool b)).

Definition random_items (length : Z) : M (list value) :=
  replicateM (Z.to_nat length) (z <- draw (randint (-100) 100) ;; ret (VInt z)).

Definition generate_list_values (count : nat) : M (list value) :=
  replicateM count
    (length <- draw (randint 0 5) ;;
     items <- random_items length ;;
     ret (VList items)).

Definition generate_dict_values (count : nat) : M (list value) :=
  replicateM count
    (length <- draw (randint 0 5) ;;
     d <- repeatM (Z.to_nat length)
            (fun d =>
               k <- draw (randint 1 5) ;;
               key <- draw (choices ascii_lowercase (Z.to_nat k)) ;;
               v <- draw (randint (-100) 100) ;;
               ret (assoc_set key (VInt v) d))
            [] ;;
     ret (VDict d)).

Definition generate_tuple_values (count : nat) : M (list value) :=
  replicateM count
    (length <- draw (randint 0 5) ;;
     items <- random_items length ;;
     ret (VTuple items)).

(** [type_generators.get(param_type)], with the default arguments of the
    generator filled in. *)
Definition get_generator_for_type (param_type : pytype) : option (nat -> M (list value)) :=
  match param_type with
  | TInt => Some (fun count => generate_int_values count (-1000) 1000)
  | TFloat => Some (fun count => generate_float_values count (py_float (-1000)) (py_float 1000))
  | TStr => Some (fun count => generate_string_values count 0 20 (ascii_letters ++ digits))
  | TBool => Some generate_bool_values
  | TList => Some generate_list_values
  | TDict => Some generate_dict_values
  | TTuple => Some generate_tuple_values
  | _ => None
  end.

End ValueGenerator.

(** [edge_cases.get(param_type, [None])] *)
Definition get_edge_cases_for_type (param_type : pytype) : list value :=
  match param_type with
  | TInt => [VInt 0; VInt 1; VInt (-1); VInt 100; VInt (-100)]
  | TFloat => [VFloat (py_float 0); VFloat (py_float 1); VFloat (py_float (-1));
               VFloat (py_float 100); VFloat (py_float (-100))]
  | TStr => [VStr ""; VStr "a"; VStr " "; VStr "abc"; VStr (str_repeat "A" 100)]
  | TBool => [VBool true; VBool false]
  | TList => [VList []; VList [VInt 1]; VList [VInt 1; VInt 2; VInt 3]]
  | TDict => [VDict []; VDict [("key", VStr "value")]; VDict [("a", VInt 1); ("b", VInt 2)]]
  | TTuple => [VTuple []; VTuple [VInt 1]; VTuple [VInt 1; VInt 2; VInt 3]]
  | _ => [VNone]
  end.

End ValueGenerator.

(* ================================================================== *)
(** * Class analysis by reflection ([class_analyzer.py]) *)

Module ClassAnalyzer.

(** The descriptor stored for a constructor or a method; the ['signature']
    entry is kept through the parameter names taken from it. *)
Record descriptor : Type := {
  parameters : list string;
  type_hints : list (string * pytype);
  defined_in : string
}.

Record property_descriptor : Type := {
  has_getter : bool;
  has_setter : bool;
  has_deleter : bool;
  prop_type_hints : list (string * pytype);
  prop_defined_in : string
}.

(** The dictionary [class_info]; [constructor] is [None] while the key
    ['constructor'] is absent. *)
Record class_info : Type := {
  name : string;
  methods : list (string * descriptor);
  properties : list (string * property_descriptor);
  class_methods : list (string * descriptor);
  static_methods : list (string * descriptor);
  special_methods : list (string * descriptor);
  base_classes : list string;
  constructor : option descriptor
}.

(** [class_info] together with the two sets of processed names that
    [analyze_class] hands to its helpers. *)
Record analysis : Type := {
  info : class_info;
  processed_methods : list string;
  processed_properties : list string
}.

Definition mem (x : string) (s : list string) : bool := existsb (String.eqb x) s.

Definition set_methods (ci : class_info) (m : list (string * descriptor)) : class_info :=
  {| name := name ci; methods := m; properties := properties ci;
     class_methods := class_methods ci; static_methods := static_methods ci;
     special_methods := special_methods ci; base_classes := base_classes ci;
     constructor := constructor ci |}.

Definition set_properties (ci : class_info) (m : list (string * property_descriptor)) : class_info :=
  {| name := name ci; methods := methods ci; properties := m;
     class_methods := class_methods ci; static_methods := static_methods ci;
     special_methods := special_methods ci; base_classes := base_classes ci;
     constructor := constructor ci |}.

Definition set_class_methods (ci : class_info) (m : list (string * descriptor)) : class_info :=
  {| name := name ci; methods := methods ci; properties := properties ci;
     class_methods := m; static_methods := static_methods ci;
     special_methods := special_methods ci; base_classes := base_classes ci;
     constructor := constructor ci |}.

Definition set_static_methods (ci : class_info) (m : list (string * descriptor)) : class_info :=
  {| name := name ci; methods := methods ci; properties := properties ci;
     class_methods := class_methods ci; static_methods := m;
     special_methods := special_methods ci; base_classes := base_classes ci;
     constructor := constructor ci |}.

Definition set_special_methods (ci : class_info) (m : list (string * descriptor)) : class_info :=
  {| name := name ci; methods := methods ci; properties := properties ci;
     class_methods := class_methods ci; static_methods := static_methods ci;
     special_methods := m; base_classes := base_classes ci;
     constructor := constructor ci |}.

Definition set_constructor (ci : class_info) (d : descriptor) : class_info :=
  {| name := name ci; methods := methods ci; properties := properties ci;
     class_methods := class_methods ci; static_methods := static_methods ci;
     special_methods := special_methods ci; base_classes := base_classes ci;
     constructor := Some d |}.

Definition with_info (st : analysis) (ci : class_info) : analysis :=
  {| info := ci; processed_methods := processed_methods st;
     processed_properties := processed_properties st |}.

Definition add_processed_method (st : analysis) (n : string) : analysis :=
  {| info := info st; processed_methods := n :: processed_methods st;
     processed_properties := processed_properties st |}.

Definition add_processed_property (st : analysis) (n : string) : analysis :=
  {| info := info st; processed_methods := processed_methods st;
     processed_properties := n :: processed_properties st |}.

(** [name.startswith(p)] and [name.endswith(p)] *)
Definition startswith (n p : string) : bool := String.prefix p n.

Definition endswith (n p : string) : bool :=
  let ln := String.length n in
  let lp := String.length p in
  if Nat.leb lp ln then String.eqb (String.substring (ln - lp) lp n) p else false.

(** The class and its bases, depth first, derived before base. *)
Fixpoint _get_class_hierarchy (cls : pyclass) : list pyclass :=
  match cls with
  | PyClass _ bases _ _ _ _ _ _ _ =>
      cls :: (fix extend (bs : list pyclass) : list pyclass :=
                match bs with
                | [] => []
                | base :: rest => _get_class_hierarchy base ++ extend rest
                end) bases
  end.

(** [getattr(cls, name)]: the entry of the first class of the method
    resolution order that has [name] in its own namespace. *)
Definition class_getattr (cls : pyclass) (n : string) : option attribute :=
  (fix look (cs : list pyclass) : option attribute :=
     match cs with
     | [] => None
     | c :: rest =>
         match assoc_get n (cls_dict c) with
         | Some a => Some a
         | None => look rest
         end
     end) (cls :: cls_mro cls).

Fixpoint insert_sorted (x : string) (l : list string) : list string :=
  match l with
  | [] => [x]
  | y :: rest =>
      match String.compare x y with
      | Lt => x :: l
      | Eq => l
      | Gt => y :: insert_sorted x rest
      end
  end.

(** [dir(cls)], without the names that only [object] provides: the names
    of the class and of its ancestors, sorted. *)
Definition class_dir (cls : pyclass) : list string :=
  fold_right insert_sorted []
    (flat_map (fun c => dict_keys (cls_dict c)) (cls :: cls_mro cls)).

(** [inspect.getmembers(cls, predicate)] with the predicate given as the
    projection of the members it accepts. *)
Definition getmembers {A : Type} (cls : pyclass) (accept : attribute -> option A)
    : list (string * A) :=
  flat_map
    (fun n =>
       match class_getattr cls n with
       | Some a => match accept a with Some x => [(n, x)] | None => [] end
       | None => []
       end)
    (class_dir cls).

(** [inspect.isfunction]: on the class, a plain function and a static
    method both read as a function; a class method reads as a bound
    method. *)
Definition isfunction (a : attribute) : option pyfunction :=
  match a with
  | AFunction f | AStaticMethod f => Some f
  | _ => None
  end.

(** [isinstance(x, property)], with [fget], [fset], [fdel]. *)
Definition isproperty (a : attribute)
    : option (option pyfunction * option pyfunction * option pyfunction) :=
  match a with
  | AProperty g s d => Some (g, s, d)
  | _ => None
  end.

(** The descriptor built from [inspect.signature] and [get_type_hints];
    [None] when either raises.  [skip] lists the parameter names left
    out. *)
Definition describe (f : pyfunction) (skip : list string) (cls : pyclass)
    : option descriptor :=
  match fn_signature f with
  | None => None
  | Some params =>
      match fn_hints f with
      | None => None
      | Some h =>
          Some {| parameters := filter (fun p => negb (mem p skip)) params;
                  type_hints := h;
                  defined_in := cls_name cls |}
      end
  end.

(** The loop body of [_identify_special_method_types] for one entry of
    [cls.__dict__].  A name is marked processed before its signature and
    type hints are read; when reading them raises, the warning is logged
    and the member is left out. *)
Definition identify_entry (cls : pyclass) (st : analysis) (entry : string * attribute)
    : analysis :=
  let (n, value) := entry in
  if mem n (processed_methods st) then st
  else
    match value with
    | AStaticMethod method =>
        let st := add_processed_method st n in
        match describe method [] cls with
        | Some d =>
            with_info st (set_static_methods (info st)
                            (assoc_set n d (static_methods (info st))))
        | None => st
        end
    | AClassMethod method =>
        let st := add_processed_method st n in
        match describe method ["cls"] cls with
        | Some d =>
            with_info st (set_class_methods (info st)
                            (assoc_set n d (class_methods (info st))))
        | None => st
        end
    | _ => st
    end.

Definition _identify_special_method_types (cls : pyclass) (st : analysis) : analysis :=
  fold_left (identify_entry cls) (cls_dict cls) st.

(** [object.__init__], which a class without an [__init__] of its own
    inherits: [(self, /, *args, **kwargs)], no annotations. *)
Definition object_init : pyfunction :=
  PyFunction (Some ["self"; "args"; "kwargs"]) (Some []).

(** [cls.__init__] as [inspect.signature] and [get_type_hints] see it; an
    [__init__] entry that is not a plain function is taken as not
    introspectable. *)
Definition init_method (cls : pyclass) : pyfunction :=
  match class_getattr cls "__init__" with
  | None => object_init
  | Some (AFunction f) => f
  | Some _ => PyFunction None None
  end.

(** The constructor block of [_analyze_class_members];
    [hasattr(cls, '__init__')] holds for every class. *)
Definition analyze_constructor (cls : pyclass) (st : analysis) : analysis :=
  match constructor (info st) with
  | Some _ => st
  | None =>
      match describe (init_method cls) ["self"] cls with
      | Some d => with_info st (set_constructor (info st) d)
      | None => st
      end
  end.

(** The loop body over [inspect.getmembers(cls, predicate=inspect.isfunction)]. *)
Definition analyze_method (cls : pyclass) (st : analysis) (member : string * pyfunction)
    : analysis :=
  let (n, method) := member in
  if mem n (processed_methods st) then st
  else
    let st := add_processed_method st n in
    if startswith n "__" && endswith n "__" then
      if negb (String.eqb n "__init__") then
        match describe method ["self"; "cls"] cls with
        | Some d =>
            with_info st (set_special_methods (info st)
                            (assoc_set n d (special_methods (info st))))
        | None => st
        end
      else st
    else if startswith n "_" then st
    else
      match describe method ["self"; "cls"] cls with
      | Some d =>
          with_info st (set_methods (info st) (assoc_set n d (methods (info st))))
      | None => st
      end.

(** The loop body over the members that are properties. *)
Definition analyze_property (cls : pyclass) (st : analysis)
    (member : string * (option pyfunction * option pyfunction * option pyfunction))
    : analysis :=
  let '(n, (fget, fset, fdel)) := member in
  if mem n (processed_properties st) then st
  else
    let st := add_processed_property st n in
    let hints :=
      match fget with
      | Some g => match fn_hints g with Some h => h | None => [] end
      | None => []
      end in
    let d := {| has_getter := match fget with Some _ => true | None => false end;
                has_setter := match fset with Some _ => true | None => false end;
                has_deleter := match fdel with Some _ => true | None => false end;
                prop_type_hints := hints;
                prop_defined_in := cls_name cls |} in
    with_info st (set_properties (info st) (assoc_set n d (properties (info st)))).

Definition _analyze_class_members (cls : pyclass) (st : analysis) : analysis :=
  let st := analyze_constructor cls st in
  let st := fold_left (analyze_method cls) (getmembers cls isfunction) st in
  fold_left (analyze_property cls) (getmembers cls isproperty) st.

Definition analyze_class (cls : pyclass) : class_info :=
  let class_info :=
    {| name := cls_name cls;
       methods := [];
       properties := [];
       class_methods := [];
       static_methods := [];
       special_methods := [];
       base_classes := map cls_name (cls_bases cls);
       constructor := None |} in
  let st := {| info := class_info; processed_methods := []; processed_properties := [] |} in
  let class_hierarchy := _get_class_hierarchy cls in
  let st := fold_left (fun st current_cls => _identify_special_method_types current_cls st)
              class_hierarchy st in
  let st := fold_left (fun st current_cls => _analyze_class_members current_cls st)
              class_hierarchy st in
  info st.

End ClassAnalyzer.

(* ================================================================== *)
(** * The equivalence filter ([test_generator_methods.py]) *)

Section EquivalenceFilter.

Context {RT : Runtime}.

(** The [else] branch of the loop body: both representations must be
    produced and be the same string. *)
Definition repr_equal (val1 val2 : value) : bool :=
  match repr val1 with
  | None => false
  | Some s1 =>
      match repr val2 with
      | None => false
      | Some s2 => String.eqb s1 s2
      end
  end.

(** One iteration of the loop of [_are_functionally_equivalent] over
    [zip(inputs1, inputs2)]: [false] where the body returns [False], [true]
    where it falls through to the next position.  The nested calls on the
    singleton lists [[item1]], [[item2]] are the recursive calls. *)
Fixpoint position_equivalent (val1 val2 : value) {struct val1} : bool :=
  match val1, val2 with
  | (VInt _ | VFloat _ | VStr _ | VBool _), (VInt _ | VFloat _ | VStr _ | VBool _) =>
      scalar_eqb val1 val2
  | (VList xs1 | VTuple xs1), (VList xs2 | VTuple xs2) =>
      if negb (Nat.eqb (List.length xs1) (List.length xs2)) then false
      else
        (fix items (l1 l2 : list value) {struct l1} : bool :=
           match l1, l2 with
           | item1 :: r1, item2 :: r2 =>
               if negb (position_equivalent item1 item2) then false else items r1 r2
           | _, _ => true
           end) xs1 xs2
  | VDict d1, VDict d2 =>
      if negb (Nat.eqb (List.length d1) (List.length d2)) then false
      else
        (fix keys (l1 : list (string * value)) {struct l1} : bool :=
           match l1 with
           | [] => true
           | (key, v1) :: r1 =>
               match assoc_get key d2 with
               | None => false
               | Some v2 =>
                   if negb (position_equivalent v1 v2) then false else keys r1
               end
           end) d1
  | _, _ => repr_equal val1 val2
  end.

Fixpoint positions_equivalent (l1 l2 : list value) : bool :=
  match l1, l2 with
  | val1 :: r1, val2 :: r2 =>
      if negb (position_equivalent val1 val2) then false else positions_equivalent r1 r2
  | _, _ => true
  end.

Definition _are_functionally_equivalent (inputs1 inputs2 : list value) : bool :=
  if negb (Nat.eqb (List.length inputs1) (List.length inputs2)) then false
  else positions_equivalent inputs1 inputs2.

End EquivalenceFilter.

(* ================================================================== *)
(** * Case synthesis for free functions ([test_generator.py]) *)

Module TestCaseGenerator.
Section TestCaseGenerator.

Context {RT : Runtime}.

Import ClassAnalyzer.

Definition DEFAULT_NUM_CASES : nat := 5.

(** The last lines of [_generate_value_for_type]: the generator of a
    standard type is asked for one value, any other type gives [None]. *)
Definition generate_standard_value (param_type : pytype) : M value :=
  match ValueGenerator.get_generator_for_type param_type with
  | Some generator =>
      vs <- generator 1%nat ;;
      ret (match vs with v :: _ => v | [] => VNone end)
  | None => ret VNone
  end.

(** [t.__name__] for the seven standard types. *)
Definition standard_type_name (t : pytype) : option string :=
  match t with
  | TInt => Some "int"
  | TFloat => Some "float"
  | TStr => Some "str"
  | TBool => Some "bool"
  | TList => Some "list"
  | TDict => Some "dict"
  | TTuple => Some "tuple"
  | _ => None
  end.

(** The guard [class_type and param_type and hasattr(param_type,
    '__name__') and param_type.__name__ == class_type.__name__], giving
    the class [param_type] when it holds.  The guard compares names only,
    so an annotation that is not a user class passes it as well when the
    class under analysis bears its name ([class int], say), and the
    engine then analyses and calls the built-in type.  That case is not
    described here: the class under analysis is taken not to bear the
    name of an annotation that is no user class, and the results about
    standard types say so by [standard_type_name]. *)
Definition names_class_under_analysis (param_type : pytype) (class_type : option pyclass)
    : option pyclass :=
  match class_type, param_type with
  | Some ct, TClass pt => if String.eqb (cls_name pt) (cls_name ct) then Some pt else None
  | _, _ => None
  end.

(** [_generate_value_for_type(param_type, param_name, class_type)].  The
    recursive calls for the constructor parameters pass no [class_type],
    so they take the standard path only. *)
Definition _generate_value_for_type (param_type : pytype) (param_name : string)
    (class_type : option pyclass) : M value :=
  match names_class_under_analysis param_type class_type with
  | Some pt =>
      let class_info := analyze_class pt in
      match constructor class_info with
      | Some ctor =>
          constructor_inputs <-
            mapM (fun inner_param_name =>
                    generate_standard_value (hint_of (type_hints ctor) inner_param_name))
                 (parameters ctor) ;;
          c <- call (cls_new pt constructor_inputs) ;;
          match c with
          | Returned obj => ret (obj_value obj)
          | Raised _ => ret VNone
          end
      | None => generate_standard_value param_type
      end
  | None => generate_standard_value param_type
  end.

(** The inner loop that fills [inputs] for a boundary candidate: the
    boundary value at position [idx], a generated value elsewhere. *)
Definition edge_inputs (param_names : list string) (type_hints : list (string * pytype))
    (idx : nat) (edge_value : value) (class_type : option pyclass) : M (list value) :=
  mapM (fun '(inner_idx, inner_param) =>
          if Nat.eqb inner_idx idx then ret edge_value
          else _generate_value_for_type (hint_of type_hints inner_param) inner_param class_type)
       (enumerate param_names).

(** The loop that fills [inputs] for a random candidate. *)
Definition random_inputs (param_names : list string) (type_hints : list (string * pytype))
    (class_type : option pyclass) : M (list value) :=
  mapM (fun param_name =>
          _generate_value_for_type (hint_of type_hints param_name) param_name class_type)
       param_names.

(** The [try] block around [func( *inputs)]: a returned value and an
    error are recorded, a [TimeoutException] is skipped. *)
Definition try_call (func : pyfunc) (inputs : list value) (test_cases : list TestCase.t)
    : M (list TestCase.t) :=
  c <- call_with_alarm timeout_handler (func_call func inputs) ;;
  match c with
  | Returned expected_output =>
      ret (test_cases ++ [ {| TestCase.inputs := inputs;
                              TestCase.expected_output := expected_output;
                              TestCase.raises := None |} ])
  | Raised (TimeoutException | TimeoutSubclass _) => ret test_cases
  | Raised e =>
      ret (test_cases ++ [ {| TestCase.inputs := inputs;
                              TestCase.expected_output := VNone;
                              TestCase.raises := Some e |} ])
  end.

Definition _generate_edge_cases (func : pyfunc) : M (list TestCase.t) :=
  let param_names := func_parameters func in
  let type_hints := func_type_hints func in
  match param_names with
  | [] => ret []
  | _ =>
      for_each (enumerate param_names)
        (fun '(idx, param_name) edge_cases =>
           for_each (ValueGenerator.get_edge_cases_for_type (hint_of type_hints param_name))
             (fun edge_value edge_cases =>
                inputs <- edge_inputs param_names type_hints idx edge_value None ;;
                try_call func inputs edge_cases)
             edge_cases)
        []
  end.

Definition generate_test_cases (func : pyfunc) (num_cases : nat) : M (list TestCase.t) :=
  edge_cases <- _generate_edge_cases func ;;
  repeatM num_cases
    (fun test_cases =>
       inputs <- random_inputs (func_parameters func) (func_type_hints func) None ;;
       try_call func inputs test_cases)
    edge_cases.

End TestCaseGenerator.
End TestCaseGenerator.

(* ================================================================== *)
(** * Case synthesis for classes ([test_generator_methods.py]) *)

(** The [method_type] strings ['methods'], ['class_methods'] and
    ['static_methods']. *)
Inductive method_kind : Type :=
| Methods
| ClassMethods
| StaticMethods.

Section ClassCases.

Context {RT : Runtime}.

Import ClassAnalyzer.
Import TestCaseGenerator.

(** The loop [for existing_inputs in used_inputs: ...] that sets
    [is_duplicate]. *)
Definition is_duplicate (inputs : list value) (used_inputs : list (list value)) : bool :=
  existsb (fun existing_inputs => _are_functionally_equivalent inputs existing_inputs)
          used_inputs.

Definition constructor_case (cls : pyclass) (inputs : list value) (raises : option exn)
    : ClassMethodTestCase.t :=
  {| ClassMethodTestCase.class_type := cls;
     ClassMethodTestCase.constructor_inputs := inputs;
     ClassMethodTestCase.method_name := "__init__";
     ClassMethodTestCase.method_inputs := [];
     ClassMethodTestCase.expected_output := VNone;
     ClassMethodTestCase.raises := raises;
     ClassMethodTestCase.is_property_getter := false |}.

(** The [try] block around [cls( *inputs)] in the two loops of
    [_generate_constructor_test_cases]; the disposition installed before
    the alarm is [signal.SIG_DFL]. *)
Definition try_constructor (cls : pyclass) (inputs : list value)
    (test_cases : list ClassMethodTestCase.t) : M (list ClassMethodTestCase.t) :=
  c <- call_with_alarm SIG_DFL (cls_new cls inputs) ;;
  match c with
  | Returned _ => ret (test_cases ++ [constructor_case cls inputs None])
  | Raised (TimeoutException | TimeoutSubclass _) => ret test_cases
  | Raised e => ret (test_cases ++ [constructor_case cls inputs (Some e)])
  end.

(** The body of the boundary loop of [_generate_constructor_test_cases],
    from the duplicate check on. *)
Definition constructor_candidate (cls : pyclass) (inputs : list value)
    (st : list ClassMethodTestCase.t * list (list value))
    : M (list ClassMethodTestCase.t * list (list value)) :=
  let '(test_cases, used_inputs) := st in
  if is_duplicate inputs used_inputs then ret (test_cases, used_inputs)
  else
    let used_inputs := used_inputs ++ [inputs] in
    test_cases <- try_constructor cls inputs test_cases ;;
    ret (test_cases, used_inputs).

(** The boundary loop of [_generate_constructor_test_cases]. *)
Definition constructor_edge_cases (cls : pyclass) (constructor_info : descriptor)
    : M (list ClassMethodTestCase.t * list (list value)) :=
  let param_names := parameters constructor_info in
  let hints := type_hints constructor_info in
  for_each (enumerate param_names)
    (fun '(index, param_name) st =>
       for_each (ValueGenerator.get_edge_cases_for_type (hint_of hints param_name))
         (fun edge_value st =>
            inputs <- edge_inputs param_names hints index edge_value (Some cls) ;;
            constructor_candidate cls inputs st)
         st)
    ([], []).

Definition _generate_constructor_test_cases (cls : pyclass) (constructor_info : descriptor)
    (num_cases : nat) : M (list ClassMethodTestCase.t) :=
  let param_names := parameters constructor_info in
  let hints := type_hints constructor_info in
  match param_names with
  | [] =>
      c <- call (cls_new cls []) ;;
      match c with
      | Returned _ => ret [constructor_case cls [] None]
      | Raised e => ret [constructor_case cls [] (Some e)]
      end
  | _ =>
      '(test_cases, used_inputs) <- constructor_edge_cases cls constructor_info ;;
      repeatM num_cases
        (fun test_cases =>
           inputs <- random_inputs param_names hints (Some cls) ;;
           try_constructor cls inputs test_cases)
        test_cases
  end.

Definition method_case (cls : pyclass) (constructor_inputs : list value)
    (method_name : string) (inputs : list value) (expected_output : value)
    (raises : option exn) : ClassMethodTestCase.t :=
  {| ClassMethodTestCase.class_type := cls;
     ClassMethodTestCase.constructor_inputs := constructor_inputs;
     ClassMethodTestCase.method_name := method_name;
     ClassMethodTestCase.method_inputs := inputs;
     ClassMethodTestCase.expected_output := expected_output;
     ClassMethodTestCase.raises := raises;
     ClassMethodTestCase.is_property_getter := false |}.

(** What runs inside the [try] block of a method candidate: an instance
    method is called on an instance constructed for this candidate, a class
    method or a static method through the class. *)
Definition method_call (cls : pyclass) (method_type : method_kind) (method_name : string)
    (constructor_inputs inputs : list value) : behaviour value :=
  match method_type with
  | Methods =>
      and_then (cls_new cls constructor_inputs)
               (fun instance => obj_call cls method_name instance inputs)
  | ClassMethods => cls_call cls method_name inputs
  | StaticMethods => cls_call cls method_name inputs
  end.

Definition try_method (cls : pyclass) (method_type : method_kind) (method_name : string)
    (constructor_inputs inputs : list value) (test_cases : list ClassMethodTestCase.t)
    : M (list ClassMethodTestCase.t) :=
  c <- call_with_alarm timeout_handler
         (method_call cls method_type method_name constructor_inputs inputs) ;;
  match c with
  | Returned expected_output =>
      ret (test_cases ++
           [method_case cls constructor_inputs method_name inputs expected_output None])
  | Raised (TimeoutException | TimeoutSubclass _) => ret test_cases
  | Raised e =>
      ret (test_cases ++
           [method_case cls constructor_inputs method_name inputs VNone (Some e)])
  end.

(** The first block of [_generate_method_test_cases]: for an instance
    method, [cls()] is tried, then [cls( *constructor_inputs)] with
    generated arguments; when that fails too, a case carrying the error is
    appended.  The result is [valid_instance], [constructor_inputs] and
    [test_cases]. *)
Definition create_instance_for_method (cls : pyclass) (method_name : string)
    (method_type : method_kind)
    : M (option instance * list value * list ClassMethodTestCase.t) :=
  match method_type with
  | Methods =>
      c <- call (cls_new cls []) ;;
      match c with
      | Returned obj => ret (Some obj, [], [])
      | Raised _ =>
          let class_info := analyze_class cls in
          match constructor class_info with
          | Some constructor_info =>
              constructor_inputs <-
                random_inputs (parameters constructor_info) (type_hints constructor_info)
                              (Some cls) ;;
              c <- call (cls_new cls constructor_inputs) ;;
              match c with
              | Returned obj => ret (Some obj, constructor_inputs, [])
              | Raised e =>
                  ret (None, constructor_inputs,
                       [method_case cls constructor_inputs method_name [] VNone (Some e)])
              end
          | None => ret (None, [], [])
          end
      end
  | _ => ret (None, [], [])
  end.

(** The body shared by the boundary loop and the random loop of
    [_generate_method_test_cases], from the duplicate check on. *)
Definition method_candidate (cls : pyclass) (method_type : method_kind)
    (method_name : string) (constructor_inputs inputs : list value)
    (st : list ClassMethodTestCase.t * list (list value))
    : M (list ClassMethodTestCase.t * list (list value)) :=
  let '(test_cases, used_inputs) := st in
  if is_duplicate inputs used_inputs then ret (test_cases, used_inputs)
  else
    let used_inputs := used_inputs ++ [inputs] in
    test_cases <- try_method cls method_type method_name constructor_inputs inputs test_cases ;;
    ret (test_cases, used_inputs).

(** [_generate_method_test_cases] from the comment "Generate edge cases
    for method parameters" on: the single call of a method without
    parameters, or the boundary sweep followed by the random candidates. *)
Definition method_cases_with (cls : pyclass) (method_name : string)
    (method_info : descriptor) (method_type : method_kind) (num_cases : nat)
    (constructor_inputs : list value) (test_cases : list ClassMethodTestCase.t)
    : M (list ClassMethodTestCase.t) :=
  let param_names := parameters method_info in
  let hints := type_hints method_info in
  match param_names with
  | [] => try_method cls method_type method_name constructor_inputs [] test_cases
  | _ =>
      st <- for_each (enumerate param_names)
              (fun '(idx, param_name) st =>
                 for_each (ValueGenerator.get_edge_cases_for_type
                             (hint_of hints param_name))
                   (fun edge_value st =>
                      inputs <- edge_inputs param_names hints idx edge_value (Some cls) ;;
                      method_candidate cls method_type method_name constructor_inputs
                                       inputs st)
                   st)
              (test_cases, []) ;;
      '(test_cases, _) <-
        repeatM num_cases
          (fun st =>
             inputs <- random_inputs param_names hints (Some cls) ;;
             method_candidate cls method_type method_name constructor_inputs inputs st)
          st ;;
      ret test_cases
  end.

Definition _generate_method_test_cases (cls : pyclass) (method_name : string)
    (method_info : descriptor) (method_type : method_kind) (num_cases : nat)
    : M (list ClassMethodTestCase.t) :=
  '(valid_instance, constructor_inputs, test_cases) <-
    create_instance_for_method cls method_name method_type ;;
  match method_type, valid_instance with
  | Methods, None => ret test_cases
  | _, _ =>
      method_cases_with cls method_name method_info method_type num_cases
                        constructor_inputs test_cases
  end.

(** The first block of the two property generators: as for methods, but
    nothing is recorded when construction fails; [None] stands for the
    early [return []]. *)
Definition create_instance_for_property (cls : pyclass)
    : M (option (option instance * list value)) :=
  c <- call (cls_new cls []) ;;
  match c with
  | Returned obj => ret (Some (Some obj, []))
  | Raised _ =>
      let class_info := analyze_class cls in
      match constructor class_info with
      | Some constructor_info =>
          constructor_inputs <-
            random_inputs (parameters constructor_info) (type_hints constructor_info)
                          (Some cls) ;;
          c <- call (cls_new cls constructor_inputs) ;;
          match c with
          | Returned obj => ret (Some (Some obj, constructor_inputs))
          | Raised _ => ret None
          end
      | None => ret (Some (None, []))
      end
  end.

(** [getattr(valid_instance, prop_name)]; reading an attribute of [None]
    raises [AttributeError]. *)
Definition read_property (cls : pyclass) (valid_instance : option instance)
    (prop_name : string) : behaviour value :=
  match valid_instance with
  | Some obj => obj_getattr cls prop_name obj
  | None => Finishes 0 (Raised (OtherException "AttributeError"))
  end.

Definition getter_case (cls : pyclass) (constructor_inputs : list value)
    (prop_name : string) (expected_output : value) (raises : option exn)
    : ClassMethodTestCase.t :=
  {| ClassMethodTestCase.class_type := cls;
     ClassMethodTestCase.constructor_inputs := constructor_inputs;
     ClassMethodTestCase.method_name := "get_" ++ prop_name;
     ClassMethodTestCase.method_inputs := [];
     ClassMethodTestCase.expected_output := expected_output;
     ClassMethodTestCase.raises := raises;
     ClassMethodTestCase.is_property_getter := true |}.

Definition _generate_property_getter_test_cases (cls : pyclass) (prop_name : string)
    (prop_info : property_descriptor) (num_cases : nat) : M (list ClassMethodTestCase.t) :=
  created <- create_instance_for_property cls ;;
  match created with
  | None => ret []
  | Some (valid_instance, constructor_inputs) =>
      c <- call_with_alarm timeout_handler (read_property cls valid_instance prop_name) ;;
      match c with
      | Returned expected_output =>
          ret [getter_case cls constructor_inputs prop_name expected_output None]
      | Raised (TimeoutException | TimeoutSubclass _) => ret []
      | Raised e => ret [getter_case cls constructor_inputs prop_name VNone (Some e)]
      end
  end.

(** What runs inside the [try] block of a setter candidate:
    [instance = cls( *constructor_inputs)], [setattr(instance, prop_name,
    value)], [getattr(instance, prop_name)].  What the setter returned is
    dropped by [setattr]; the read goes to the instance after the write. *)
Definition write_then_read (cls : pyclass) (prop_name : string)
    (constructor_inputs : list value) (v : value) : behaviour value :=
  and_then (cls_new cls constructor_inputs)
    (fun instance =>
       and_then (obj_setattr cls prop_name instance v)
         (fun written => obj_getattr cls prop_name (snd written))).

Definition setter_case (cls : pyclass) (constructor_inputs : list value)
    (prop_name : string) (v : value) (expected_output : value) (raises : option exn)
    : ClassMethodTestCase.t :=
  {| ClassMethodTestCase.class_type := cls;
     ClassMethodTestCase.constructor_inputs := constructor_inputs;
     ClassMethodTestCase.method_name := "set_" ++ prop_name;
     ClassMethodTestCase.method_inputs := [v];
     ClassMethodTestCase.expected_output := expected_output;
     ClassMethodTestCase.raises := raises;
     ClassMethodTestCase.is_property_getter := false |}.

(** The body shared by the boundary loop and the random loop of
    [_generate_property_setter_test_cases]; [used_inputs] holds values, not
    tuples. *)
Definition setter_candidate (cls : pyclass) (prop_name : string)
    (constructor_inputs : list value) (v : value)
    (st : list ClassMethodTestCase.t * list value)
    : M (list ClassMethodTestCase.t * list value) :=
  let '(test_cases, used_inputs) := st in
  if existsb (fun existing_input => _are_functionally_equivalent [v] [existing_input])
             used_inputs
  then ret (test_cases, used_inputs)
  else
    let used_inputs := used_inputs ++ [v] in
    c <- call_with_alarm timeout_handler
           (write_then_read cls prop_name constructor_inputs v) ;;
    match c with
    | Returned expected_output =>
        ret (test_cases ++
             [setter_case cls constructor_inputs prop_name v expected_output None],
             used_inputs)
    | Raised (TimeoutException | TimeoutSubclass _) => ret (test_cases, used_inputs)
    | Raised e =>
        ret (test_cases ++
             [setter_case cls constructor_inputs prop_name v VNone (Some e)],
             used_inputs)
    end.

Definition _generate_property_setter_test_cases (cls : pyclass) (prop_name : string)
    (prop_info : property_descriptor) (num_cases : nat) : M (list ClassMethodTestCase.t) :=
  created <- create_instance_for_property cls ;;
  match created with
  | None => ret []
  | Some (valid_instance, constructor_inputs) =>
      let prop_type := hint_of (prop_type_hints prop_info) "return" in
      let edge_values := ValueGenerator.get_edge_cases_for_type prop_type in
      st <- for_each edge_values
              (fun v st => setter_candidate cls prop_name constructor_inputs v st)
              ([], []) ;;
      '(test_cases, _) <-
        repeatM num_cases
          (fun st =>
             v <- _generate_value_for_type prop_type prop_name (Some cls) ;;
             setter_candidate cls prop_name constructor_inputs v st)
          st ;;
      ret test_cases
  end.

(** [TestCaseGenerator.generate_class_test_cases]: the constructor, then
    the instance, class and static methods, then the properties; the
    result maps a member name to its cases. *)
Definition generate_class_test_cases (cls : pyclass) (num_cases : nat)
    : M (list (string * list ClassMethodTestCase.t)) :=
  let class_info := analyze_class cls in
  test_cases <-
    match constructor class_info with
    | Some constructor_info =>
        constructor_cases <- _generate_constructor_test_cases cls constructor_info num_cases ;;
        ret (assoc_set "__init__" constructor_cases [])
    | None => ret []
    end ;;
  test_cases <-
    for_each [(Methods, methods class_info);
              (ClassMethods, class_methods class_info);
              (StaticMethods, static_methods class_info)]
      (fun '(method_type, method_dict) test_cases =>
         for_each method_dict
           (fun '(method_name, method_info) test_cases =>
              method_cases <-
                _generate_method_test_cases cls method_name method_info method_type num_cases ;;
              ret (assoc_set method_name method_cases test_cases))
           test_cases)
      test_cases ;;
  for_each (properties class_info)
    (fun '(prop_name, prop_info) test_cases =>
       test_cases <-
         (if has_getter prop_info then
            getter_cases <- _generate_property_getter_test_cases cls prop_name prop_info num_cases ;;
            ret (assoc_set ("get_" ++ prop_name) getter_cases test_cases)
          else ret test_cases) ;;
       if has_setter prop_info then
         setter_cases <- _generate_property_setter_test_cases cls prop_name prop_info num_cases ;;
         ret (assoc_set ("set_" ++ prop_name) setter_cases test_cases)
       else ret test_cases)
    test_cases.

End ClassCases.

(* ================================================================== *)
(** * The callables the synthesizer processes *)

Section Callables.

Context {RT : Runtime}.

Import ClassAnalyzer.

Inductive callable : Type :=
| FreeFunction (func : pyfunc)
| Constructor (cls : pyclass) (constructor_info : descriptor)
| Method (cls : pyclass) (method_name : string) (method_info : descriptor)
         (method_type : method_kind)
| PropertySetter (cls : pyclass) (prop_name : string) (prop_info : property_descriptor).

(** The input tuples of the case records accumulated for a callable, in
    the order of the records. *)
Definition recorded_inputs (c : callable) (num_cases : nat) : M (list (list value)) :=
  match c with
  | FreeFunction func =>
      cases <- TestCaseGenerator.generate_test_cases func num_cases ;;
      ret (map TestCase.inputs cases)
  | Constructor cls constructor_info =>
      cases <- _generate_constructor_test_cases cls constructor_info num_cases ;;
      ret (map ClassMethodTestCase.constructor_inputs cases)
  | Method cls method_name method_info method_type =>
      cases <- _generate_method_test_cases cls method_name method_info method_type num_cases ;;
      ret (map ClassMethodTestCase.method_inputs cases)
  | PropertySetter cls prop_name prop_info =>
      cases <- _generate_property_setter_test_cases cls prop_name prop_info num_cases ;;
      ret (map ClassMethodTestCase.method_inputs cases)
  end.

(** The callables whose candidates all pass the duplicate check before
    they are invoked. *)
Definition filtered_throughout (c : callable) : bool :=
  match c with
  | Method _ _ _ _ | PropertySetter _ _ _ => true
  | FreeFunction _ | Constructor _ _ => false
  end.

End Callables.

(* ================================================================== *)
(** * What the serializer compares ([pytest_generator.py]) *)

Module PytestGenerator.

(** The checks rendered for a function: [assert f( *inputs) == expected]
    for a case of the parametrised test, [with pytest.raises(E):
    f( *inputs)] for a case that raises. *)
Inductive check : Type :=
| AssertEqual (inputs : list value) (expected : value)
| AssertRaises (inputs : list value) (e : exn).

(** [[tc for tc in test_cases if tc.raises is None]] *)
Definition regular_cases (test_cases : list TestCase.t) : list TestCase.t :=
  filter (fun tc => match TestCase.raises tc with None => true | Some _ => false end)
         test_cases.

(** [[tc for tc in test_cases if tc.raises is not None]] *)
Definition exception_cases (test_cases : list TestCase.t) : list TestCase.t :=
  filter (fun tc => match TestCase.raises tc with None => false | Some _ => true end)
         test_cases.

Definition function_checks (test_cases : list TestCase.t) : list check :=
  map (fun tc => AssertEqual (TestCase.inputs tc) (TestCase.expected_output tc))
      (regular_cases test_cases)
  ++
  flat_map (fun tc =>
              match TestCase.raises tc with
              | Some e => [AssertRaises (TestCase.inputs tc) e]
              | None => []
              end)
           (exception_cases test_cases).

End PytestGenerator.

(* ================================================================== *)
(** * Structural equivalence, as the specification words it *)

Section EquivalenceSpec.

Context {RT : Runtime}.

(** Scalars compare by value; ordered collections by length, then
    pairwise; mappings by key set and by the values under each key; any
    other pair by its printable representation, which must exist. *)
Inductive structurally_equivalent : value -> value -> Prop :=
| SE_scalar (a b : value) :
    is_scalar a = true -> is_scalar b = true ->
    scalar_eqb a b = true ->
    structurally_equivalent a b
| SE_sequence (a b : value) (xs ys : list value) :
    as_sequence a = Some xs -> as_sequence b = Some ys ->
    List.length xs = List.length ys ->
    Forall2 structurally_equivalent xs ys ->
    structurally_equivalent a b
| SE_mapping (d1 d2 : list (string * value)) :
    (forall k, In k (dict_keys d1) <-> In k (dict_keys d2)) ->
    (forall k v1 v2, assoc_get k d1 = Some v1 -> assoc_get k d2 = Some v2 ->
                     structurally_equivalent v1 v2) ->
    structurally_equivalent (VDict d1) (VDict d2)
| SE_other (a b : value) (s : string) :
    is_scalar a && is_scalar b = false ->
    is_sequence a && is_sequence b = false ->
    is_dict a && is_dict b = false ->
    repr a = Some s -> repr b = Some s ->
    structurally_equivalent a b.

(** Two tuples no call of the filter relates, in either order. *)
Definition non_equivalent (inputs1 inputs2 : list value) : Prop :=
  _are_functionally_equivalent inputs1 inputs2 = false /\
  _are_functionally_equivalent inputs2 inputs1 = false.

End EquivalenceSpec.

(* ================================================================== *)
(** * A concrete host and sample targets *)

Module Examples.

Import ClassAnalyzer.

(** A deterministic stand-in for the random module: the state counts the
    draws made so far. *)
Definition demo_randint (a b : Z) (g : nat) : Z * nat :=
  ((a + Z.of_nat g mod (b - a + 1))%Z, S g).

Definition demo_uniform (a b : pyfloat) (g : nat) : pyfloat * nat := (a, S g).

Definition demo_choices (chars : string) (k : nat) (g : nat) : string * nat :=
  (match String.get (g mod (String.length chars)) chars with
   | Some c => ValueGenerator.str_repeat (String c EmptyString) k
   | None => EmptyString
   end, S g).

Definition demo_choice_bool (g : nat) : bool * nat := (Nat.even g, S g).

(** A stand-in for [repr] on the values the examples meet. *)
Definition demo_repr (v : value) : option string :=
  match v with
  | VNone => Some "None"
  | VBool true => Some "True"
  | VBool false => Some "False"
  | VStr s => Some ("'" ++ s ++ "'")%string
  | VObj cn _ => Some ("<" ++ cn ++ " object>")%string
  | _ => None
  end.

Definition posix : Runtime :=
  {| rng := nat;
     randint := demo_randint;
     uniform := demo_uniform;
     choices := demo_choices;
     choice_bool := demo_choice_bool;
     repr := demo_repr;
     IS_WINDOWS := false |}.

Definition no_method (n : string) (args : list value) : behaviour value :=
  Finishes 0 (Raised (OtherException "AttributeError")).
Definition no_instance_method (n : string) (obj : instance) (args : list value)
    : behaviour value :=
  Finishes 0 (Raised (OtherException "AttributeError")).
Definition no_property (n : string) (obj : instance) : behaviour value :=
  Finishes 0 (Raised (OtherException "AttributeError")).
Definition no_setter (n : string) (obj : instance) (v : value)
    : behaviour (value * instance) :=
  Finishes 0 (Raised (OtherException "AttributeError")).

(** [def flag(b: bool) -> bool: return b] *)
Definition flag : pyfunc :=
  {| func_name := "flag";
     func_parameters := ["b"];
     func_type_hints := [("b", TBool); ("return", TBool)];
     func_call := fun args =>
       match args with
       | [v] => Finishes 1 (Returned v)
       | _ => Finishes 1 (Raised (OtherException "TypeError"))
       end |}.

(** [def spin(n: int) -> int], which loops for ever on [0] and returns
    its argument otherwise. *)
Definition spin : pyfunc :=
  {| func_name := "spin";
     func_parameters := ["n"];
     func_type_hints := [("n", TInt); ("return", TInt)];
     func_call := fun args =>
       match args with
       | [VInt 0] => Never
       | [v] => Finishes 1 (Returned v)
       | _ => Finishes 1 (Raised (OtherException "TypeError"))
       end |}.

(** [def divide(a: int, b: int): return a // b], raising
    [ZeroDivisionError] when [b] is [0]. *)
Definition divide : pyfunc :=
  {| func_name := "divide";
     func_parameters := ["a"; "b"];
     func_type_hints := [("a", TInt); ("b", TInt)];
     func_call := fun args =>
       match args with
       | [VInt a; VInt 0] => Finishes 1 (Raised (OtherException "ZeroDivisionError"))
       | [VInt a; VInt b] => Finishes 1 (Returned (VInt (a / b)))
       | _ => Finishes 1 (Raised (OtherException "TypeError"))
       end |}.

(** [class Base: def foo(self) -> int] and [class Derived(Base): pass]. *)
Definition Base : pyclass :=
  PyClass "Base" [] []
    [("foo", AFunction (PyFunction (Some ["self"]) (Some [("return", TInt)])))]
    (fun args => match args with
                 | [] => Finishes 1 (Returned {| inst_class := "Base"; inst_attrs := [] |})
                 | _ => Finishes 1 (Raised (OtherException "TypeError"))
                 end)
    no_method
    (fun n obj args => if String.eqb n "foo" then Finishes 1 (Returned (VInt 1))
                       else Finishes 0 (Raised (OtherException "AttributeError")))
    no_property no_setter.

Definition Derived : pyclass :=
  PyClass "Derived" [Base] [Base] []
    (fun args => match args with
                 | [] => Finishes 1 (Returned {| inst_class := "Derived"; inst_attrs := [] |})
                 | _ => Finishes 1 (Raised (OtherException "TypeError"))
                 end)
    no_method
    (fun n obj args => if String.eqb n "foo" then Finishes 1 (Returned (VInt 1))
                       else Finishes 0 (Raised (OtherException "AttributeError")))
    no_property no_setter.

(** [class Switch: def __init__(self, on: bool)] *)
Definition Switch : pyclass :=
  PyClass "Switch" [] []
    [("__init__", AFunction (PyFunction (Some ["self"; "on"]) (Some [("on", TBool)])))]
    (fun args => match args with
                 | [v] => Finishes 1 (Returned {| inst_class := "Switch";
                                                  inst_attrs := [("on", v)] |})
                 | _ => Finishes 1 (Raised (OtherException "TypeError"))
                 end)
    no_method no_instance_method no_property no_setter.

(** [class Sleeper: def __init__(self, n: int): time.sleep(10)] *)
Definition Sleeper : pyclass :=
  PyClass "Sleeper" [] []
    [("__init__", AFunction (PyFunction (Some ["self"; "n"]) (Some [("n", TInt)])))]
    (fun args => match args with
                 | [v] => Finishes 10000 (Returned {| inst_class := "Sleeper";
                                                      inst_attrs := [] |})
                 | _ => Finishes 1 (Raised (OtherException "TypeError"))
                 end)
    no_method no_instance_method no_property no_setter.

(** [class Guarded: def __init__(self): raise TimeoutException("busy")],
    with an instance method [ping]. *)
Definition Guarded : pyclass :=
  PyClass "Guarded" [] []
    [("__init__", AFunction (PyFunction (Some ["self"]) (Some [])));
     ("ping", AFunction (PyFunction (Some ["self"]) (Some [])))]
    (fun args => Finishes 1 (Raised TimeoutException))
    no_method no_instance_method no_property no_setter.

(** [class Cell] with [self._value = 0] and a property [value] whose
    setter stores what it is given and returns nothing. *)
Definition Cell : pyclass :=
  PyClass "Cell" [] []
    [("__init__", AFunction (PyFunction (Some ["self"]) (Some [])));
     ("value", AProperty (Some (PyFunction (Some ["self"]) (Some [("return", TInt)])))
                         (Some (PyFunction (Some ["self"; "v"]) (Some [("v", TInt)])))
                         None)]
    (fun args => match args with
                 | [] => Finishes 1 (Returned {| inst_class := "Cell";
                                                 inst_attrs := [("_value", VInt 0)] |})
                 | _ => Finishes 1 (Raised (OtherException "TypeError"))
                 end)
    no_method no_instance_method
    (fun n obj =>
       if String.eqb n "value" then
         match assoc_get "_value" (inst_attrs obj) with
         | Some v => Finishes 1 (Returned v)
         | None => Finishes 1 (Raised (OtherException "AttributeError"))
         end
       else Finishes 0 (Raised (OtherException "AttributeError")))
    (fun n obj v =>
       if String.eqb n "value" then
         Finishes 1 (Returned (VNone, {| inst_class := inst_class obj;
                                         inst_attrs := assoc_set "_value" v (inst_attrs obj) |}))
       else Finishes 0 (Raised (OtherException "AttributeError"))).

(** [class Strict] whose [__init__(self, n: int)] always raises
    [ValueError], with an instance method [run], a class method [make]
    returning [7] and a static method [twice(n: int)] returning
    [2 * n]. *)
Definition Strict : pyclass :=
  PyClass "Strict" [] []
    [("__init__", AFunction (PyFunction (Some ["self"; "n"]) (Some [("n", TInt)])));
     ("run", AFunction (PyFunction (Some ["self"]) (Some [])));
     ("make", AClassMethod (PyFunction (Some ["cls"]) (Some [])));
     ("twice", AStaticMethod (PyFunction (Some ["n"])
                                (Some [("n", TInt); ("return", TInt)])))]
    (fun args => match args with
                 | [v] => Finishes 1 (Raised (OtherException "ValueError"))
                 | _ => Finishes 1 (Raised (OtherException "TypeError"))
                 end)
    (fun n args => if String.eqb n "make" then Finishes 1 (Returned (VInt 7))
                   else if String.eqb n "twice" then
                     Finishes 1 (match args with
                                 | [VInt z] => Returned (VInt (2 * z))
                                 | _ => Raised (OtherException "TypeError")
                                 end)
                   else Finishes 0 (Raised (OtherException "AttributeError")))
    no_instance_method no_property no_setter.

(** [class Node: def __init__(self, next: 'Node')]; [Node_annotation] is
    the class as its own annotation names it. *)
Definition Node_new (args : list value) : behaviour instance :=
  match args with
  | [v] => Finishes 1 (Returned {| inst_class := "Node"; inst_attrs := [("next", v)] |})
  | _ => Finishes 1 (Raised (OtherException "TypeError"))
  end.

Definition Node_annotation : pyclass :=
  PyClass "Node" [] []
    [("__init__", AFunction (PyFunction (Some ["self"; "next"]) (Some [("next", TAny)])))]
    Node_new no_method no_instance_method no_property no_setter.

Definition Node : pyclass :=
  PyClass "Node" [] []
    [("__init__", AFunction (PyFunction (Some ["self"; "next"])
                               (Some [("next", TClass Node_annotation)])))]
    Node_new no_method no_instance_method no_property no_setter.

(** [class Lamp] with [def switch(self, on: bool) -> bool: return on]. *)
Definition Lamp : pyclass :=
  PyClass "Lamp" [] []
    [("switch", AFunction (PyFunction (Some ["self"; "on"])
                             (Some [("on", TBool); ("return", TBool)])))]
    (fun args => match args with
                 | [] => Finishes 1 (Returned {| inst_class := "Lamp"; inst_attrs := [] |})
                 | _ => Finishes 1 (Raised (OtherException "TypeError"))
                 end)
    no_method
    (fun n obj args =>
       match args with
       | [v] => if String.eqb n "switch" then Finishes 1 (Returned v)
                else Finishes 0 (Raised (OtherException "AttributeError"))
       | _ => Finishes 1 (Raised (OtherException "TypeError"))
       end)
    no_property no_setter.

(** [def busy(n: int): raise TimeoutException("busy")] *)
Definition busy : pyfunc :=
  {| func_name := "busy";
     func_parameters := ["n"];
     func_type_hints := [("n", TInt)];
     func_call := fun args => Finishes 1 (Raised TimeoutException) |}.

(** [class Shape: def area(self) -> int] and [class Square(Shape)] with a
    read-only property [area]. *)
Definition Shape : pyclass :=
  PyClass "Shape" [] []
    [("area", AFunction (PyFunction (Some ["self"]) (Some [("return", TInt)])))]
    (fun args => Finishes 1 (Returned {| inst_class := "Shape"; inst_attrs := [] |}))
    no_method no_instance_method no_property no_setter.

Definition Square : pyclass :=
  PyClass "Square" [Shape] [Shape]
    [("area", AProperty (Some (PyFunction (Some ["self"]) (Some [("return", TInt)])))
                        None None)]
    (fun args => Finishes 1 (Returned {| inst_class := "Square"; inst_attrs := [] |}))
    no_method no_instance_method
    (fun n obj => if String.eqb n "area" then Finishes 1 (Returned (VInt 4))
                  else Finishes 0 (Raised (OtherException "AttributeError")))
    no_setter.

(** The same stand-in host on Windows, where no alarm is armed. *)
Definition windows : Runtime :=
  {| rng := nat;
     randint := demo_randint;
     uniform := demo_uniform;
     choices := demo_choices;
     choice_bool := demo_choice_bool;
     repr := demo_repr;
     IS_WINDOWS := true |}.

(** [def negate(n: int) -> int: return -n] *)
Definition negate : pyfunc :=
  {| func_name := "negate";
     func_parameters := ["n"];
     func_type_hints := [("n", TInt); ("return", TInt)];
     func_call := fun args =>
       Finishes 1 (match args with
                   | [VInt z] => Returned (VInt (- z))
                   | _ => Raised (OtherException "TypeError")
                   end) |}.

End Examples.

(* ================================================================== *)
(** * Further notions and targets *)

Section Comparable.

Context {RT : Runtime}.

(** A value the filter relates to itself whenever it meets it again: no
    NaN among its scalars, a printable representation for [None], and no
    instance of a user class in it.  The filter compares instances by
    [repr]; the default representation of an object holds its address,
    which a value of the model does not carry, so that what the filter
    makes of two instances is left out of its scope. *)
Fixpoint comparable (v : value) : Prop :=
  match v with
  | VNone => repr VNone <> None
  | VObj _ _ => False
  | VFloat f => f <> FNaN
  | VInt _ | VStr _ | VBool _ => True
  | VList xs | VTuple xs =>
      (fix all (l : list value) : Prop :=
         match l with [] => True | x :: r => comparable x /\ all r end) xs
  | VDict d =>
      (fix all (l : list (string * value)) : Prop :=
         match l with [] => True | (_, x) :: r => comparable x /\ all r end) d
  end.

End Comparable.

(** What is asked of a case recorded for a call of [target] on the method
    inputs of the case: with no error expected, the expected output is
    what the call returned; else the expected output is null and the
    error, none derived from the timeout error, is the one the call
    raised. *)
Definition records_call (target : list value -> behaviour value)
    (c : ClassMethodTestCase.t) : Prop :=
  match ClassMethodTestCase.raises c with
  | None => exists t, target (ClassMethodTestCase.method_inputs c)
                      = Finishes t (Returned (ClassMethodTestCase.expected_output c))
  | Some e => ClassMethodTestCase.expected_output c = VNone /\ is_timeout e = false /\
              exists t, target (ClassMethodTestCase.method_inputs c) = Finishes t (Raised e)
  end.

(** The fields that say which method of which class, built from which
    constructor arguments, a case is about. *)
Definition filed_as (cls : pyclass) (constructor_inputs : list value) (method_name : string)
    (c : ClassMethodTestCase.t) : Prop :=
  ClassMethodTestCase.class_type c = cls /\
  ClassMethodTestCase.constructor_inputs c = constructor_inputs /\
  ClassMethodTestCase.method_name c = method_name /\
  ClassMethodTestCase.is_property_getter c = false.

(** [type(v) is t] for the seven types [ValueGenerator] knows. *)
Definition has_exact_type (t : pytype) (v : value) : bool :=
  match t, v with
  | TInt, VInt _ | TFloat, VFloat _ | TStr, VStr _ | TBool, VBool _
  | TList, VList _ | TDict, VDict _ | TTuple, VTuple _ => true
  | _, _ => false
  end.

(** The types for which [get_generator_for_type] has an entry. *)
Definition is_standard (t : pytype) : bool :=
  match t with
  | TInt | TFloat | TStr | TBool | TList | TDict | TTuple => true
  | _ => false
  end.

(** [utils.py] *)
Module Utils.

(** [set_window_size_and_position(window, width, height)] on a screen of
    the given size: the size and the position handed to
    [window.geometry]. *)
Definition set_window_size_and_position (screen_width screen_height width height : Z)
    : (Z * Z) * (Z * Z) :=
  let max_width := Z.min width screen_width in
  let max_height := Z.min height screen_height in
  let x := ((screen_width - max_width) / 2)%Z in
  let y := ((screen_height - max_height) / 2)%Z in
  ((max_width, max_height), (x, y)).

End Utils.

(** What the [random] module promises of its draws. *)
Section HostContracts.

Context {RT : Runtime}.

(** [random.randint(a, b)] lies between [a] and [b]. *)
Definition randint_in_range : Prop :=
  forall (a b : Z) (g : rng), (a <= b)%Z -> (a <= fst (randint a b g) <= b)%Z.

(** [random.choices(population, k=k)] holds [k] elements of a non-empty
    population. *)
Definition choices_from_population : Prop :=
  forall (chars : string) (k : nat) (g : rng),
    chars <> EmptyString ->
    String.length (fst (choices chars k g)) = k /\
    Forall (fun c => In c (list_ascii_of_string chars))
           (list_ascii_of_string (fst (choices chars k g))).

End HostContracts.

(** The generators of [value_generators.py] that no type is mapped to. *)
Module NamedGenerators.
Section NamedGenerators.

Context {RT : Runtime}.

Import ValueGenerator.

(** [generate_alphanumeric_string_values(count, min_length, max_length)] *)
Definition generate_alphanumeric_string_values (count : nat) (min_length max_length : Z)
    : M (list value) :=
  replicateM count
    (k <- draw (randint min_length max_length) ;;
     s <- draw (choices (ascii_letters ++ digits) (Z.to_nat k)) ;;
     ret (VStr s)).

(** One round of the [while True] loop of [generate_name_values]: a name
    is drawn until one is not excluded.  [attempts] bounds the draws the
    model follows; the loop itself has no bound. *)
Fixpoint draw_name (attempts : nat) (min_length max_length : Z)
    (exclude_values : list string) : M value :=
  match attempts with
  | O => fun _ => Hangs
  | S attempts' =>
      k <- draw (randint min_length max_length) ;;
      name <- draw (choices (ascii_letters ++ " ") (Z.to_nat k)) ;;
      if existsb (String.eqb name) exclude_values
      then draw_name attempts' min_length max_length exclude_values
      else ret (VStr name)
  end.

(** [generate_name_values(count, min_length, max_length, exclude_values)];
    [None] for [exclude_values] stands for the default [['abc']]. *)
Definition generate_name_values (attempts : nat) (count : nat) (min_length max_length : Z)
    (exclude_values : option (list string)) : M (list value) :=
  let exclude_values :=
    match exclude_values with None => ["abc"] | Some l => l end in
  replicateM count (draw_name attempts min_length max_length exclude_values).

End NamedGenerators.
End NamedGenerators.

(** [coverage_analyzer.py]: the arithmetic on line numbers and line
    counts.  The percentages are kept as the expressions the code
    evaluates on floats. *)
Module CoverageAnalyzer.

(** A percentage as a report holds it.  The division, the product and the
    rounding are the host's, on binary floats, and their results are not
    those of the same steps on the rationals; the model keeps the
    expression the code evaluates and not a value for it:
    [round((part / whole) * 100, 2)] for integers [part] and [whole], or
    the integer [0]. *)
Inductive figure : Type :=
| RoundedPercentage (part whole : nat)
| IntegerZero.

(** [round(pct, 2)] after [pct = (part / whole) * 100 if whole > 0
    else 0] *)
Definition percentage (part whole : nat) : figure :=
  if Nat.ltb 0 whole then RoundedPercentage part whole else IntegerZero.

(** [range(a, b)] *)
Definition range (a b : Z) : list Z :=
  map (fun i => (a + Z.of_nat i)%Z) (seq 0 (Z.to_nat (b - a))).

(** [s.intersection(t)], for [s] without repetition.  Python leaves the
    order of a list made from a set open; here it is the order of [s]. *)
Definition intersection (s t : list Z) : list Z :=
  filter (fun x => existsb (Z.eqb x) t) s.

(** An [ast.FunctionDef] or [ast.AsyncFunctionDef] node. *)
Record function_def : Type := {
  node_name : string;
  lineno : Z;
  end_lineno : option Z
}.

(** An entry of ["function_coverage"]. *)
Record function_entry : Type := {
  fe_name : string;
  fe_start_line : Z;
  fe_end_line : Z;
  fe_coverage_percentage : figure;
  fe_covered_lines : nat;
  fe_total_lines : nat;
  fe_missing_lines : list Z
}.

(** The loop of [_analyze_function_coverage] over the function nodes of
    the parsed file. *)
Definition _analyze_function_coverage (nodes : list function_def)
    (executed_lines missing_lines : list Z) : list function_entry :=
  map (fun node =>
         let func_start := lineno node in
         let func_end :=
           match end_lineno node with
           | Some e => if (e =? 0)%Z then func_start else e
           | None => func_start
           end in
         let func_lines := range func_start (func_end + 1) in
         let covered_func_lines := intersection func_lines executed_lines in
         let total_func_lines := List.length func_lines in
         let rounded_func_coverage_pct :=
           percentage (List.length covered_func_lines) total_func_lines in
         {| fe_name := node_name node;
            fe_start_line := func_start;
            fe_end_line := func_end;
            fe_coverage_percentage := rounded_func_coverage_pct;
            fe_covered_lines := List.length covered_func_lines;
            fe_total_lines := total_func_lines;
            fe_missing_lines := intersection func_lines missing_lines |})
      nodes.

(** The dictionary [_generate_coverage_report] returns when nothing
    raises. *)
Record report : Type := {
  filename : string;
  total_coverage : figure;
  executed_lines : list Z;
  missing_lines : list Z;
  excluded_lines : list Z;
  total_lines : nat;
  covered_lines : nat;
  function_coverage : list function_entry
}.

(** [_generate_coverage_report], from the result of [cov.analysis2] and
    the function nodes of the file on. *)
Definition _generate_coverage_report
    (analysis : string * list Z * list Z * list Z) (nodes : list function_def) : report :=
  let '(filename, executed_lines, missing_lines, excluded_lines) := analysis in
  let total_lines := (List.length executed_lines + List.length missing_lines)%nat in
  let rounded_coverage_percentage :=
    percentage (List.length executed_lines) total_lines in
  {| filename := filename;
     total_coverage := rounded_coverage_percentage;
     executed_lines := executed_lines;
     missing_lines := missing_lines;
     excluded_lines := excluded_lines;
     total_lines := total_lines;
     covered_lines := List.length executed_lines;
     function_coverage :=
       _analyze_function_coverage nodes executed_lines missing_lines |}.

(** [sorted(lines)] on integers *)
Fixpoint insert (x : Z) (l : list Z) : list Z :=
  match l with
  | [] => [x]
  | y :: rest => if (x <=? y)%Z then x :: l else y :: insert x rest
  end.

Definition sorted (l : list Z) : list Z := fold_right insert [] l.

(** The body of the loop of [_format_coverage_report_as_string] that
    groups consecutive missing lines, on [(groups, current_group)]. *)
Definition group_line (st : list (list Z) * list Z) (line : Z) : list (list Z) * list Z :=
  let '(groups, current_group) := st in
  match current_group with
  | [] => (groups, current_group ++ [line])
  | _ =>
      if (line =? List.last current_group 0 + 1)%Z
      then (groups, current_group ++ [line])
      else (groups ++ [current_group], [line])
  end.

(** [groups] after the loop and the final [if current_group:]. *)
Definition missing_line_groups (missing_lines : list Z) : list (list Z) :=
  let '(groups, current_group) :=
    fold_left group_line (sorted missing_lines) ([], []) in
  match current_group with
  | [] => groups
  | _ => groups ++ [current_group]
  end.

(** A non-empty run of consecutive line numbers. *)
Definition consecutive (group : list Z) : Prop :=
  exists first count,
    group = map (fun i => (first + Z.of_nat i)%Z) (seq 0 (S count)).

(** No group starts on the line after the end of the group before it. *)
Fixpoint separated (groups : list (list Z)) : Prop :=
  match groups with
  | group :: rest =>
      match rest with
      | next :: _ => List.hd 0%Z next <> (List.last group 0 + 1)%Z
      | [] => True
      end /\ separated rest
  | [] => True
  end.

(** ["  Line n"] and ["  Lines first-last"] *)
Inductive line_range : Type :=
| Line (n : Z)
| Lines (first last : Z).

(** The line written for a group; [group[0]] and [group[-1]] of an empty
    group, which the loop never builds, read as [0]. *)
Definition format_group (group : list Z) : line_range :=
  match group with
  | [n] => Line n
  | _ => Lines (List.hd 0%Z group) (List.last group 0%Z)
  end.

Definition missing_line_ranges (missing_lines : list Z) : list line_range :=
  map format_group (missing_line_groups missing_lines).

(** The lines a written range stands for. *)
Definition in_range (r : line_range) (n : Z) : Prop :=
  match r with
  | Line m => n = m
  | Lines first last => (first <= n <= last)%Z
  end.

(** What [generate_coverage_summary] returns; the two totals and
    ["files"] are absent from the dictionary returned for an empty list. *)
Record summary : Type := {
  sm_total_coverage : figure;
  sm_files_analyzed : nat;
  sm_total_lines : option nat;
  sm_covered_lines : option nat;
  sm_files : option (list (option report))
}.

(** [generate_coverage_summary(coverage_results)] on a list of reports;
    [None] is a dictionary without line counts, as the error dictionary
    is, for which [result.get(key, 0)] gives 0. *)
Definition generate_coverage_summary (coverage_results : list (option report)) : summary :=
  match coverage_results with
  | [] => {| sm_total_coverage := IntegerZero; sm_files_analyzed := 0;
             sm_total_lines := None; sm_covered_lines := None; sm_files := None |}
  | _ =>
      let total_lines :=
        list_sum (map (fun result => match result with
                                     | Some r => total_lines r
                                     | None => 0%nat
                                     end) coverage_results) in
      let total_covered :=
        list_sum (map (fun result => match result with
                                     | Some r => covered_lines r
                                     | None => 0%nat
                                     end) coverage_results) in
      let rounded_overall_coverage := percentage total_covered total_lines in
      {| sm_total_coverage := rounded_overall_coverage;
         sm_files_analyzed := List.length coverage_results;
         sm_total_lines := Some total_lines;
         sm_covered_lines := Some total_covered;
         sm_files := Some coverage_results |}
  end.

End CoverageAnalyzer.

Module MoreExamples.

Import Examples.

(** [class Dimmer(Switch): pass], which inherits [__init__(self, on: bool)]. *)
Definition Dimmer : pyclass :=
  PyClass "Dimmer" [Switch] [Switch] []
    (fun args => match args with
                 | [v] => Finishes 1 (Returned {| inst_class := "Dimmer";
                                                  inst_attrs := [("on", v)] |})
                 | _ => Finishes 1 (Raised (OtherException "TypeError"))
                 end)
    no_method no_instance_method no_property no_setter.

(** [class Heavy] whose constructor takes two seconds and whose method
    [work(self)] takes two more. *)
Definition Heavy : pyclass :=
  PyClass "Heavy" [] []
    [("__init__", AFunction (PyFunction (Some ["self"]) (Some [])));
     ("work", AFunction (PyFunction (Some ["self"]) (Some [])))]
    (fun args => Finishes 2000 (Returned {| inst_class := "Heavy"; inst_attrs := [] |}))
    no_method
    (fun n obj args => Finishes 2000 (Returned VNone))
    no_property no_setter.

(** [class Box] with [def put(self, item, label)], parameters without
    annotations. *)
Definition Box : pyclass :=
  PyClass "Box" [] []
    [("put", AFunction (PyFunction (Some ["self"; "item"; "label"]) (Some [])))]
    (fun args => match args with
                 | [] => Finishes 1 (Returned {| inst_class := "Box"; inst_attrs := [] |})
                 | _ => Finishes 1 (Raised (OtherException "TypeError"))
                 end)
    no_method
    (fun n obj args => Finishes 1 (Returned VNone))
    no_property no_setter.

End MoreExamples.

(* ================================================================== *)
(* Proofs *)

Unset Implicit Arguments.

(* ================================================================== *)
(** * Facts about values and dictionaries *)

Section ValueFacts.

Variable P : value -> Prop.
Hypothesis HNone : P VNone.
Hypothesis HInt : forall z, P (VInt z).
Hypothesis HFloat : forall f, P (VFloat f).
Hypothesis HStr : forall s, P (VStr s).
Hypothesis HBool : forall b, P (VBool b).
Hypothesis HList : forall xs, Forall P xs -> P (VList xs).
Hypothesis HTuple : forall xs, Forall P xs -> P (VTuple xs).
Hypothesis HDict : forall d, Forall (fun kv => P (snd kv)) d -> P (VDict d).
Hypothesis HObj : forall cn attrs, P (VObj cn attrs).

(** Induction over values with the hypothesis available for the items of a
    sequence and for the values of a dictionary. *)
Fixpoint value_nested_ind (v : value) : P v :=
  match v with
  | VNone => HNone
  | VInt z => HInt z
  | VFloat f => HFloat f
  | VStr s => HStr s
  | VBool b => HBool b
  | VList xs =>
      HList xs ((fix go (l : list value) : Forall P l :=
                match l with
                | [] => Forall_nil P
                | x :: r => Forall_cons x (value_nested_ind x) (go r)
                end) xs)
  | VTuple xs =>
      HTuple xs ((fix go (l : list value) : Forall P l :=
                 match l with
                 | [] => Forall_nil P
                 | x :: r => Forall_cons x (value_nested_ind x) (go r)
                 end) xs)
  | VDict d =>
      HDict d ((fix go (l : list (string * value)) : Forall (fun kv => P (snd kv)) l :=
                match l with
                | [] => Forall_nil _
                | kv :: r => Forall_cons kv (value_nested_ind (snd kv)) (go r)
                end) d)
  | VObj cn attrs => HObj cn attrs
  end.

End ValueFacts.

Lemma well_formed_items (xs : list value) :
  (fix all (l : list value) : Prop :=
     match l with [] => True | x :: r => well_formed x /\ all r end) xs
  <-> Forall well_formed xs.
Proof.
  induction xs as [|x r IH]; simpl.
  - split; auto.
  - rewrite IH. split.
    + intros [H1 H2]. constructor; assumption.
    + intros H. inversion H; subst. split; assumption.
Qed.

Lemma well_formed_entries (d : list (string * value)) :
  (fix all (l : list (string * value)) : Prop :=
     match l with [] => True | (_, x) :: r => well_formed x /\ all r end) d
  <-> Forall (fun kv => well_formed (snd kv)) d.
Proof.
  induction d as [|[k x] r IH]; simpl.
  - split; auto.
  - rewrite IH. split.
    + intros [H1 H2]. constructor; assumption.
    + intros H. inversion H; subst. split; assumption.
Qed.

Lemma well_formed_list (xs : list value) :
  well_formed (VList xs) <-> Forall well_formed xs.
Proof. simpl. apply well_formed_items. Qed.

Lemma well_formed_tuple (xs : list value) :
  well_formed (VTuple xs) <-> Forall well_formed xs.
Proof. simpl. apply well_formed_items. Qed.

Lemma well_formed_dict (d : list (string * value)) :
  well_formed (VDict d) <->
  NoDup (dict_keys d) /\ Forall (fun kv => well_formed (snd kv)) d.
Proof. simpl. rewrite well_formed_entries. reflexivity. Qed.

Lemma assoc_get_in {A : Type} (k : string) (d : list (string * A)) (v : A) :
  assoc_get k d = Some v -> In (k, v) d.
Proof.
  induction d as [|[k' w] r IH]; simpl; [discriminate|].
  destruct (String.eqb_spec k k') as [->|Hne].
  - intros [= ->]. left; reflexivity.
  - intros H. right. apply IH, H.
Qed.

Lemma assoc_get_key {A : Type} (k : string) (d : list (string * A)) :
  In k (dict_keys d) <-> exists v, assoc_get k d = Some v.
Proof.
  induction d as [|[k' w] r IH]; simpl.
  - split; [tauto | intros [v H]; discriminate].
  - destruct (String.eqb_spec k k') as [->|Hne].
    + split; [intros _; eauto | intros _; left; reflexivity].
    + rewrite IH. split.
      * intros [H|H]; [congruence | assumption].
      * intros H; right; assumption.
Qed.

Lemma in_assoc_get {A : Type} (k : string) (d : list (string * A)) (v : A) :
  NoDup (dict_keys d) -> In (k, v) d -> assoc_get k d = Some v.
Proof.
  induction d as [|[k' w] r IH]; simpl; [tauto|].
  intros Hnd Hin. inversion Hnd as [|? ? Hnotin Hnd']; subst.
  destruct Hin as [Heq|Hin].
  - inversion Heq; subst. rewrite String.eqb_refl. reflexivity.
  - destruct (String.eqb_spec k k') as [->|Hne].
    + exfalso. apply Hnotin. apply (in_map fst) in Hin. exact Hin.
    + apply IH; assumption.
Qed.

Lemma float_eqb_sym (x y : pyfloat) : float_eqb x y = float_eqb y x.
Proof.
  destruct x as [| s | p], y as [| t | q]; simpl; try reflexivity.
  - destruct s, t; reflexivity.
  - unfold Qeq_bool. apply Z.eqb_sym.
Qed.

Lemma scalar_eqb_sym (a b : value) : scalar_eqb a b = scalar_eqb b a.
Proof.
  destruct a, b; cbn [scalar_eqb numeric]; try reflexivity;
    try apply float_eqb_sym.
  apply String.eqb_sym.
Qed.

(* ================================================================== *)
(** * The equivalence filter *)

Section FilterFacts.

Context {RT : Runtime}.

Lemma repr_equal_iff (a b : value) :
  repr_equal a b = true <-> exists s, repr a = Some s /\ repr b = Some s.
Proof.
  unfold repr_equal. destruct (repr a) as [s1|], (repr b) as [s2|]; split;
    try discriminate; try (intros [s [H1 H2]]; discriminate).
  - intros H. apply String.eqb_eq in H. subst. eauto.
  - intros [s [[= ->] [= ->]]]. apply String.eqb_refl.
Qed.

Lemma repr_equal_sym (a b : value) : repr_equal a b = repr_equal b a.
Proof.
  unfold repr_equal. destruct (repr a), (repr b); try reflexivity.
  apply String.eqb_sym.
Qed.

Lemma position_equivalent_scalar (a b : value) :
  is_scalar a = true -> is_scalar b = true ->
  position_equivalent a b = scalar_eqb a b.
Proof. destruct a, b; simpl; intros; try discriminate; reflexivity. Qed.

Lemma position_equivalent_sequence (a b : value) (xs ys : list value) :
  as_sequence a = Some xs -> as_sequence b = Some ys ->
  position_equivalent a b =
  if negb (Nat.eqb (List.length xs) (List.length ys)) then false
  else positions_equivalent xs ys.
Proof.
  assert (Hloop : forall l1 l2,
    (fix items (l1 l2 : list value) {struct l1} : bool :=
       match l1, l2 with
       | item1 :: r1, item2 :: r2 =>
           if negb (position_equivalent item1 item2) then false else items r1 r2
       | _, _ => true
       end) l1 l2 = positions_equivalent l1 l2).
  { induction l1 as [|x r IH]; intros [|y l2]; reflexivity. }
  destruct a, b; simpl; try discriminate; intros [= <-] [= <-];
    rewrite Hloop; reflexivity.
Qed.

Lemma position_equivalent_dict (d1 d2 : list (string * value)) :
  position_equivalent (VDict d1) (VDict d2) =
  if negb (Nat.eqb (List.length d1) (List.length d2)) then false
  else forallb (fun kv => match assoc_get (fst kv) d2 with
                          | None => false
                          | Some v2 => position_equivalent (snd kv) v2
                          end) d1.
Proof.
  simpl. destruct (negb _); [reflexivity|].
  induction d1 as [|[k v] r IH]; simpl; [reflexivity|].
  destruct (assoc_get k d2) as [v2|]; [|reflexivity].
  rewrite IH. destruct (position_equivalent v v2); reflexivity.
Qed.

Lemma position_equivalent_other (a b : value) :
  is_scalar a && is_scalar b = false ->
  is_sequence a && is_sequence b = false ->
  is_dict a && is_dict b = false ->
  position_equivalent a b = repr_equal a b.
Proof. destruct a, b; simpl; intros; try discriminate; reflexivity. Qed.

(** The singleton calls made for the items of a sequence and the values of
    a dictionary are the comparison of one position. *)
Lemma singleton_call (item1 item2 : value) :
  _are_functionally_equivalent [item1] [item2] = position_equivalent item1 item2.
Proof.
  unfold _are_functionally_equivalent. simpl.
  destruct (position_equivalent item1 item2); reflexivity.
Qed.

Lemma dict_loop_true (d1 d2 : list (string * value)) :
  forallb (fun kv => match assoc_get (fst kv) d2 with
                     | None => false
                     | Some v2 => position_equivalent (snd kv) v2
                     end) d1 = true
  <-> forall k v1, In (k, v1) d1 ->
        exists v2, assoc_get k d2 = Some v2 /\ position_equivalent v1 v2 = true.
Proof.
  rewrite forallb_forall. split.
  - intros H k v1 Hin. specialize (H (k, v1) Hin). simpl in H.
    destruct (assoc_get k d2) as [v2|]; [eauto | discriminate].
  - intros H [k v1] Hin. simpl. destruct (H k v1 Hin) as [v2 [-> Hv]]. exact Hv.
Qed.

Lemma same_length_same_keys {A B : Type} (d1 : list (string * A)) (d2 : list (string * B)) :
  NoDup (dict_keys d1) -> List.length d1 = List.length d2 ->
  incl (dict_keys d1) (dict_keys d2) -> incl (dict_keys d2) (dict_keys d1).
Proof.
  intros Hnd Hlen Hincl. apply NoDup_length_incl; try assumption.
  unfold dict_keys. rewrite !length_map. lia.
Qed.

Lemma same_keys_same_length {A B : Type} (d1 : list (string * A)) (d2 : list (string * B)) :
  NoDup (dict_keys d1) -> NoDup (dict_keys d2) ->
  (forall k, In k (dict_keys d1) <-> In k (dict_keys d2)) ->
  List.length d1 = List.length d2.
Proof.
  intros H1 H2 Hk.
  assert (L1 : List.length (dict_keys d1) <= List.length (dict_keys d2)).
  { apply NoDup_incl_length; [assumption|]. intros k. apply Hk. }
  assert (L2 : List.length (dict_keys d2) <= List.length (dict_keys d1)).
  { apply NoDup_incl_length; [assumption|]. intros k. apply Hk. }
  unfold dict_keys in L1, L2. rewrite !length_map in L1, L2. lia.
Qed.

Lemma as_sequence_kind (a : value) (xs : list value) :
  as_sequence a = Some xs ->
  is_sequence a = true /\ is_scalar a = false /\ is_dict a = false /\
  (well_formed a <-> Forall well_formed xs).
Proof.
  destruct a; simpl; try discriminate; intros [= <-]; repeat split;
    try apply well_formed_items.
Qed.

Lemma value_parts_ind (Q : value -> Prop) :
  (forall a, parts_satisfy Q a -> Q a) -> forall a, Q a.
Proof.
  intros Hstep. induction a using value_nested_ind; apply Hstep; split;
    simpl; intros ? E; try discriminate; injection E as <-; assumption.
Qed.

Lemma structurally_equivalent_inv (a b : value) :
  structurally_equivalent a b ->
  (is_scalar a = true /\ is_scalar b = true /\ scalar_eqb a b = true) \/
  (exists xs ys, as_sequence a = Some xs /\ as_sequence b = Some ys /\
                 List.length xs = List.length ys /\
                 Forall2 structurally_equivalent xs ys) \/
  (exists d1 d2, a = VDict d1 /\ b = VDict d2 /\
                 (forall k, In k (dict_keys d1) <-> In k (dict_keys d2)) /\
                 (forall k v1 v2, assoc_get k d1 = Some v1 -> assoc_get k d2 = Some v2 ->
                                  structurally_equivalent v1 v2)) \/
  (exists s, is_scalar a && is_scalar b = false /\
             is_sequence a && is_sequence b = false /\
             is_dict a && is_dict b = false /\
             repr a = Some s /\ repr b = Some s).
Proof.
  intros H. destruct H.
  - left. auto.
  - right; left. eauto 10.
  - right; right; left. eauto 10.
  - right; right; right. eauto 10.
Qed.

Lemma position_equivalent_spec_step (a : value) :
  parts_satisfy (fun x => forall y, well_formed x -> well_formed y ->
                   (position_equivalent x y = true <-> structurally_equivalent x y)) a ->
  forall b, well_formed a -> well_formed b ->
    (position_equivalent a b = true <-> structurally_equivalent a b).
Proof.
  intros [IHseq IHdict] b Wa Wb.
  destruct (is_scalar a && is_scalar b) eqn:Ksc.
  { apply andb_true_iff in Ksc. destruct Ksc as [Sa Sb].
    rewrite (position_equivalent_scalar _ _ Sa Sb). split.
    - intros H. apply SE_scalar; assumption.
    - intros H.
      destruct (structurally_equivalent_inv _ _ H)
        as [(_ & _ & E) | [(xs & ys & E1 & _) | [(d1 & d2 & -> & _) | (s & C & _)]]].
      + exact E.
      + apply as_sequence_kind in E1. destruct E1 as (_ & F & _). congruence.
      + discriminate.
      + rewrite Sa, Sb in C. discriminate. }
  destruct (is_sequence a && is_sequence b) eqn:Ksq.
  { apply andb_true_iff in Ksq. destruct Ksq as [Sa Sb].
    unfold is_sequence in Sa, Sb.
    destruct (as_sequence a) as [xs|] eqn:Ea; [|discriminate].
    destruct (as_sequence b) as [ys|] eqn:Eb; [|discriminate].
    rewrite (position_equivalent_sequence _ _ _ _ Ea Eb).
    pose proof (as_sequence_kind _ _ Ea) as (_ & Sca & Da & Wxs).
    pose proof (as_sequence_kind _ _ Eb) as (_ & Scb & Db & Wys).
    apply Wxs in Wa. apply Wys in Wb. specialize (IHseq xs eq_refl).
    assert (Hpos : List.length xs = List.length ys ->
              (positions_equivalent xs ys = true <-> Forall2 structurally_equivalent xs ys)).
    { clear Ea Eb Wxs Wys. revert ys Wb.
      induction IHseq as [|x r Hx HF IH]; intros [|y ys] Wb Hlen;
        simpl in *; try discriminate.
      - split; [constructor | reflexivity].
      - injection Hlen as Hlen.
        apply Forall_cons_iff in Wa. destruct Wa as [Wx Wr].
        apply Forall_cons_iff in Wb. destruct Wb as [Wy Wys].
        specialize (IH Wr ys Wys Hlen). specialize (Hx y Wx Wy).
        destruct (position_equivalent x y) eqn:E; simpl.
        + rewrite IH. split.
          * intros H. constructor; [apply Hx; reflexivity | exact H].
          * intros H. apply Forall2_cons_iff in H. apply H.
        + split; [discriminate|]. intros H. apply Forall2_cons_iff in H.
          destruct H as [H _]. apply Hx in H. discriminate. }
    assert (Hinv : structurally_equivalent a b ->
              List.length xs = List.length ys /\ Forall2 structurally_equivalent xs ys).
    { intros H.
      destruct (structurally_equivalent_inv _ _ H)
        as [(S1 & _) | [(xs' & ys' & E1 & E2 & L & F) | [(d1 & d2 & -> & _) | (s & _ & C & _)]]].
      - congruence.
      - rewrite Ea in E1. rewrite Eb in E2.
        injection E1 as <-. injection E2 as <-. auto.
      - discriminate.
      - unfold is_sequence in C. rewrite Ea, Eb in C. discriminate. }
    destruct (Nat.eqb (List.length xs) (List.length ys)) eqn:El; simpl.
    - apply Nat.eqb_eq in El. specialize (Hpos El). split.
      + intros H. eapply SE_sequence; eauto. apply Hpos, H.
      + intros H. apply Hpos, Hinv, H.
    - apply Nat.eqb_neq in El. split; [discriminate|].
      intros H. apply Hinv in H. tauto. }
  destruct (is_dict a && is_dict b) eqn:Kd.
  { apply andb_true_iff in Kd. destruct Kd as [Da Db].
    destruct a as [| | | | | | |d1|]; try discriminate.
    destruct b as [| | | | | | |d2|]; try discriminate.
    specialize (IHdict d1 eq_refl). rewrite Forall_forall in IHdict.
    apply well_formed_dict in Wa. destruct Wa as [N1 W1].
    apply well_formed_dict in Wb. destruct Wb as [N2 W2].
    rewrite Forall_forall in W1, W2.
    rewrite position_equivalent_dict. split.
    - intros H.
      destruct (Nat.eqb (List.length d1) (List.length d2)) eqn:El; [|discriminate].
      simpl in H. apply Nat.eqb_eq in El. rewrite dict_loop_true in H.
      assert (Hincl : incl (dict_keys d1) (dict_keys d2)).
      { intros k Hk. apply assoc_get_key in Hk. destruct Hk as [v1 Hv1].
        apply assoc_get_in in Hv1. destruct (H k v1 Hv1) as [v2 [Hv2 _]].
        apply assoc_get_key. eauto. }
      apply SE_mapping.
      + intros k. split; [apply Hincl|].
        apply (same_length_same_keys d1 d2); assumption.
      + intros k v1 v2 G1 G2. apply assoc_get_in in G1.
        destruct (H k v1 G1) as [v2' [G2' Hpe]].
        assert (v2' = v2) by congruence. subst v2'.
        apply (IHdict (k, v1) G1 v2); try assumption.
        * apply (W1 (k, v1) G1).
        * apply (W2 (k, v2)). apply assoc_get_in. assumption.
    - intros H.
      destruct (structurally_equivalent_inv _ _ H)
        as [(S1 & _) | [(xs' & ys' & E1 & _) | [(d1' & d2' & E1 & E2 & K & V) | (s & _ & _ & C & _)]]];
        try discriminate.
      injection E1 as <-. injection E2 as <-.
      rewrite (same_keys_same_length d1 d2 N1 N2 K), Nat.eqb_refl. simpl.
      apply dict_loop_true. intros k v1 Hin.
      assert (Hk : In k (dict_keys d2)).
      { apply K. apply (in_map fst) in Hin. exact Hin. }
      apply assoc_get_key in Hk. destruct Hk as [v2 G2].
      exists v2. split; [assumption|].
      apply (IHdict (k, v1) Hin v2).
      + apply (W1 (k, v1) Hin).
      + apply (W2 (k, v2)). apply assoc_get_in. assumption.
      + apply (V k); [apply in_assoc_get; assumption | assumption]. }
  rewrite (position_equivalent_other _ _ Ksc Ksq Kd), repr_equal_iff. split.
  - intros [s [H1 H2]]. eapply SE_other; eauto.
  - intros H.
    destruct (structurally_equivalent_inv _ _ H)
      as [(S1 & S2 & _) | [(xs' & ys' & E1 & E2 & _) | [(d1' & d2' & -> & -> & _) | (s & _ & _ & _ & R1 & R2)]]].
    + rewrite S1, S2 in Ksc. discriminate.
    + apply as_sequence_kind in E1, E2. destruct E1 as (F1 & _), E2 as (F2 & _).
      rewrite F1, F2 in Ksq. discriminate.
    + discriminate.
    + eauto.
Qed.

Lemma position_equivalent_spec (a b : value) :
  well_formed a -> well_formed b ->
  (position_equivalent a b = true <-> structurally_equivalent a b).
Proof.
  revert b. induction a using value_parts_ind.
  intros b. apply position_equivalent_spec_step. assumption.
Qed.

Lemma positions_equivalent_spec (xs ys : list value) :
  Forall well_formed xs -> Forall well_formed ys ->
  List.length xs = List.length ys ->
  (positions_equivalent xs ys = true <-> Forall2 structurally_equivalent xs ys).
Proof.
  intros Wxs. revert ys. induction Wxs as [|x r Wx Wr IH]; intros [|y ys] Wys Hlen;
    simpl in *; try discriminate.
  - split; [constructor | reflexivity].
  - injection Hlen as Hlen. apply Forall_cons_iff in Wys. destruct Wys as [Wy Wys].
    rewrite Forall2_cons_iff, <- (IH ys Wys Hlen), <- (position_equivalent_spec x y Wx Wy).
    destruct (position_equivalent x y); simpl; intuition discriminate.
Qed.

Lemma position_equivalent_sym_step (a : value) :
  parts_satisfy (fun x => forall y, well_formed x -> well_formed y ->
                   position_equivalent x y = true -> position_equivalent y x = true) a ->
  forall b, well_formed a -> well_formed b ->
    position_equivalent a b = true -> position_equivalent b a = true.
Proof.
  intros [IHseq IHdict] b Wa Wb.
  destruct (is_scalar a && is_scalar b) eqn:Ksc.
  { apply andb_true_iff in Ksc. destruct Ksc as [Sa Sb].
    rewrite (position_equivalent_scalar _ _ Sa Sb), (position_equivalent_scalar _ _ Sb Sa).
    rewrite scalar_eqb_sym. auto. }
  destruct (is_sequence a && is_sequence b) eqn:Ksq.
  { apply andb_true_iff in Ksq. destruct Ksq as [Sa Sb].
    unfold is_sequence in Sa, Sb.
    destruct (as_sequence a) as [xs|] eqn:Ea; [|discriminate].
    destruct (as_sequence b) as [ys|] eqn:Eb; [|discriminate].
    rewrite (position_equivalent_sequence _ _ _ _ Ea Eb), (position_equivalent_sequence _ _ _ _ Eb Ea).
    pose proof (as_sequence_kind _ _ Ea) as (_ & _ & _ & Wxs).
    pose proof (as_sequence_kind _ _ Eb) as (_ & _ & _ & Wys).
    apply Wxs in Wa. apply Wys in Wb. specialize (IHseq xs eq_refl).
    rewrite (Nat.eqb_sym (List.length ys)).
    destruct (Nat.eqb (List.length xs) (List.length ys)); simpl; [|auto].
    clear Ea Eb Wxs Wys. revert ys Wb.
    induction IHseq as [|x r Hx HF IH]; intros [|y ys] Wb; simpl; auto.
    apply Forall_cons_iff in Wa. destruct Wa as [Wx Wr].
    apply Forall_cons_iff in Wb. destruct Wb as [Wy Wys].
    destruct (position_equivalent x y) eqn:E; simpl; [|discriminate].
    rewrite (Hx y Wx Wy E). simpl. apply IH; assumption. }
  destruct (is_dict a && is_dict b) eqn:Kd.
  { apply andb_true_iff in Kd. destruct Kd as [Da Db].
    destruct a as [| | | | | | |d1|]; try discriminate.
    destruct b as [| | | | | | |d2|]; try discriminate.
    specialize (IHdict d1 eq_refl). rewrite Forall_forall in IHdict.
    apply well_formed_dict in Wa. destruct Wa as [N1 W1].
    apply well_formed_dict in Wb. destruct Wb as [N2 W2].
    rewrite Forall_forall in W1, W2.
    rewrite !position_equivalent_dict, (Nat.eqb_sym (List.length d2)).
    destruct (Nat.eqb (List.length d1) (List.length d2)) eqn:El; simpl; [|auto].
    apply Nat.eqb_eq in El. rewrite !dict_loop_true. intros H k v2 Hin2.
    assert (Hincl : incl (dict_keys d1) (dict_keys d2)).
    { intros k' Hk. apply assoc_get_key in Hk. destruct Hk as [v1 Hv1].
      apply assoc_get_in in Hv1. destruct (H k' v1 Hv1) as [v2' [Hv2 _]].
      apply assoc_get_key. eauto. }
    assert (Hk : In k (dict_keys d1)).
    { apply (same_length_same_keys d1 d2); try assumption.
      apply (in_map fst) in Hin2. exact Hin2. }
    apply assoc_get_key in Hk. destruct Hk as [v1 G1].
    exists v1. split; [assumption|].
    pose proof (assoc_get_in _ _ _ G1) as Hin1.
    destruct (H k v1 Hin1) as [v2' [G2 Hpe]].
    rewrite (in_assoc_get _ _ _ N2 Hin2) in G2. injection G2 as <-.
    apply (IHdict (k, v1) Hin1 v2); try assumption.
    - apply (W1 (k, v1) Hin1).
    - apply (W2 (k, v2) Hin2). }
  assert (Ksc' : is_scalar b && is_scalar a = false) by (rewrite andb_comm; assumption).
  assert (Ksq' : is_sequence b && is_sequence a = false) by (rewrite andb_comm; assumption).
  assert (Kd' : is_dict b && is_dict a = false) by (rewrite andb_comm; assumption).
  rewrite (position_equivalent_other _ _ Ksc Ksq Kd),
          (position_equivalent_other _ _ Ksc' Ksq' Kd'), repr_equal_sym. auto.
Qed.

Lemma position_equivalent_sym (a b : value) :
  well_formed a -> well_formed b ->
  position_equivalent a b = position_equivalent b a.
Proof.
  assert (H : forall a b, well_formed a -> well_formed b ->
                position_equivalent a b = true -> position_equivalent b a = true).
  { intros x. induction x using value_parts_ind.
    intros y. apply position_equivalent_sym_step. assumption. }
  intros Wa Wb. specialize (H a b Wa Wb) as H1. specialize (H b a Wb Wa) as H2.
  destruct (position_equivalent a b), (position_equivalent b a); try reflexivity;
    [specialize (H1 eq_refl) | specialize (H2 eq_refl)]; discriminate.
Qed.

Lemma are_functionally_equivalent_sym (inputs1 inputs2 : list value) :
  Forall well_formed inputs1 -> Forall well_formed inputs2 ->
  _are_functionally_equivalent inputs1 inputs2 =
  _are_functionally_equivalent inputs2 inputs1.
Proof.
  unfold _are_functionally_equivalent. intros W1 W2.
  rewrite (Nat.eqb_sym (List.length inputs2)).
  destruct (Nat.eqb (List.length inputs1) (List.length inputs2)); simpl; [|reflexivity].
  revert inputs2 W2. induction W1 as [|x r Wx Wr IH]; intros [|y ys] W2; simpl; auto.
  apply Forall_cons_iff in W2. destruct W2 as [Wy Wys].
  rewrite (position_equivalent_sym x y Wx Wy), (IH ys Wys). reflexivity.
Qed.

(** C8.  The equivalence filter returns true on two input tuples exactly
    when they have the same length and every position is structurally
    equivalent: scalars by value, ordered collections by length and then
    item by item, mappings by key set and by the values under each key, any
    other pair by its printable representation, which both sides must
    produce.  (The tuples hold Python values, whose dictionaries have
    distinct keys.) *)
Theorem equivalence_filter_spec (inputs1 inputs2 : list value) :
  Forall well_formed inputs1 -> Forall well_formed inputs2 ->
  (_are_functionally_equivalent inputs1 inputs2 = true <->
   List.length inputs1 = List.length inputs2 /\
   Forall2 structurally_equivalent inputs1 inputs2).
Proof.
  intros W1 W2. unfold _are_functionally_equivalent.
  destruct (Nat.eqb (List.length inputs1) (List.length inputs2)) eqn:El; simpl.
  - apply Nat.eqb_eq in El. rewrite (positions_equivalent_spec _ _ W1 W2 El). tauto.
  - apply Nat.eqb_neq in El. split; [discriminate | tauto].
Qed.

End FilterFacts.

(* ================================================================== *)
(** * Reasoning about steps *)

Section StepFacts.

Context {RT : Runtime}.

Lemma bind_done {A B : Type} (m : M A) (k : A -> M B) (g : rng) (b : B) (g2 : rng) :
  bind m k g = Done (b, g2) ->
  exists a g1, m g = Done (a, g1) /\ k a g1 = Done (b, g2).
Proof.
  unfold bind. destruct (m g) as [[a g1]| |]; try discriminate. eauto.
Qed.

Lemma bind_eq {A B : Type} (m : M A) (k : A -> M B) (g g1 : rng) (a : A) :
  m g = Done (a, g1) -> bind m k g = k a g1.
Proof. unfold bind. intros ->. reflexivity. Qed.

Lemma for_each_cons {A S : Type} (x : A) (xs : list A) (body : A -> S -> M S) (s : S) :
  for_each (x :: xs) body s = bind (body x s) (for_each xs body).
Proof. reflexivity. Qed.

Lemma repeatM_succ {S : Type} (n : nat) (body : S -> M S) (s : S) :
  repeatM (Datatypes.S n) body s = bind (body s) (repeatM n body).
Proof. reflexivity. Qed.

Lemma ensures_ret {A : Type} (a : A) (P : A -> Prop) : P a -> ensures (ret a) P.
Proof. intros H g x g' [= <- _]. exact H. Qed.

Lemma ensures_bind {A B : Type} (m : M A) (k : A -> M B) (P : A -> Prop) (Q : B -> Prop) :
  ensures m P -> (forall a, P a -> ensures (k a) Q) -> ensures (bind m k) Q.
Proof.
  intros Hm Hk g b g2 H. apply bind_done in H. destruct H as (a & g1 & H1 & H2).
  exact (Hk a (Hm _ _ _ H1) _ _ _ H2).
Qed.

Lemma ensures_weaken {A : Type} (m : M A) (P Q : A -> Prop) :
  ensures m P -> (forall a, P a -> Q a) -> ensures m Q.
Proof. intros H HPQ g a g' E. apply HPQ. exact (H _ _ _ E). Qed.

Lemma ensures_draw {A : Type} (f : rng -> A * rng) (P : A -> Prop) :
  (forall g, P (fst (f g))) -> ensures (draw f) P.
Proof.
  intros H g a g' E. unfold draw in E. injection E as E. specialize (H g).
  rewrite E in H. exact H.
Qed.

Lemma ensures_replicateM {A : Type} (n : nat) (m : M A) (P : A -> Prop) :
  ensures m P -> ensures (replicateM n m) (Forall P).
Proof.
  intros Hm. induction n as [|n IH]; simpl.
  - apply ensures_ret. constructor.
  - apply (ensures_bind _ _ P _ Hm). intros x Hx.
    apply (ensures_bind _ _ (Forall P) _ IH). intros xs Hxs.
    apply ensures_ret. constructor; assumption.
Qed.

Lemma ensures_mapM {A B : Type} (f : A -> M B) (xs : list A) (P : B -> Prop) :
  (forall x, In x xs -> ensures (f x) P) -> ensures (mapM f xs) (Forall P).
Proof.
  induction xs as [|x r IH]; simpl; intros H.
  - apply ensures_ret. constructor.
  - apply (ensures_bind _ _ P _ (H x (or_introl eq_refl))). intros y Hy.
    apply (ensures_bind _ _ (Forall P)).
    + apply IH. intros z Hz. apply H. right. exact Hz.
    + intros ys Hys. apply ensures_ret. constructor; assumption.
Qed.

Lemma ensures_for_each {A S : Type} (xs : list A) (body : A -> S -> M S) (I : S -> Prop) :
  (forall x s, In x xs -> I s -> ensures (body x s) I) ->
  forall s, I s -> ensures (for_each xs body s) I.
Proof.
  induction xs as [|x r IH]; simpl; intros H s Hs.
  - apply ensures_ret. exact Hs.
  - apply (ensures_bind _ _ I).
    + apply H; [left; reflexivity | exact Hs].
    + intros s' Hs'. apply IH; [|exact Hs']. intros y t Hy. apply H. right. exact Hy.
Qed.

Lemma ensures_repeatM {S : Type} (n : nat) (body : S -> M S) (I : S -> Prop) :
  (forall s, I s -> ensures (body s) I) ->
  forall s, I s -> ensures (repeatM n body s) I.
Proof.
  intros H. induction n as [|n IH]; simpl; intros s Hs.
  - apply ensures_ret. exact Hs.
  - apply (ensures_bind _ _ I); [apply H; exact Hs | exact IH].
Qed.

Lemma ensures_call {A : Type} (b : behaviour A) (P : completion A -> Prop) :
  (forall t c, b = Finishes t c -> P c) -> ensures (call b) P.
Proof.
  intros H g c g' E. unfold call in E. destruct b as [t c'|]; [|discriminate].
  injection E as <- _. apply (H t). reflexivity.
Qed.

(** Under [timeout_handler] a guarded call ends normally, with the
    target's own completion when the alarm did not go off and with
    [TimeoutException] raised when it did. *)
Lemma ensures_call_with_alarm {A : Type} (b : behaviour A) (P : completion A -> Prop) :
  (times_out b = true -> P (Raised TimeoutException)) ->
  (forall t c, times_out b = false -> b = Finishes t c -> P c) ->
  ensures (call_with_alarm timeout_handler b) P.
Proof.
  intros H1 H2 g c g' E. unfold call_with_alarm in E.
  destruct (times_out b) eqn:T.
  - simpl in E. injection E as <- _. apply H1. reflexivity.
  - unfold call in E. destruct b as [t c'|]; [|discriminate].
    injection E as <- _. apply (H2 t); reflexivity.
Qed.

End StepFacts.

(* ================================================================== *)
(** * Generated values are well formed *)

Section GeneratedValues.

Context {RT : Runtime}.

Import ClassAnalyzer TestCaseGenerator.

Lemma assoc_set_keys {A : Type} (k : string) (v : A) (d : list (string * A)) (k' : string) :
  In k' (dict_keys (assoc_set k v d)) <-> k' = k \/ In k' (dict_keys d).
Proof.
  induction d as [|[k0 w] r IH]; simpl.
  - intuition.
  - destruct (String.eqb_spec k k0) as [->|Hne]; simpl.
    + intuition.
    + rewrite IH. intuition.
Qed.

Lemma assoc_set_nodup {A : Type} (k : string) (v : A) (d : list (string * A)) :
  NoDup (dict_keys d) -> NoDup (dict_keys (assoc_set k v d)).
Proof.
  induction d as [|[k0 w] r IH]; simpl; intros H.
  - constructor; [intros [] | constructor].
  - destruct (String.eqb_spec k k0) as [->|Hne]; simpl; [exact H|].
    apply NoDup_cons_iff in H. destruct H as [Hn Hr]. constructor.
    + intros Hin. apply assoc_set_keys in Hin. destruct Hin as [->|Hin]; tauto.
    + apply IH. exact Hr.
Qed.

Lemma assoc_set_forall {A : Type} (P : string * A -> Prop) (k : string) (v : A)
    (d : list (string * A)) :
  (forall k', P (k', v)) -> Forall P d -> Forall P (assoc_set k v d).
Proof.
  intros Hv. induction d as [|[k0 w] r IH]; simpl; intros H.
  - constructor; [apply Hv | constructor].
  - apply Forall_cons_iff in H. destruct H as [H0 Hr].
    destruct (String.eqb k k0); constructor; auto.
Qed.

Lemma edge_cases_well_formed (t : pytype) :
  Forall well_formed (ValueGenerator.get_edge_cases_for_type t).
Proof.
  destruct t; simpl; repeat constructor; simpl; intuition discriminate.
Qed.

Lemma generator_well_formed (t : pytype) (generator : nat -> M (list value)) (count : nat) :
  ValueGenerator.get_generator_for_type t = Some generator ->
  ensures (generator count) (Forall well_formed).
Proof.
  assert (Hitems : forall n, ensures (ValueGenerator.random_items n) (Forall well_formed)).
  { intros n. apply ensures_replicateM.
    apply (ensures_bind _ _ (fun _ => True)); [apply ensures_draw; auto|].
    intros z _. apply ensures_ret. exact I. }
  destruct t; simpl; intros [= <-]; apply ensures_replicateM.
  - apply (ensures_bind _ _ (fun _ => True)); [apply ensures_draw; auto|].
    intros z _. apply ensures_ret. exact I.
  - apply (ensures_bind _ _ (fun _ => True)); [apply ensures_draw; auto|].
    intros z _. apply ensures_ret. exact I.
  - apply (ensures_bind _ _ (fun _ => True)); [apply ensures_draw; auto|].
    intros k _. apply (ensures_bind _ _ (fun _ => True)); [apply ensures_draw; auto|].
    intros z _. apply ensures_ret. exact I.
  - apply (ensures_bind _ _ (fun _ => True)); [apply ensures_draw; auto|].
    intros z _. apply ensures_ret. exact I.
  - apply (ensures_bind _ _ (fun _ => True)); [apply ensures_draw; auto|].
    intros n _. apply (ensures_bind _ _ _ _ (Hitems n)).
    intros items Hi. apply ensures_ret. apply well_formed_list. exact Hi.
  - apply (ensures_bind _ _ (fun _ => True)); [apply ensures_draw; auto|].
    intros n _.
    apply (ensures_bind _ _
             (fun d => NoDup (dict_keys d) /\ Forall (fun kv => well_formed (snd kv)) d)).
    + apply ensures_repeatM.
      * intros d [Hn Hf].
        apply (ensures_bind _ _ (fun _ => True)); [apply ensures_draw; auto|].
        intros k _. apply (ensures_bind _ _ (fun _ => True)); [apply ensures_draw; auto|].
        intros key _. apply (ensures_bind _ _ (fun _ => True)); [apply ensures_draw; auto|].
        intros v _. apply ensures_ret. split.
        -- apply assoc_set_nodup. exact Hn.
        -- apply assoc_set_forall; [intros; exact I | exact Hf].
      * split; constructor.
    + intros d Hd. apply ensures_ret. apply well_formed_dict. exact Hd.
  - apply (ensures_bind _ _ (fun _ => True)); [apply ensures_draw; auto|].
    intros n _. apply (ensures_bind _ _ _ _ (Hitems n)).
    intros items Hi. apply ensures_ret. apply well_formed_tuple. exact Hi.
Qed.

Lemma standard_value_well_formed (t : pytype) :
  ensures (generate_standard_value t) well_formed.
Proof.
  unfold generate_standard_value.
  destruct (ValueGenerator.get_generator_for_type t) as [generator|] eqn:E.
  - apply (ensures_bind _ _ _ _ (generator_well_formed t generator 1 E)).
    intros [|v vs] H; apply ensures_ret; [exact I|].
    apply Forall_cons_iff in H. apply H.
  - apply ensures_ret. exact I.
Qed.

Lemma generated_value_well_formed (t : pytype) (n : string) (class_type : option pyclass) :
  ensures (_generate_value_for_type t n class_type) well_formed.
Proof.
  unfold _generate_value_for_type.
  destruct (names_class_under_analysis t class_type) as [pt|];
    [|apply standard_value_well_formed].
  destruct (constructor (analyze_class pt)) as [ctor|];
    [|apply standard_value_well_formed].
  apply (ensures_bind _ _ (fun _ => True)); [intros ? ? ? ?; exact I|].
  intros args _. apply (ensures_bind _ _ (fun _ => True)); [intros ? ? ? ?; exact I|].
  intros [obj|e] _; apply ensures_ret; exact I.
Qed.

Lemma edge_inputs_well_formed (param_names : list string) (hints : list (string * pytype))
    (idx : nat) (edge_value : value) (class_type : option pyclass) :
  well_formed edge_value ->
  ensures (edge_inputs param_names hints idx edge_value class_type) (Forall well_formed).
Proof.
  intros W. unfold edge_inputs. apply ensures_mapM. intros [i p] _.
  destruct (Nat.eqb i idx); [apply ensures_ret; exact W|].
  apply generated_value_well_formed.
Qed.

Lemma random_inputs_well_formed (param_names : list string) (hints : list (string * pytype))
    (class_type : option pyclass) :
  ensures (random_inputs param_names hints class_type) (Forall well_formed).
Proof.
  unfold random_inputs. apply ensures_mapM. intros p _.
  apply generated_value_well_formed.
Qed.

End GeneratedValues.

(* ================================================================== *)
(** * Deduplication of candidates *)

Section Deduplication.

Context {RT : Runtime}.

Import ClassAnalyzer TestCaseGenerator.

Lemma ForallOrdPairs_snoc {A : Type} (R : A -> A -> Prop) (l : list A) (x : A) :
  ForallOrdPairs R l -> Forall (fun y => R y x) l -> ForallOrdPairs R (l ++ [x]).
Proof.
  induction 1 as [|y l Hy Hl IH]; simpl; intros HF.
  - constructor; constructor.
  - apply Forall_cons_iff in HF. destruct HF as [Hyx HF]. constructor.
    + apply Forall_app. split; [exact Hy | constructor; [exact Hyx | constructor]].
    + apply IH. exact HF.
Qed.

Lemma not_duplicate (inputs : list value) (used_inputs : list (list value)) :
  is_duplicate inputs used_inputs = false ->
  forall u, In u used_inputs -> _are_functionally_equivalent inputs u = false.
Proof.
  unfold is_duplicate. intros H u Hu.
  destruct (_are_functionally_equivalent inputs u) eqn:E; [|reflexivity].
  assert (X : existsb (fun e => _are_functionally_equivalent inputs e) used_inputs = true).
  { apply existsb_exists. exists u. split; assumption. }
  congruence.
Qed.

Lemma fresh_is_non_equivalent (inputs u : list value) :
  Forall well_formed inputs -> Forall well_formed u ->
  _are_functionally_equivalent inputs u = false ->
  non_equivalent u inputs.
Proof.
  intros W1 W2 H. split; [|exact H].
  rewrite are_functionally_equivalent_sym; assumption.
Qed.

(** The state of a filtered loop: the used tuples are well formed, the
    recorded tuples are pairwise non-equivalent, and each of them is among
    the used ones. *)
Lemma accept_candidate (recorded : list (list value)) (used : list (list value))
    (inputs : list value) :
  Forall (Forall well_formed) used ->
  ForallOrdPairs non_equivalent recorded ->
  (forall t, In t recorded -> In t used) ->
  Forall well_formed inputs ->
  is_duplicate inputs used = false ->
  Forall (Forall well_formed) (used ++ [inputs]) /\
  ForallOrdPairs non_equivalent (recorded ++ [inputs]) /\
  (forall t, In t (recorded ++ [inputs]) -> In t (used ++ [inputs])) /\
  (forall t, In t recorded -> In t (used ++ [inputs])).
Proof.
  intros Wu Hp Hsub Wi Hd. repeat split.
  - apply Forall_app. split; [exact Wu | constructor; [exact Wi | constructor]].
  - apply ForallOrdPairs_snoc; [exact Hp|]. apply Forall_forall. intros t Ht.
    apply fresh_is_non_equivalent; try assumption.
    + rewrite Forall_forall in Wu. apply Wu, Hsub, Ht.
    + apply (not_duplicate _ _ Hd), Hsub, Ht.
  - intros t Ht. apply in_app_iff in Ht. apply in_app_iff.
    destruct Ht as [Ht|Ht]; [left; apply Hsub, Ht | right; exact Ht].
  - intros t Ht. apply in_app_iff. left. apply Hsub, Ht.
Qed.

Lemma try_method_appends (cls : pyclass) (method_type : method_kind) (method_name : string)
    (constructor_inputs inputs : list value) (test_cases : list ClassMethodTestCase.t) :
  ensures (try_method cls method_type method_name constructor_inputs inputs test_cases)
    (fun cases => cases = test_cases \/
       exists c, cases = test_cases ++ [c] /\ ClassMethodTestCase.method_inputs c = inputs).
Proof.
  unfold try_method. apply (ensures_bind _ _ (fun _ => True)); [intros ? ? ? ?; exact I|].
  intros [out|[|n|n]] _; apply ensures_ret; eauto.
Qed.

Lemma method_candidate_keeps (cls : pyclass) (method_type : method_kind)
    (method_name : string) (constructor_inputs inputs : list value)
    (st : list ClassMethodTestCase.t * list (list value)) :
  Forall well_formed inputs ->
  Forall (Forall well_formed) (snd st) /\
  ForallOrdPairs non_equivalent (map ClassMethodTestCase.method_inputs (fst st)) /\
  (forall t, In t (map ClassMethodTestCase.method_inputs (fst st)) -> In t (snd st)) ->
  ensures (method_candidate cls method_type method_name constructor_inputs inputs st)
    (fun st' =>
       Forall (Forall well_formed) (snd st') /\
       ForallOrdPairs non_equivalent (map ClassMethodTestCase.method_inputs (fst st')) /\
       (forall t, In t (map ClassMethodTestCase.method_inputs (fst st')) -> In t (snd st'))).
Proof.
  destruct st as [test_cases used]. simpl. intros Wi (Wu & Hp & Hsub).
  unfold method_candidate. destruct (is_duplicate inputs used) eqn:Hd.
  - apply ensures_ret. simpl. auto.
  - destruct (accept_candidate _ _ _ Wu Hp Hsub Wi Hd) as (Wu' & Hp' & Hsub' & Hold).
    apply (ensures_bind _ _ _ _ (try_method_appends _ _ _ _ _ _)).
    intros cases [->|[c [-> Hc]]]; apply ensures_ret; simpl.
    + auto.
    + rewrite map_app. simpl. rewrite Hc. auto.
Qed.

Lemma create_instance_for_method_cases (cls : pyclass) (method_name : string)
    (method_type : method_kind) :
  ensures (create_instance_for_method cls method_name method_type)
    (fun r => snd r = [] \/
       (method_type = Methods /\ fst (fst r) = None /\ exists c, snd r = [c])).
Proof.
  unfold create_instance_for_method.
  destruct method_type; try (apply ensures_ret; left; reflexivity).
  apply (ensures_bind _ _ (fun _ => True)); [intros ? ? ? ?; exact I|].
  intros [obj|e] _; [apply ensures_ret; left; reflexivity|].
  destruct (constructor (analyze_class cls)) as [ctor|];
    [|apply ensures_ret; left; reflexivity].
  apply (ensures_bind _ _ (fun _ => True)); [intros ? ? ? ?; exact I|].
  intros args _. apply (ensures_bind _ _ (fun _ => True)); [intros ? ? ? ?; exact I|].
  intros [obj|e'] _; apply ensures_ret; simpl; eauto.
Qed.

Lemma method_cases_with_pairwise (cls : pyclass) (method_name : string)
    (method_info : descriptor) (method_type : method_kind) (num_cases : nat)
    (constructor_inputs : list value) :
  ensures (method_cases_with cls method_name method_info method_type num_cases
             constructor_inputs [])
    (fun cases =>
       ForallOrdPairs non_equivalent (map ClassMethodTestCase.method_inputs cases)).
Proof.
  unfold method_cases_with. destruct (parameters method_info) as [|p ps] eqn:Eps.
  - apply (ensures_weaken _ _ _ (try_method_appends _ _ _ _ _ _)).
    intros cases [->|[c [-> _]]]; simpl; repeat constructor.
  - rewrite <- Eps.
    set (Inv := fun st : list ClassMethodTestCase.t * list (list value) =>
           Forall (Forall well_formed) (snd st) /\
           ForallOrdPairs non_equivalent (map ClassMethodTestCase.method_inputs (fst st)) /\
           (forall t, In t (map ClassMethodTestCase.method_inputs (fst st)) -> In t (snd st))).
    apply (ensures_bind _ _ Inv).
    + apply ensures_for_each.
      * intros [idx param_name] st _ Hst. apply ensures_for_each; [|exact Hst].
        intros edge_value st' Hedge Hst'.
        apply (ensures_bind _ _ (Forall well_formed)).
        -- apply edge_inputs_well_formed.
           pose proof (edge_cases_well_formed
                         (hint_of (type_hints method_info) param_name)) as W.
           rewrite Forall_forall in W. apply W, Hedge.
        -- intros inputs Wi. apply method_candidate_keeps; assumption.
      * repeat split; simpl; [constructor | constructor | tauto].
    + intros st Hst. apply (ensures_bind _ _ Inv).
      * apply ensures_repeatM; [|exact Hst]. intros st' Hst'.
        apply (ensures_bind _ _ _ _ (random_inputs_well_formed _ _ _)).
        intros inputs Wi. apply method_candidate_keeps; assumption.
      * intros [cases used] (_ & Hp & _). apply ensures_ret. exact Hp.
Qed.

Lemma method_inputs_pairwise (cls : pyclass) (method_name : string)
    (method_info : descriptor) (method_type : method_kind) (num_cases : nat) :
  ensures (_generate_method_test_cases cls method_name method_info method_type num_cases)
    (fun cases =>
       ForallOrdPairs non_equivalent (map ClassMethodTestCase.method_inputs cases)).
Proof.
  unfold _generate_method_test_cases.
  apply (ensures_bind _ _ _ _ (create_instance_for_method_cases cls method_name method_type)).
  intros [[valid_instance constructor_inputs] test_cases] Hpre. simpl in Hpre.
  destruct Hpre as [-> | (-> & Hnone & c & ->)].
  - destruct method_type, valid_instance;
      try apply method_cases_with_pairwise.
    apply ensures_ret. constructor.
  - simpl in Hnone. subst valid_instance. apply ensures_ret. simpl. repeat constructor.
Qed.

Lemma existsb_map {A B : Type} (f : B -> bool) (h : A -> B) (l : list A) :
  existsb f (map h l) = existsb (fun x => f (h x)) l.
Proof. induction l as [|x r IH]; simpl; [reflexivity | rewrite IH; reflexivity]. Qed.

Lemma setter_candidate_keeps (cls : pyclass) (prop_name : string)
    (constructor_inputs : list value) (v : value)
    (st : list ClassMethodTestCase.t * list value) :
  well_formed v ->
  Forall (Forall well_formed) (map (fun u => [u]) (snd st)) /\
  ForallOrdPairs non_equivalent (map ClassMethodTestCase.method_inputs (fst st)) /\
  (forall t, In t (map ClassMethodTestCase.method_inputs (fst st)) ->
             In t (map (fun u => [u]) (snd st))) ->
  ensures (setter_candidate cls prop_name constructor_inputs v st)
    (fun st' =>
       Forall (Forall well_formed) (map (fun u => [u]) (snd st')) /\
       ForallOrdPairs non_equivalent (map ClassMethodTestCase.method_inputs (fst st')) /\
       (forall t, In t (map ClassMethodTestCase.method_inputs (fst st')) ->
                  In t (map (fun u => [u]) (snd st')))).
Proof.
  destruct st as [test_cases used]. simpl. intros Wv (Wu & Hp & Hsub).
  unfold setter_candidate.
  destruct (existsb (fun e => _are_functionally_equivalent [v] [e]) used) eqn:Hd.
  - apply ensures_ret. simpl. auto.
  - assert (Hd' : is_duplicate [v] (map (fun u => [u]) used) = false).
    { unfold is_duplicate. rewrite existsb_map. exact Hd. }
    assert (Wi : Forall well_formed [v]) by (constructor; [exact Wv | constructor]).
    destruct (accept_candidate _ _ _ Wu Hp Hsub Wi Hd') as (Wu' & Hp' & Hsub' & Hold).
    apply (ensures_bind _ _ (fun _ => True)); [intros ? ? ? ?; exact I|].
    intros [out|[|n|n]] _; apply ensures_ret; simpl; rewrite ?map_app; simpl; auto.
Qed.

Lemma setter_inputs_pairwise (cls : pyclass) (prop_name : string)
    (prop_info : property_descriptor) (num_cases : nat) :
  ensures (_generate_property_setter_test_cases cls prop_name prop_info num_cases)
    (fun cases =>
       ForallOrdPairs non_equivalent (map ClassMethodTestCase.method_inputs cases)).
Proof.
  unfold _generate_property_setter_test_cases.
  apply (ensures_bind _ _ (fun _ => True)); [intros ? ? ? ?; exact I|].
  intros [[valid_instance constructor_inputs]|] _; [|apply ensures_ret; constructor].
  set (Inv := fun st : list ClassMethodTestCase.t * list value =>
         Forall (Forall well_formed) (map (fun u => [u]) (snd st)) /\
         ForallOrdPairs non_equivalent (map ClassMethodTestCase.method_inputs (fst st)) /\
         (forall t, In t (map ClassMethodTestCase.method_inputs (fst st)) ->
                    In t (map (fun u => [u]) (snd st)))).
  apply (ensures_bind _ _ Inv).
  - apply ensures_for_each.
    + intros v st Hv Hst. apply setter_candidate_keeps; [|exact Hst].
      pose proof (edge_cases_well_formed
                    (hint_of (prop_type_hints prop_info) "return")) as W.
      rewrite Forall_forall in W. apply W, Hv.
    + repeat split; simpl; [constructor | constructor | tauto].
  - intros st Hst. apply (ensures_bind _ _ Inv).
    + apply ensures_repeatM; [|exact Hst]. intros st' Hst'.
      apply (ensures_bind _ _ _ _ (generated_value_well_formed _ _ _)).
      intros v Wv. apply setter_candidate_keeps; assumption.
    + intros [cases used] (_ & Hp & _). apply ensures_ret. exact Hp.
Qed.

Lemma try_constructor_appends (cls : pyclass) (inputs : list value)
    (test_cases : list ClassMethodTestCase.t) :
  ensures (try_constructor cls inputs test_cases)
    (fun cases => cases = test_cases \/
       exists c, cases = test_cases ++ [c] /\
                 ClassMethodTestCase.constructor_inputs c = inputs).
Proof.
  unfold try_constructor. apply (ensures_bind _ _ (fun _ => True)); [intros ? ? ? ?; exact I|].
  intros [out|[|n|n]] _; apply ensures_ret; eauto.
Qed.

Lemma constructor_candidate_keeps (cls : pyclass) (inputs : list value)
    (st : list ClassMethodTestCase.t * list (list value)) :
  Forall well_formed inputs ->
  Forall (Forall well_formed) (snd st) /\
  ForallOrdPairs non_equivalent (map ClassMethodTestCase.constructor_inputs (fst st)) /\
  (forall t, In t (map ClassMethodTestCase.constructor_inputs (fst st)) -> In t (snd st)) ->
  ensures (constructor_candidate cls inputs st)
    (fun st' =>
       Forall (Forall well_formed) (snd st') /\
       ForallOrdPairs non_equivalent (map ClassMethodTestCase.constructor_inputs (fst st')) /\
       (forall t, In t (map ClassMethodTestCase.constructor_inputs (fst st')) ->
                  In t (snd st'))).
Proof.
  destruct st as [test_cases used]. simpl. intros Wi (Wu & Hp & Hsub).
  unfold constructor_candidate. destruct (is_duplicate inputs used) eqn:Hd.
  - apply ensures_ret. simpl. auto.
  - destruct (accept_candidate _ _ _ Wu Hp Hsub Wi Hd) as (Wu' & Hp' & Hsub' & Hold).
    apply (ensures_bind _ _ _ _ (try_constructor_appends _ _ _)).
    intros cases [->|[c [-> Hc]]]; apply ensures_ret; simpl.
    + auto.
    + rewrite map_app. simpl. rewrite Hc. auto.
Qed.

Lemma constructor_edge_cases_pairwise (cls : pyclass) (constructor_info : descriptor) :
  ensures (constructor_edge_cases cls constructor_info)
    (fun st => ForallOrdPairs non_equivalent
                 (map ClassMethodTestCase.constructor_inputs (fst st))).
Proof.
  unfold constructor_edge_cases.
  set (Inv := fun st : list ClassMethodTestCase.t * list (list value) =>
         Forall (Forall well_formed) (snd st) /\
         ForallOrdPairs non_equivalent (map ClassMethodTestCase.constructor_inputs (fst st)) /\
         (forall t, In t (map ClassMethodTestCase.constructor_inputs (fst st)) ->
                    In t (snd st))).
  apply (ensures_weaken _ Inv); [|intros st (_ & Hp & _); exact Hp].
  apply ensures_for_each.
  - intros [idx param_name] st _ Hst. apply ensures_for_each; [|exact Hst].
    intros edge_value st' Hedge Hst'.
    apply (ensures_bind _ _ (Forall well_formed)).
    + apply edge_inputs_well_formed.
      pose proof (edge_cases_well_formed
                    (hint_of (type_hints constructor_info) param_name)) as W.
      rewrite Forall_forall in W. apply W, Hedge.
    + intros inputs Wi. apply constructor_candidate_keeps; assumption.
  - repeat split; simpl; [constructor | constructor | tauto].
Qed.

End Deduplication.

(* ================================================================== *)
(** * Steps that always end normally *)

Section Termination.

Context {RT : Runtime}.

Import ClassAnalyzer TestCaseGenerator.

Lemma terminates_ret {A : Type} (a : A) : terminates (ret a).
Proof. intros g. exists a, g. reflexivity. Qed.

Lemma terminates_draw {A : Type} (f : rng -> A * rng) : terminates (draw f).
Proof. intros g. exists (fst (f g)), (snd (f g)). unfold draw. destruct (f g); reflexivity. Qed.

Lemma terminates_bind {A B : Type} (m : M A) (k : A -> M B) :
  terminates m -> (forall a, terminates (k a)) -> terminates (bind m k).
Proof.
  intros Hm Hk g. destruct (Hm g) as (a & g1 & E1). destruct (Hk a g1) as (b & g2 & E2).
  exists b, g2. rewrite (bind_eq _ _ _ _ _ E1). exact E2.
Qed.

Lemma terminates_replicateM {A : Type} (n : nat) (m : M A) :
  terminates m -> terminates (replicateM n m).
Proof.
  intros Hm. induction n as [|n IH]; simpl; [apply terminates_ret|].
  apply terminates_bind; [exact Hm|]. intros x.
  apply terminates_bind; [exact IH|]. intros xs. apply terminates_ret.
Qed.

Lemma terminates_repeatM {S : Type} (n : nat) (body : S -> M S) :
  (forall s, terminates (body s)) -> forall s, terminates (repeatM n body s).
Proof.
  intros Hb. induction n as [|n IH]; simpl; intros s; [apply terminates_ret|].
  apply terminates_bind; [apply Hb | exact IH].
Qed.

Lemma terminates_mapM {A B : Type} (f : A -> M B) (xs : list A) :
  (forall x, terminates (f x)) -> terminates (mapM f xs).
Proof.
  intros Hf. induction xs as [|x r IH]; simpl; [apply terminates_ret|].
  apply terminates_bind; [apply Hf|]. intros y.
  apply terminates_bind; [exact IH|]. intros ys. apply terminates_ret.
Qed.

Lemma mapM_length {A B : Type} (f : A -> M B) (xs : list A) :
  ensures (mapM f xs) (fun ys => List.length ys = List.length xs).
Proof.
  induction xs as [|x r IH]; simpl; [apply ensures_ret; reflexivity|].
  apply (ensures_bind _ _ (fun _ => True)); [intros ? ? ? ?; exact I|].
  intros y _. apply (ensures_bind _ _ _ _ IH). intros ys Hys.
  apply ensures_ret. simpl. rewrite Hys. reflexivity.
Qed.

Lemma generator_terminates (t : pytype) (generator : nat -> M (list value)) (count : nat) :
  ValueGenerator.get_generator_for_type t = Some generator ->
  terminates (generator count).
Proof.
  assert (Hitems : forall n, terminates (ValueGenerator.random_items n)).
  { intros n. apply terminates_replicateM.
    apply terminates_bind; [apply terminates_draw|]. intros z. apply terminates_ret. }
  destruct t; simpl; intros [= <-]; apply terminates_replicateM;
    repeat first [ apply terminates_ret
                 | apply terminates_draw
                 | apply Hitems
                 | apply terminates_repeatM; intros ?
                 | apply terminates_bind; [|intros ?] ].
Qed.

Lemma standard_value_terminates (t : pytype) : terminates (generate_standard_value t).
Proof.
  unfold generate_standard_value.
  destruct (ValueGenerator.get_generator_for_type t) as [generator|] eqn:E;
    [|apply terminates_ret].
  apply terminates_bind; [apply (generator_terminates t); exact E|].
  intros vs. apply terminates_ret.
Qed.

(** With no class under analysis, value synthesis is the standard path. *)
Lemma generated_value_without_class (t : pytype) (n : string) :
  _generate_value_for_type t n None = generate_standard_value t.
Proof. reflexivity. Qed.

Lemma random_inputs_terminates (param_names : list string) (hints : list (string * pytype)) :
  terminates (random_inputs param_names hints None).
Proof.
  unfold random_inputs. apply terminates_mapM. intros p.
  rewrite generated_value_without_class. apply standard_value_terminates.
Qed.

Lemma terminates_for_each {A S : Type} (xs : list A) (body : A -> S -> M S) :
  (forall x s, terminates (body x s)) -> forall s, terminates (for_each xs body s).
Proof.
  intros Hbody. induction xs as [|x r IH]; intros s.
  - apply terminates_ret.
  - rewrite for_each_cons. apply terminates_bind; [apply Hbody | exact IH].
Qed.

Lemma edge_inputs_terminates (param_names : list string) (hints : list (string * pytype))
    (idx : nat) (edge_value : value) :
  terminates (edge_inputs param_names hints idx edge_value None).
Proof.
  unfold edge_inputs. apply terminates_mapM. intros [inner_idx inner_param].
  destruct (Nat.eqb inner_idx idx); [apply terminates_ret|].
  rewrite generated_value_without_class. apply standard_value_terminates.
Qed.

End Termination.

(* ================================================================== *)
(** * One guarded call *)

Section GuardedCalls.

Context {RT : Runtime}.

Import ClassAnalyzer TestCaseGenerator.

Lemma is_timeout_false (e : exn) :
  is_timeout e = false -> exists n, e = OtherException n.
Proof. destruct e; [discriminate | discriminate | eauto]. Qed.

(** The three ways a call guarded by [timeout_handler] is observed. *)
Lemma guarded_call_skipped {A : Type} (b : behaviour A) (g : rng) :
  skipped b = true ->
  exists e, call_with_alarm timeout_handler b g = Done (Raised e, g) /\
            is_timeout e = true.
Proof.
  unfold skipped, call_with_alarm. destruct (times_out b); simpl.
  - intros _. exists TimeoutException. split; reflexivity.
  - destruct b as [t [a|e]|]; simpl; try discriminate. intros He. exists e. auto.
Qed.

Lemma undisturbed_times_out {A : Type} (b : behaviour A) :
  undisturbed b = true -> times_out b = false.
Proof.
  unfold undisturbed, times_out. destruct b as [t c|]; [|discriminate].
  destruct IS_WINDOWS; simpl; [reflexivity|]. intros ->. reflexivity.
Qed.

Lemma guarded_call_undisturbed {A : Type} (h : handler) (b : behaviour A) (g : rng) :
  undisturbed b = true ->
  exists t c, b = Finishes t c /\ call_with_alarm h b g = Done (c, g).
Proof.
  intros H. unfold call_with_alarm. rewrite (undisturbed_times_out b H).
  destruct b as [t c|]; [|discriminate]. exists t, c. split; reflexivity.
Qed.

Lemma guarded_call_finished {A : Type} (h : handler) (b : behaviour A) (t : N)
    (c : completion A) (g : rng) :
  b = Finishes t c -> times_out b = false ->
  call_with_alarm h b g = Done (c, g).
Proof. intros -> T. unfold call_with_alarm. rewrite T. reflexivity. Qed.

Lemma guarded_call_cases {A : Type} (b : behaviour A) (g : rng) (c : completion A) (g' : rng) :
  call_with_alarm timeout_handler b g = Done (c, g') ->
  g' = g /\
  ((skipped b = true /\ exists e, c = Raised e /\ is_timeout e = true) \/
   (skipped b = false /\ exists t, b = Finishes t c)).
Proof.
  unfold call_with_alarm, skipped. destruct (times_out b) eqn:T; simpl.
  - intros [= <- <-]. split; [reflexivity|]. left. split; [reflexivity|].
    exists TimeoutException. split; reflexivity.
  - destruct b as [t c'|]; simpl; [|discriminate]. intros [= <- <-]. split; [reflexivity|].
    destruct c' as [a|e]; simpl; [eauto|].
    destruct (is_timeout e) eqn:He; eauto.
Qed.


Lemma try_call_skipped (func : pyfunc) (inputs : list value) (test_cases : list TestCase.t)
    (g : rng) :
  skipped (func_call func inputs) = true ->
  try_call func inputs test_cases g = Done (test_cases, g).
Proof.
  intros H. unfold try_call. destruct (guarded_call_skipped _ g H) as (e & E & He).
  rewrite (bind_eq _ _ _ _ _ E). destruct e; [reflexivity | reflexivity | discriminate].
Qed.

Lemma try_call_appends (func : pyfunc) (inputs : list value) (test_cases : list TestCase.t) :
  ensures (try_call func inputs test_cases)
    (fun cases => cases = test_cases \/
       exists tc, cases = test_cases ++ [tc] /\ TestCase.inputs tc = inputs /\
         match TestCase.raises tc with
         | None => exists t, func_call func inputs
                             = Finishes t (Returned (TestCase.expected_output tc))
         | Some e => TestCase.expected_output tc = VNone /\ is_timeout e = false /\
                     exists t, func_call func inputs = Finishes t (Raised e)
         end).
Proof.
  intros g cases g' E. unfold try_call in E. apply bind_done in E.
  destruct E as (c & g1 & E1 & E2).
  destruct (guarded_call_cases _ _ _ _ E1) as [-> [[_ (e & -> & He)]|[_ [t Eb]]]].
  - left. destruct e; try discriminate; injection E2 as <- _; reflexivity.
  - destruct c as [out|[|n|n]]; injection E2 as <- _.
    + right. eexists. split; [reflexivity|]. simpl. eauto.
    + left. reflexivity.
    + left. reflexivity.
    + right. eexists. split; [reflexivity|]. simpl. eauto.
Qed.

End GuardedCalls.

(* ================================================================== *)
(** * Free functions *)

Section FreeFunctions.

Context {RT : Runtime}.

Import ClassAnalyzer TestCaseGenerator.

Lemma try_call_total (func : pyfunc) (inputs : list value) (test_cases : list TestCase.t)
    (g : rng) :
  undisturbed (func_call func inputs) = true ->
  exists extra,
    try_call func inputs test_cases g = Done (test_cases ++ extra, g) /\
    map TestCase.inputs extra
    = filter (fun i => negb (raises_timeout (func_call func i))) [inputs].
Proof.
  intros H. destruct (guarded_call_undisturbed timeout_handler _ g H) as (t & c & Eb & E).
  unfold try_call. rewrite (bind_eq _ _ _ _ _ E). simpl filter. rewrite Eb.
  destruct c as [out|[|n|n]]; simpl.
  - eexists [_]. split; reflexivity.
  - exists []. rewrite app_nil_r. split; reflexivity.
  - exists []. rewrite app_nil_r. split; reflexivity.
  - eexists [_]. split; reflexivity.
Qed.

Lemma single_parameter_sweep (func : pyfunc) (p : string) (hints : list (string * pytype))
    (vs : list value) :
  (forall inputs, undisturbed (func_call func inputs) = true) ->
  forall (test_cases : list TestCase.t) (g : rng),
  exists recorded,
    for_each vs
      (fun edge_value edge_cases =>
         inputs <- edge_inputs [p] hints 0 edge_value None ;;
         try_call func inputs edge_cases)
      test_cases g = Done (test_cases ++ recorded, g) /\
    map TestCase.inputs recorded
    = filter (fun i => negb (raises_timeout (func_call func i))) (map (fun v => [v]) vs).
Proof.
  intros Hcalm. induction vs as [|v r IH]; intros test_cases g.
  - exists []. rewrite app_nil_r. split; reflexivity.
  - destruct (try_call_total func [v] test_cases g (Hcalm _)) as (extra & E & Hx).
    destruct (IH (test_cases ++ extra) g) as (recorded & Er & Hr).
    exists (extra ++ recorded). split.
    + rewrite for_each_cons.
      assert (Ei : edge_inputs [p] hints 0 v None g = Done ([v], g)) by reflexivity.
      rewrite (bind_eq _ _ g g (test_cases ++ extra)).
      * rewrite Er, app_assoc. reflexivity.
      * rewrite (bind_eq _ _ _ _ _ Ei). exact E.
    + rewrite map_app, Hx, Hr. simpl.
      destruct (raises_timeout (func_call func [v])); reflexivity.
Qed.

Lemma random_cases_appended (func : pyfunc) (num_cases : nat) :
  (forall inputs, undisturbed (func_call func inputs) = true) ->
  forall (test_cases : list TestCase.t) (g : rng),
  exists random g',
    repeatM num_cases
      (fun test_cases =>
         inputs <- random_inputs (func_parameters func) (func_type_hints func) None ;;
         try_call func inputs test_cases)
      test_cases g = Done (test_cases ++ random, g') /\
    List.length random <= num_cases.
Proof.
  intros Hcalm. induction num_cases as [|n IH]; intros test_cases g.
  - exists [], g. rewrite app_nil_r. split; [reflexivity | simpl; lia].
  - destruct (random_inputs_terminates (func_parameters func) (func_type_hints func) g)
      as (inputs & g1 & Ei).
    destruct (try_call_total func inputs test_cases g1 (Hcalm _)) as (extra & E & Hx).
    destruct (IH (test_cases ++ extra) g1) as (random & g' & Er & Hl).
    exists (extra ++ random), g'. split.
    + rewrite repeatM_succ. rewrite (bind_eq _ _ g g1 (test_cases ++ extra)).
      * rewrite Er, app_assoc. reflexivity.
      * rewrite (bind_eq _ _ _ _ _ Ei). exact E.
    + apply (f_equal (@List.length _)) in Hx. rewrite length_map in Hx.
      rewrite length_app, Hx. simpl.
      destruct (raises_timeout (func_call func inputs)); simpl; lia.
Qed.

Lemma try_call_terminates (func : pyfunc) (inputs : list value)
    (test_cases : list TestCase.t) :
  undisturbed (func_call func inputs) = true ->
  terminates (try_call func inputs test_cases).
Proof.
  intros Hcalm g.
  destruct (try_call_total func inputs test_cases g Hcalm) as (extra & E & _).
  eexists. eexists. exact E.
Qed.

Lemma function_generation_terminates (func : pyfunc) (num_cases : nat) :
  (forall inputs, undisturbed (func_call func inputs) = true) ->
  terminates (generate_test_cases func num_cases).
Proof.
  intros Hcalm. unfold generate_test_cases. apply terminates_bind.
  - unfold _generate_edge_cases. destruct (func_parameters func) as [|p ps] eqn:Ep.
    + apply terminates_ret.
    + apply terminates_for_each. intros [idx param_name] s.
      apply terminates_for_each. intros edge_value s'.
      apply terminates_bind; [apply edge_inputs_terminates|].
      intros inputs. apply try_call_terminates. apply Hcalm.
  - intros edge_cases. apply terminates_repeatM. intros s.
    apply terminates_bind; [apply random_inputs_terminates|].
    intros inputs. apply try_call_terminates. apply Hcalm.
Qed.

(** C4 (amended).  For a one-parameter function annotated with the integer
    type whose calls the alarm leaves alone (each ends, and where an alarm
    is armed it ends before the deadline), the boundary sweep proposes the
    candidates 0, 1, -1, 100 and -100 in that order; the generated case
    list starts with one case for each of them whose call does not raise
    the engine's timeout error, in that order, and every case of the
    random phase comes after them. *)
Theorem integer_boundary_cases_first (func : pyfunc) (p : string) (num_cases : nat)
    (g : rng) :
  func_parameters func = [p] ->
  hint_of (func_type_hints func) p = TInt ->
  (forall inputs, undisturbed (func_call func inputs) = true) ->
  exists boundary random g',
    _generate_edge_cases func g = Done (boundary, g) /\
    generate_test_cases func num_cases g = Done (boundary ++ random, g') /\
    map TestCase.inputs boundary
    = filter (fun i => negb (raises_timeout (func_call func i)))
             [[VInt 0]; [VInt 1]; [VInt (-1)]; [VInt 100]; [VInt (-100)]] /\
    List.length random <= num_cases.
Proof.
  intros Hp Ht Hcalm.
  destruct (single_parameter_sweep func p (func_type_hints func)
              (ValueGenerator.get_edge_cases_for_type TInt) Hcalm [] g)
    as (boundary & Eb & Hb).
  simpl app in Eb.
  assert (Esweep : _generate_edge_cases func g = Done (boundary, g)).
  { unfold _generate_edge_cases. rewrite Hp.
    change (enumerate [p]) with [(0, p)]. rewrite for_each_cons, Ht.
    rewrite (bind_eq _ _ _ _ _ Eb). reflexivity. }
  destruct (random_cases_appended func num_cases Hcalm boundary g)
    as (random & g' & Er & Hl).
  exists boundary, random, g'. repeat split; try assumption.
  unfold generate_test_cases. rewrite (bind_eq _ _ _ _ _ Esweep). exact Er.
Qed.

End FreeFunctions.

(* ================================================================== *)
(** * Every recorded case reflects what the oracle did *)

Section RecordedCases.

Context {RT : Runtime}.

Import ClassAnalyzer TestCaseGenerator.

Lemma Forall_snoc {A : Type} (P : A -> Prop) (l : list A) (x : A) :
  Forall P l -> P x -> Forall P (l ++ [x]).
Proof. intros Hl Hx. apply Forall_app. split; [exact Hl | constructor; [exact Hx | constructor]]. Qed.

Lemma function_cases_reflect_oracle (func : pyfunc) (num_cases : nat) :
  ensures (generate_test_cases func num_cases)
    (Forall (fun tc =>
       match TestCase.raises tc with
       | None => exists t, func_call func (TestCase.inputs tc)
                           = Finishes t (Returned (TestCase.expected_output tc))
       | Some e => TestCase.expected_output tc = VNone /\ is_timeout e = false /\
                   exists t, func_call func (TestCase.inputs tc) = Finishes t (Raised e)
       end)).
Proof.
  set (P := fun tc : TestCase.t =>
       match TestCase.raises tc with
       | None => exists t, func_call func (TestCase.inputs tc)
                           = Finishes t (Returned (TestCase.expected_output tc))
       | Some e => TestCase.expected_output tc = VNone /\ is_timeout e = false /\
                   exists t, func_call func (TestCase.inputs tc) = Finishes t (Raised e)
       end).
  assert (Hstep : forall inputs cases, Forall P cases ->
            ensures (try_call func inputs cases) (Forall P)).
  { intros inputs cases Hc.
    apply (ensures_weaken _ _ _ (try_call_appends func inputs cases)).
    intros cases' [->|(tc & -> & Hi & Htc)]; [exact Hc|].
    apply Forall_snoc; [exact Hc|]. unfold P. rewrite Hi. exact Htc. }
  unfold generate_test_cases. apply (ensures_bind _ _ (Forall P)).
  - unfold _generate_edge_cases. destruct (func_parameters func) as [|p ps] eqn:Eps.
    + apply ensures_ret. constructor.
    + apply ensures_for_each; [|constructor].
      intros [idx param_name] cases _ Hc. apply ensures_for_each; [|exact Hc].
      intros edge_value cases' _ Hc'.
      apply (ensures_bind _ _ (fun _ => True)); [intros ? ? ? ?; exact I|].
      intros inputs _. apply Hstep. exact Hc'.
  - intros edge_cases He. apply ensures_repeatM; [|exact He].
    intros cases Hc. apply (ensures_bind _ _ (fun _ => True)); [intros ? ? ? ?; exact I|].
    intros inputs _. apply Hstep. exact Hc.
Qed.

Lemma try_method_reflects (cls : pyclass) (method_type : method_kind) (method_name : string)
    (constructor_inputs inputs : list value) (test_cases : list ClassMethodTestCase.t) :
  ensures (try_method cls method_type method_name constructor_inputs inputs test_cases)
    (fun cases => cases = test_cases \/
       exists c, cases = test_cases ++ [c] /\
         ClassMethodTestCase.method_inputs c = inputs /\
         ClassMethodTestCase.constructor_inputs c = constructor_inputs /\
         match ClassMethodTestCase.raises c with
         | None => exists t,
             method_call cls method_type method_name constructor_inputs inputs
             = Finishes t (Returned (ClassMethodTestCase.expected_output c))
         | Some e => ClassMethodTestCase.expected_output c = VNone /\
             is_timeout e = false /\
             exists t, method_call cls method_type method_name constructor_inputs inputs
                       = Finishes t (Raised e)
         end).
Proof.
  intros g cases g' E. unfold try_method in E. apply bind_done in E.
  destruct E as (c & g1 & E1 & E2).
  destruct (guarded_call_cases _ _ _ _ E1) as [-> [[_ (e0 & -> & He0)]|[_ [t Eb]]]].
  - left. destruct e0; try discriminate; injection E2 as <- _; reflexivity.
  - destruct c as [out|[|n|n]]; injection E2 as <- _.
    + right. eexists. split; [reflexivity|]. simpl. eauto.
    + left. reflexivity.
    + left. reflexivity.
    + right. eexists. split; [reflexivity|]. simpl. eauto 7.
Qed.

Lemma method_cases_reflect_oracle (cls : pyclass) (method_name : string)
    (method_info : descriptor) (method_type : method_kind) (num_cases : nat)
    (constructor_inputs : list value) :
  ensures (method_cases_with cls method_name method_info method_type num_cases
             constructor_inputs [])
    (Forall (fun c =>
       ClassMethodTestCase.constructor_inputs c = constructor_inputs /\
       match ClassMethodTestCase.raises c with
       | None => exists t,
           method_call cls method_type method_name constructor_inputs
                       (ClassMethodTestCase.method_inputs c)
           = Finishes t (Returned (ClassMethodTestCase.expected_output c))
       | Some e => ClassMethodTestCase.expected_output c = VNone /\
           is_timeout e = false /\
           exists t, method_call cls method_type method_name constructor_inputs
                                 (ClassMethodTestCase.method_inputs c)
                     = Finishes t (Raised e)
       end)).
Proof.
  set (P := fun c : ClassMethodTestCase.t =>
       ClassMethodTestCase.constructor_inputs c = constructor_inputs /\
       match ClassMethodTestCase.raises c with
       | None => exists t,
           method_call cls method_type method_name constructor_inputs
                       (ClassMethodTestCase.method_inputs c)
           = Finishes t (Returned (ClassMethodTestCase.expected_output c))
       | Some e => ClassMethodTestCase.expected_output c = VNone /\
           is_timeout e = false /\
           exists t, method_call cls method_type method_name constructor_inputs
                                 (ClassMethodTestCase.method_inputs c)
                     = Finishes t (Raised e)
       end).
  assert (Hstep : forall inputs cases, Forall P cases ->
            ensures (try_method cls method_type method_name constructor_inputs inputs cases)
                    (Forall P)).
  { intros inputs cases Hc.
    apply (ensures_weaken _ _ _ (try_method_reflects _ _ _ _ _ _)).
    intros cases' [->|(c & -> & Hi & Hci & Hr)]; [exact Hc|].
    apply Forall_snoc; [exact Hc|]. unfold P. rewrite Hi. split; assumption. }
  assert (Hcand : forall inputs st, Forall P (fst st) ->
            ensures (method_candidate cls method_type method_name constructor_inputs inputs st)
                    (fun st' => Forall P (fst st'))).
  { intros inputs [cases used] Hc. simpl in Hc. unfold method_candidate.
    destruct (is_duplicate inputs used); [apply ensures_ret; exact Hc|].
    apply (ensures_bind _ _ _ _ (Hstep inputs cases Hc)).
    intros cases' Hc'. apply ensures_ret. exact Hc'. }
  unfold method_cases_with. destruct (parameters method_info) as [|p ps] eqn:Eps.
  - apply Hstep. constructor.
  - rewrite <- Eps. apply (ensures_bind _ _ (fun st => Forall P (fst st))).
    + apply ensures_for_each; [|constructor].
      intros [idx param_name] st _ Hst. apply ensures_for_each; [|exact Hst].
      intros edge_value st' _ Hst'.
      apply (ensures_bind _ _ (fun _ => True)); [intros ? ? ? ?; exact I|].
      intros inputs _. apply Hcand. exact Hst'.
    + intros st Hst. apply (ensures_bind _ _ (fun st => Forall P (fst st))).
      * apply ensures_repeatM; [|exact Hst]. intros st' Hst'.
        apply (ensures_bind _ _ (fun _ => True)); [intros ? ? ? ?; exact I|].
        intros inputs _. apply Hcand. exact Hst'.
      * intros [cases used] Hc. apply ensures_ret. exact Hc.
Qed.

Lemma setter_cases_reflect_oracle (cls : pyclass) (prop_name : string)
    (prop_info : property_descriptor) (num_cases : nat) :
  ensures (_generate_property_setter_test_cases cls prop_name prop_info num_cases)
    (Forall (fun c =>
       exists x, ClassMethodTestCase.method_inputs c = [x] /\
       match ClassMethodTestCase.raises c with
       | None => exists t,
           write_then_read cls prop_name (ClassMethodTestCase.constructor_inputs c) x
           = Finishes t (Returned (ClassMethodTestCase.expected_output c))
       | Some e => ClassMethodTestCase.expected_output c = VNone /\
           is_timeout e = false /\
           exists t,
             write_then_read cls prop_name (ClassMethodTestCase.constructor_inputs c) x
             = Finishes t (Raised e)
       end)).
Proof.
  set (P := fun c : ClassMethodTestCase.t =>
       exists x, ClassMethodTestCase.method_inputs c = [x] /\
       match ClassMethodTestCase.raises c with
       | None => exists t,
           write_then_read cls prop_name (ClassMethodTestCase.constructor_inputs c) x
           = Finishes t (Returned (ClassMethodTestCase.expected_output c))
       | Some e => ClassMethodTestCase.expected_output c = VNone /\
           is_timeout e = false /\
           exists t,
             write_then_read cls prop_name (ClassMethodTestCase.constructor_inputs c) x
             = Finishes t (Raised e)
       end).
  assert (Hcand : forall constructor_inputs v st, Forall P (fst st) ->
            ensures (setter_candidate cls prop_name constructor_inputs v st)
                    (fun st' => Forall P (fst st'))).
  { intros constructor_inputs v [cases used] Hc. simpl in Hc. unfold setter_candidate.
    destruct (existsb _ used); [apply ensures_ret; exact Hc|].
    intros g st' g' E. apply bind_done in E. destruct E as (c & g1 & E1 & E2).
    destruct (guarded_call_cases _ _ _ _ E1) as [-> [[_ (e0 & -> & He0)]|[_ [t Eb]]]].
    - destruct e0; try discriminate; injection E2 as <- _; exact Hc.
    - destruct c as [out|[|n|n]]; injection E2 as <- _; simpl; try exact Hc;
        (apply Forall_snoc; [exact Hc|]); exists v; simpl; eauto 7. }
  unfold _generate_property_setter_test_cases.
  apply (ensures_bind _ _ (fun _ => True)); [intros ? ? ? ?; exact I|].
  intros [[valid_instance constructor_inputs]|] _; [|apply ensures_ret; constructor].
  apply (ensures_bind _ _ (fun st => Forall P (fst st))).
  - apply ensures_for_each; [|constructor]. intros v st _ Hst. apply Hcand. exact Hst.
  - intros st Hst. apply (ensures_bind _ _ (fun st => Forall P (fst st))).
    + apply ensures_repeatM; [|exact Hst]. intros st' Hst'.
      apply (ensures_bind _ _ (fun _ => True)); [intros ? ? ? ?; exact I|].
      intros v _. apply Hcand. exact Hst'.
    + intros [cases used] Hc. apply ensures_ret. exact Hc.
Qed.

End RecordedCases.

(* ================================================================== *)
(** * The claims about errors and timeouts *)

Section ErrorsAndTimeouts.

Context {RT : Runtime}.

Import ClassAnalyzer TestCaseGenerator PytestGenerator.

(** The checks rendered for a case that raises do not mention its expected
    output. *)
Lemma raising_case_expected_output_unused (before after : list TestCase.t)
    (inputs : list value) (out : value) (e : exn) :
  function_checks
    (before ++ {| TestCase.inputs := inputs; TestCase.expected_output := out;
                  TestCase.raises := Some e |} :: after)
  = function_checks
      (before ++ {| TestCase.inputs := inputs; TestCase.expected_output := VNone;
                    TestCase.raises := Some e |} :: after).
Proof.
  unfold function_checks, regular_cases, exception_cases.
  rewrite !filter_app. simpl. rewrite !flat_map_app. reflexivity.
Qed.

(** Under [signal.SIG_DFL] the alarm ends the process. *)
Lemma timed_out_constructor_kills (cls : pyclass) (inputs : list value)
    (test_cases : list ClassMethodTestCase.t) (g : rng) :
  times_out (cls_new cls inputs) = true ->
  try_constructor cls inputs test_cases g = Killed.
Proof.
  intros H. unfold try_constructor, bind, call_with_alarm. rewrite H. reflexivity.
Qed.

(** C5.  A candidate whose oracle invocation raises an error other than
    the engine's timeout error (or an error derived from it) before the
    alarm goes off is recorded as a case whose expected-error kind is the
    kind raised and whose expected output is null: for a free function, a
    constructor, a method, a property setter and a property getter, each
    with the fields the engine gives the case.  The checks the serializer
    renders for such a case do not depend on its expected output, and,
    for a function whose calls the alarm leaves alone, every error case in
    the generated list stems from such an invocation. *)
Theorem oracle_error_is_recorded :
  (forall (func : pyfunc) (inputs : list value) (test_cases : list TestCase.t) (g : rng)
          (t : N) (e : exn),
     func_call func inputs = Finishes t (Raised e) ->
     times_out (func_call func inputs) = false ->
     is_timeout e = false ->
     try_call func inputs test_cases g
     = Done (test_cases ++ [ {| TestCase.inputs := inputs;
                                TestCase.expected_output := VNone;
                                TestCase.raises := Some e |} ], g)) /\
  (forall (cls : pyclass) (inputs : list value) (test_cases : list ClassMethodTestCase.t)
          (g : rng) (t : N) (e : exn),
     cls_new cls inputs = Finishes t (Raised e) ->
     times_out (cls_new cls inputs) = false ->
     is_timeout e = false ->
     try_constructor cls inputs test_cases g
     = Done (test_cases ++
             [ {| ClassMethodTestCase.class_type := cls;
                  ClassMethodTestCase.constructor_inputs := inputs;
                  ClassMethodTestCase.method_name := "__init__";
                  ClassMethodTestCase.method_inputs := [];
                  ClassMethodTestCase.expected_output := VNone;
                  ClassMethodTestCase.raises := Some e;
                  ClassMethodTestCase.is_property_getter := false |} ], g)) /\
  (forall (cls : pyclass) (method_type : method_kind) (method_name : string)
          (constructor_inputs inputs : list value)
          (test_cases : list ClassMethodTestCase.t) (g : rng) (t : N) (e : exn),
     method_call cls method_type method_name constructor_inputs inputs
     = Finishes t (Raised e) ->
     times_out (method_call cls method_type method_name constructor_inputs inputs) = false ->
     is_timeout e = false ->
     try_method cls method_type method_name constructor_inputs inputs test_cases g
     = Done (test_cases ++
             [ {| ClassMethodTestCase.class_type := cls;
                  ClassMethodTestCase.constructor_inputs := constructor_inputs;
                  ClassMethodTestCase.method_name := method_name;
                  ClassMethodTestCase.method_inputs := inputs;
                  ClassMethodTestCase.expected_output := VNone;
                  ClassMethodTestCase.raises := Some e;
                  ClassMethodTestCase.is_property_getter := false |} ], g)) /\
  (forall (cls : pyclass) (prop_name : string) (constructor_inputs : list value) (v : value)
          (test_cases : list ClassMethodTestCase.t) (used_inputs : list value) (g : rng)
          (t : N) (e : exn),
     existsb (fun u => _are_functionally_equivalent [v] [u]) used_inputs = false ->
     write_then_read cls prop_name constructor_inputs v = Finishes t (Raised e) ->
     times_out (write_then_read cls prop_name constructor_inputs v) = false ->
     is_timeout e = false ->
     setter_candidate cls prop_name constructor_inputs v (test_cases, used_inputs) g
     = Done ((test_cases ++
              [ {| ClassMethodTestCase.class_type := cls;
                   ClassMethodTestCase.constructor_inputs := constructor_inputs;
                   ClassMethodTestCase.method_name := ("set_" ++ prop_name)%string;
                   ClassMethodTestCase.method_inputs := [v];
                   ClassMethodTestCase.expected_output := VNone;
                   ClassMethodTestCase.raises := Some e;
                   ClassMethodTestCase.is_property_getter := false |} ],
              used_inputs ++ [v]), g)) /\
  (forall (cls : pyclass) (prop_name : string) (prop_info : property_descriptor)
          (num_cases : nat) (valid_instance : option instance)
          (constructor_inputs : list value) (g g1 : rng) (t : N) (e : exn),
     create_instance_for_property cls g = Done (Some (valid_instance, constructor_inputs), g1) ->
     read_property cls valid_instance prop_name = Finishes t (Raised e) ->
     times_out (read_property cls valid_instance prop_name) = false ->
     is_timeout e = false ->
     _generate_property_getter_test_cases cls prop_name prop_info num_cases g
     = Done ([ {| ClassMethodTestCase.class_type := cls;
                  ClassMethodTestCase.constructor_inputs := constructor_inputs;
                  ClassMethodTestCase.method_name := ("get_" ++ prop_name)%string;
                  ClassMethodTestCase.method_inputs := [];
                  ClassMethodTestCase.expected_output := VNone;
                  ClassMethodTestCase.raises := Some e;
                  ClassMethodTestCase.is_property_getter := true |} ], g1)) /\
  (forall (before after : list TestCase.t) (inputs : list value) (out : value) (e : exn),
     function_checks
       (before ++ {| TestCase.inputs := inputs; TestCase.expected_output := out;
                     TestCase.raises := Some e |} :: after)
     = function_checks
         (before ++ {| TestCase.inputs := inputs; TestCase.expected_output := VNone;
                       TestCase.raises := Some e |} :: after)) /\
  (forall (func : pyfunc) (num_cases : nat) (g : rng),
     (forall inputs, undisturbed (func_call func inputs) = true) ->
     exists cases g',
       generate_test_cases func num_cases g = Done (cases, g') /\
       forall (tc : TestCase.t) (e : exn),
         In tc cases -> TestCase.raises tc = Some e ->
         TestCase.expected_output tc = VNone /\ is_timeout e = false /\
         exists t, func_call func (TestCase.inputs tc) = Finishes t (Raised e)).
Proof.
  split; [|split; [|split; [|split; [|split; [|split]]]]].
  - intros func inputs test_cases g t e Hb T He. unfold try_call.
    rewrite (bind_eq _ _ _ _ _ (guarded_call_finished _ _ _ _ g Hb T)).
    destruct (is_timeout_false e He) as [n ->]. reflexivity.
  - intros cls inputs test_cases g t e Hb T He. unfold try_constructor.
    rewrite (bind_eq _ _ _ _ _ (guarded_call_finished _ _ _ _ g Hb T)).
    destruct (is_timeout_false e He) as [n ->]. reflexivity.
  - intros cls method_type method_name constructor_inputs inputs test_cases g t e Hb T He.
    unfold try_method.
    rewrite (bind_eq _ _ _ _ _ (guarded_call_finished _ _ _ _ g Hb T)).
    destruct (is_timeout_false e He) as [n ->]. reflexivity.
  - intros cls prop_name constructor_inputs v test_cases used_inputs g t e Hd Hb T He.
    unfold setter_candidate. rewrite Hd.
    rewrite (bind_eq _ _ _ _ _ (guarded_call_finished _ _ _ _ g Hb T)).
    destruct (is_timeout_false e He) as [n ->]. reflexivity.
  - intros cls prop_name prop_info num_cases valid_instance constructor_inputs g g1 t e
           Hc Hb T He.
    unfold _generate_property_getter_test_cases.
    rewrite (bind_eq _ _ _ _ _ Hc).
    rewrite (bind_eq _ _ _ _ _ (guarded_call_finished _ _ _ _ g1 Hb T)).
    destruct (is_timeout_false e He) as [n ->]. reflexivity.
  - apply raising_case_expected_output_unused.
  - intros func num_cases g Hcalm.
    destruct (function_generation_terminates func num_cases Hcalm g) as (cases & g' & Hrun).
    exists cases, g'. split; [exact Hrun|]. intros tc e Hin Hr.
    pose proof (function_cases_reflect_oracle func num_cases _ _ _ Hrun) as HF.
    rewrite Forall_forall in HF. specialize (HF tc Hin). cbv beta in HF.
    rewrite Hr in HF. exact HF.
Qed.

(** C10 (amended).  Where the call is made inside a [try] block that has a
    timeout branch -- the candidates of a free function, of a constructor
    with parameters, of a method, of a property setter, and the read of a
    property getter -- a call that itself raises [TimeoutException] records
    no case, and no case recorded for a free function or by the candidate
    loops of a method carries [TimeoutException] as its error kind. *)
Theorem timeout_exception_discarded_where_guarded :
  (forall (func : pyfunc) (inputs : list value) (test_cases : list TestCase.t) (g : rng)
          (t : N),
     func_call func inputs = Finishes t (Raised TimeoutException) ->
     try_call func inputs test_cases g = Done (test_cases, g)) /\
  (forall (cls : pyclass) (inputs : list value) (test_cases : list ClassMethodTestCase.t)
          (g : rng) (t : N),
     cls_new cls inputs = Finishes t (Raised TimeoutException) ->
     times_out (cls_new cls inputs) = false ->
     try_constructor cls inputs test_cases g = Done (test_cases, g)) /\
  (forall (cls : pyclass) (method_type : method_kind) (method_name : string)
          (constructor_inputs inputs : list value)
          (test_cases : list ClassMethodTestCase.t) (g : rng) (t : N),
     method_call cls method_type method_name constructor_inputs inputs
     = Finishes t (Raised TimeoutException) ->
     try_method cls method_type method_name constructor_inputs inputs test_cases g
     = Done (test_cases, g)) /\
  (forall (cls : pyclass) (prop_name : string) (constructor_inputs : list value) (v : value)
          (test_cases : list ClassMethodTestCase.t) (used_inputs : list value) (g : rng)
          (t : N),
     write_then_read cls prop_name constructor_inputs v
     = Finishes t (Raised TimeoutException) ->
     exists used_inputs',
       setter_candidate cls prop_name constructor_inputs v (test_cases, used_inputs) g
       = Done ((test_cases, used_inputs'), g)) /\
  (forall (cls : pyclass) (prop_name : string) (prop_info : property_descriptor)
          (num_cases : nat) (valid_instance : option instance)
          (constructor_inputs : list value) (g g1 : rng) (t : N),
     create_instance_for_property cls g = Done (Some (valid_instance, constructor_inputs), g1) ->
     read_property cls valid_instance prop_name = Finishes t (Raised TimeoutException) ->
     _generate_property_getter_test_cases cls prop_name prop_info num_cases g
     = Done ([], g1)) /\
  (forall (func : pyfunc) (num_cases : nat) (g : rng) (cases : list TestCase.t) (g' : rng),
     generate_test_cases func num_cases g = Done (cases, g') ->
     Forall (fun tc => TestCase.raises tc <> Some TimeoutException) cases) /\
  (forall (cls : pyclass) (method_name : string) (method_info : descriptor)
          (method_type : method_kind) (num_cases : nat) (constructor_inputs : list value)
          (g : rng) (cases : list ClassMethodTestCase.t) (g' : rng),
     method_cases_with cls method_name method_info method_type num_cases
                       constructor_inputs [] g = Done (cases, g') ->
     Forall (fun c => ClassMethodTestCase.raises c <> Some TimeoutException) cases).
Proof.
  assert (Hsk : forall (A : Type) (b : behaviour A) (t : N),
            b = Finishes t (Raised TimeoutException) -> skipped b = true).
  { intros A b t ->. unfold skipped. simpl. apply orb_true_r. }
  split; [|split; [|split; [|split; [|split; [|split]]]]].
  - intros func inputs test_cases g t Hb. apply try_call_skipped. exact (Hsk _ _ _ Hb).
  - intros cls inputs test_cases g t Hb T. unfold try_constructor.
    rewrite (bind_eq _ _ _ _ _ (guarded_call_finished _ _ _ _ g Hb T)). reflexivity.
  - intros cls method_type method_name constructor_inputs inputs test_cases g t Hb.
    unfold try_method.
    destruct (guarded_call_skipped _ g (Hsk _ _ _ Hb)) as (e0 & E0 & He0).
    rewrite (bind_eq _ _ _ _ _ E0). destruct e0; try discriminate; reflexivity.
  - intros cls prop_name constructor_inputs v test_cases used_inputs g t Hb.
    unfold setter_candidate.
    destruct (existsb _ used_inputs); [eexists; reflexivity|].
    destruct (guarded_call_skipped _ g (Hsk _ _ _ Hb)) as (e0 & E0 & He0).
    rewrite (bind_eq _ _ _ _ _ E0). destruct e0; try discriminate; eexists; reflexivity.
  - intros cls prop_name prop_info num_cases valid_instance constructor_inputs g g1 t Hc Hb.
    unfold _generate_property_getter_test_cases.
    rewrite (bind_eq _ _ _ _ _ Hc).
    destruct (guarded_call_skipped _ g1 (Hsk _ _ _ Hb)) as (e0 & E0 & He0).
    rewrite (bind_eq _ _ _ _ _ E0). destruct e0; try discriminate; reflexivity.
  - intros func num_cases g cases g' H.
    pose proof (function_cases_reflect_oracle func num_cases _ _ _ H) as HF.
    eapply Forall_impl; [|exact HF]. intros tc Htc E. cbv beta in Htc.
    rewrite E in Htc. destruct Htc as (_ & He & _). discriminate.
  - intros cls method_name method_info method_type num_cases constructor_inputs g cases g' H.
    pose proof (method_cases_reflect_oracle cls method_name method_info method_type
                  num_cases constructor_inputs _ _ _ H) as HF.
    eapply Forall_impl; [|exact HF]. intros c Hc E. cbv beta in Hc.
    destruct Hc as [_ Hc]. rewrite E in Hc. destruct Hc as (_ & He & _). discriminate.
Qed.

End ErrorsAndTimeouts.

(* ================================================================== *)
(** * The claims about classes *)

Section Classes.

Context {RT : Runtime}.

Import ClassAnalyzer TestCaseGenerator.

Lemma call_finished {A : Type} (b : behaviour A) (t : N) (c : completion A) (g : rng) :
  b = Finishes t c -> call b g = Done (c, g).
Proof. intros ->. reflexivity. Qed.

Lemma and_then_returned {A B : Type} (b : behaviour A) (k : A -> behaviour B)
    (t : N) (v : B) :
  and_then b k = Finishes t (Returned v) ->
  exists t1 a t2, b = Finishes t1 (Returned a) /\ k a = Finishes t2 (Returned v).
Proof.
  unfold and_then. destruct b as [t1 [a|e]|]; try discriminate.
  destruct (k a) as [t2 c|] eqn:E; try discriminate.
  intros [= _ ->]. eauto.
Qed.

(** C1 (amended).  For every method (instance, class-bound or static) and
    every property setter, the input tuples of the accumulated case records
    are pairwise non-equivalent under the equivalence filter, in either
    order of the two arguments; for a constructor the same holds among the
    cases of the boundary sweep.  (Values are compared as they were
    synthesized: target code is taken not to mutate its arguments.) *)
Theorem recorded_inputs_pairwise_non_equivalent :
  (forall (c : callable) (num_cases : nat) (g : rng) (tuples : list (list value))
          (g' : rng),
     filtered_throughout c = true ->
     recorded_inputs c num_cases g = Done (tuples, g') ->
     ForallOrdPairs non_equivalent tuples) /\
  (forall (cls : pyclass) (constructor_info : descriptor) (g : rng)
          (st : list ClassMethodTestCase.t * list (list value)) (g' : rng),
     constructor_edge_cases cls constructor_info g = Done (st, g') ->
     ForallOrdPairs non_equivalent
       (map ClassMethodTestCase.constructor_inputs (fst st))).
Proof.
  split.
  - intros c num_cases g tuples g' Hf Hrun.
    destruct c as [func | cls info | cls method_name method_info method_type
                   | cls prop_name prop_info]; try discriminate;
      simpl in Hrun; apply bind_done in Hrun;
      destruct Hrun as (cases & g1 & Hgen & Hret); injection Hret as <- _.
    + exact (method_inputs_pairwise cls method_name method_info method_type num_cases
               _ _ _ Hgen).
    + exact (setter_inputs_pairwise cls prop_name prop_info num_cases _ _ _ Hgen).
  - intros cls constructor_info g st g' Hrun.
    exact (constructor_edge_cases_pairwise cls constructor_info _ _ _ Hrun).
Qed.

Lemma try_method_total (cls : pyclass) (method_type : method_kind) (method_name : string)
    (constructor_inputs inputs : list value) (test_cases : list ClassMethodTestCase.t)
    (g : rng) :
  undisturbed (method_call cls method_type method_name constructor_inputs inputs) = true ->
  exists extra,
    try_method cls method_type method_name constructor_inputs inputs test_cases g
    = Done (test_cases ++ extra, g) /\
    map ClassMethodTestCase.method_inputs extra
    = filter (fun i => negb (raises_timeout
                (method_call cls method_type method_name constructor_inputs i))) [inputs] /\
    Forall (fun c => filed_as cls constructor_inputs method_name c /\
                     records_call (method_call cls method_type method_name
                                     constructor_inputs) c) extra.
Proof.
  intros H. destruct (guarded_call_undisturbed timeout_handler _ g H) as (t & c & Eb & E).
  unfold try_method. rewrite (bind_eq _ _ _ _ _ E). simpl filter. rewrite Eb.
  destruct c as [out|[|n|n]]; simpl.
  - eexists [_]. split; [reflexivity|]. split; [reflexivity|].
    constructor; [|constructor]. split; [repeat split|].
    unfold records_call. simpl. eauto.
  - exists []. rewrite app_nil_r. repeat split. constructor.
  - exists []. rewrite app_nil_r. repeat split. constructor.
  - eexists [_]. split; [reflexivity|]. split; [reflexivity|].
    constructor; [|constructor]. split; [repeat split|].
    unfold records_call. simpl. eauto.
Qed.

Lemma is_duplicate_snoc (inputs u : list value) (used : list (list value)) :
  is_duplicate inputs (used ++ [u])
  = is_duplicate inputs used || _are_functionally_equivalent inputs u.
Proof. unfold is_duplicate. rewrite existsb_app. simpl. rewrite orb_false_r. reflexivity. Qed.

Lemma single_parameter_method_sweep (cls : pyclass) (method_type : method_kind)
    (method_name : string) (constructor_inputs : list value) (p : string)
    (hints : list (string * pytype)) (vs : list value) :
  (forall inputs,
     undisturbed (method_call cls method_type method_name constructor_inputs inputs) = true) ->
  ForallOrdPairs non_equivalent (map (fun v => [v]) vs) ->
  forall (test_cases : list ClassMethodTestCase.t) (used : list (list value)) (g : rng),
  Forall (fun v => is_duplicate [v] used = false) vs ->
  exists recorded,
    for_each vs
      (fun edge_value st =>
         inputs <- edge_inputs [p] hints 0 edge_value (Some cls) ;;
         method_candidate cls method_type method_name constructor_inputs inputs st)
      (test_cases, used) g
    = Done ((test_cases ++ recorded, used ++ map (fun v => [v]) vs), g) /\
    map ClassMethodTestCase.method_inputs recorded
    = filter (fun i => negb (raises_timeout
                (method_call cls method_type method_name constructor_inputs i)))
             (map (fun v => [v]) vs) /\
    Forall (fun c => filed_as cls constructor_inputs method_name c /\
                     records_call (method_call cls method_type method_name
                                     constructor_inputs) c) recorded.
Proof.
  intros Hcalm. induction vs as [|v r IH]; intros Hpairs test_cases used g Hfresh.
  - exists []. rewrite !app_nil_r. repeat split. constructor.
  - simpl in Hpairs. inversion Hpairs as [|x l Hx Hl]; subst.
    apply Forall_cons_iff in Hfresh. destruct Hfresh as [Hv Hr].
    destruct (try_method_total cls method_type method_name constructor_inputs [v]
                test_cases g (Hcalm _)) as (extra & E & Hx' & Hgood).
    assert (Hr' : Forall (fun v' => is_duplicate [v'] (used ++ [[v]]) = false) r).
    { rewrite Forall_forall. intros v' Hv'. rewrite is_duplicate_snoc.
      rewrite Forall_forall in Hr. rewrite (Hr v' Hv'). simpl.
      rewrite Forall_forall in Hx.
      exact (proj2 (Hx [v'] (in_map (fun v => [v]) r v' Hv'))). }
    destruct (IH Hl (test_cases ++ extra) (used ++ [[v]]) g Hr')
      as (recorded & Er & Hrec & Hgood').
    exists (extra ++ recorded). split; [|split].
    + rewrite for_each_cons.
      assert (Ei : edge_inputs [p] hints 0 v (Some cls) g = Done ([v], g)) by reflexivity.
      rewrite (bind_eq _ _ g g (test_cases ++ extra, used ++ [[v]])).
      * rewrite Er. rewrite <- !app_assoc. reflexivity.
      * rewrite (bind_eq _ _ _ _ _ Ei). unfold method_candidate. rewrite Hv.
        rewrite (bind_eq _ _ _ _ _ E). reflexivity.
    + rewrite map_app, Hx', Hrec. simpl.
      destruct (raises_timeout _); reflexivity.
    + apply Forall_app. split; assumption.
Qed.

Lemma method_random_phase (cls : pyclass) (method_type : method_kind)
    (method_name : string) (constructor_inputs : list value) (param_names : list string)
    (hints : list (string * pytype)) (num_cases : nat) :
  (forall inputs,
     undisturbed (method_call cls method_type method_name constructor_inputs inputs) = true) ->
  terminates (random_inputs param_names hints (Some cls)) ->
  forall (test_cases : list ClassMethodTestCase.t) (used : list (list value)) (g : rng),
  exists random used' g',
    repeatM num_cases
      (fun st =>
         inputs <- random_inputs param_names hints (Some cls) ;;
         method_candidate cls method_type method_name constructor_inputs inputs st)
      (test_cases, used) g
    = Done ((test_cases ++ random, used'), g') /\
    List.length random <= num_cases /\
    Forall (fun c => filed_as cls constructor_inputs method_name c /\
                     records_call (method_call cls method_type method_name
                                     constructor_inputs) c) random.
Proof.
  intros Hcalm Hgen. induction num_cases as [|n IH]; intros test_cases used g.
  - exists [], used, g. rewrite app_nil_r. repeat split; [simpl; lia | constructor].
  - destruct (Hgen g) as (inputs & g1 & Ei).
    rewrite repeatM_succ.
    destruct (is_duplicate inputs used) eqn:Hd.
    + destruct (IH test_cases used g1) as (random & used' & g' & Er & Hl & Hgood).
      exists random, used', g'. split; [|split; [lia | exact Hgood]].
      rewrite (bind_eq _ _ g g1 (test_cases, used)); [exact Er|].
      rewrite (bind_eq _ _ _ _ _ Ei). unfold method_candidate. rewrite Hd. reflexivity.
    + destruct (try_method_total cls method_type method_name constructor_inputs inputs
                  test_cases g1 (Hcalm _)) as (extra & E & Hx & Hgood).
      destruct (IH (test_cases ++ extra) (used ++ [inputs]) g1)
        as (random & used' & g' & Er & Hl & Hgood').
      exists (extra ++ random), used', g'. split; [|split].
      * rewrite (bind_eq _ _ g g1 (test_cases ++ extra, used ++ [inputs])).
        -- rewrite Er, app_assoc. reflexivity.
        -- rewrite (bind_eq _ _ _ _ _ Ei). unfold method_candidate. rewrite Hd.
           rewrite (bind_eq _ _ _ _ _ E). reflexivity.
      * apply (f_equal (@List.length _)) in Hx. rewrite length_map in Hx.
        rewrite length_app, Hx. simpl. destruct (raises_timeout _); simpl; lia.
      * apply Forall_app. split; assumption.
Qed.

Lemma standard_inputs_terminate (cls : pyclass) (param_names : list string)
    (hints : list (string * pytype)) :
  Forall (fun p => is_standard (hint_of hints p) = true) param_names ->
  terminates (random_inputs param_names hints (Some cls)).
Proof.
  intros Hstd. unfold random_inputs. induction param_names as [|p r IH].
  - apply terminates_ret.
  - apply Forall_cons_iff in Hstd. destruct Hstd as [Hp Hr]. simpl.
    apply terminates_bind.
    + unfold _generate_value_for_type.
      replace (names_class_under_analysis (hint_of hints p) (Some cls)) with (@None pyclass)
        by (destruct (hint_of hints p); try discriminate; reflexivity).
      apply standard_value_terminates.
    + intros v. apply terminates_bind; [apply IH; exact Hr|]. intros vs. apply terminates_ret.
Qed.

(** C6.  When a class can be instantiated neither with no arguments nor
    with synthesized constructor arguments, the synthesizer records for an
    instance method one case whose error kind is that of the second
    construction fault and nothing else; it records no property case; and
    it still runs the candidates of class-bound and static methods, each
    called through the class itself and filed with no constructor
    argument: the single call of a method without parameters is recorded
    with what it did, and for a method with one parameter of a standard
    type, whose calls the alarm leaves alone, the case list starts with
    one case for each boundary value of that type whose call does not
    raise the timeout error, in the order of the boundary values, goes on
    with at most [num_cases] random cases, and every case records what the
    call through the class did on its input. *)
Theorem construction_failure_stops_instance_methods
    (cls : pyclass) (constructor_info : descriptor) (method_name : string)
    (method_info : descriptor) (num_cases : nat) (g g1 : rng)
    (constructor_inputs : list value) (t0 t : N) (e0 e : exn) :
  cls_new cls [] = Finishes t0 (Raised e0) ->
  constructor (analyze_class cls) = Some constructor_info ->
  random_inputs (parameters constructor_info) (type_hints constructor_info) (Some cls) g
  = Done (constructor_inputs, g1) ->
  cls_new cls constructor_inputs = Finishes t (Raised e) ->
  _generate_method_test_cases cls method_name method_info Methods num_cases g
  = Done ([ {| ClassMethodTestCase.class_type := cls;
               ClassMethodTestCase.constructor_inputs := constructor_inputs;
               ClassMethodTestCase.method_name := method_name;
               ClassMethodTestCase.method_inputs := [];
               ClassMethodTestCase.expected_output := VNone;
               ClassMethodTestCase.raises := Some e;
               ClassMethodTestCase.is_property_getter := false |} ], g1) /\
  (forall (prop_name : string) (prop_info : property_descriptor),
     _generate_property_getter_test_cases cls prop_name prop_info num_cases g
     = Done ([], g1) /\
     _generate_property_setter_test_cases cls prop_name prop_info num_cases g
     = Done ([], g1)) /\
  (forall (method_type : method_kind) (name : string) (info : descriptor) (g0 : rng)
          (t' : N) (c : completion value),
     method_type <> Methods ->
     parameters info = [] ->
     cls_call cls name [] = Finishes t' c ->
     times_out (cls_call cls name []) = false ->
     _generate_method_test_cases cls name info method_type num_cases g0
     = Done (match c with
             | Returned v =>
                 [ {| ClassMethodTestCase.class_type := cls;
                      ClassMethodTestCase.constructor_inputs := [];
                      ClassMethodTestCase.method_name := name;
                      ClassMethodTestCase.method_inputs := [];
                      ClassMethodTestCase.expected_output := v;
                      ClassMethodTestCase.raises := None;
                      ClassMethodTestCase.is_property_getter := false |} ]
             | Raised e' =>
                 if is_timeout e' then []
                 else [ {| ClassMethodTestCase.class_type := cls;
                           ClassMethodTestCase.constructor_inputs := [];
                           ClassMethodTestCase.method_name := name;
                           ClassMethodTestCase.method_inputs := [];
                           ClassMethodTestCase.expected_output := VNone;
                           ClassMethodTestCase.raises := Some e';
                           ClassMethodTestCase.is_property_getter := false |} ]
             end, g0)) /\
  (forall (method_type : method_kind) (name : string) (info : descriptor) (p : string)
          (g0 : rng),
     method_type <> Methods ->
     parameters info = [p] ->
     is_standard (hint_of (type_hints info) p) = true ->
     standard_type_name (hint_of (type_hints info) p) <> Some (cls_name cls) ->
     (forall inputs, undisturbed (cls_call cls name inputs) = true) ->
     exists boundary random g',
       _generate_method_test_cases cls name info method_type num_cases g0
       = Done (boundary ++ random, g') /\
       map ClassMethodTestCase.method_inputs boundary
       = filter (fun i => negb (raises_timeout (cls_call cls name i)))
                (map (fun v => [v])
                     (ValueGenerator.get_edge_cases_for_type
                        (hint_of (type_hints info) p))) /\
       List.length random <= num_cases /\
       Forall (fun c =>
                 ClassMethodTestCase.class_type c = cls /\
                 ClassMethodTestCase.constructor_inputs c = [] /\
                 ClassMethodTestCase.method_name c = name /\
                 ClassMethodTestCase.is_property_getter c = false /\
                 match ClassMethodTestCase.raises c with
                 | None => exists t,
                     cls_call cls name (ClassMethodTestCase.method_inputs c)
                     = Finishes t (Returned (ClassMethodTestCase.expected_output c))
                 | Some e' =>
                     ClassMethodTestCase.expected_output c = VNone /\
                     is_timeout e' = false /\
                     exists t,
                       cls_call cls name (ClassMethodTestCase.method_inputs c)
                       = Finishes t (Raised e')
                 end) (boundary ++ random)).
Proof.
  intros H0 Hctor Hin Hnew.
  assert (Hprop : create_instance_for_property cls g = Done (None, g1)).
  { unfold create_instance_for_property.
    rewrite (bind_eq _ _ _ _ _ (call_finished _ _ _ g H0)), Hctor.
    rewrite (bind_eq _ _ _ _ _ Hin).
    rewrite (bind_eq _ _ _ _ _ (call_finished _ _ _ g1 Hnew)). reflexivity. }
  assert (Heq : forall method_type name info, method_type <> Methods ->
            _generate_method_test_cases cls name info method_type num_cases
            = method_cases_with cls name info method_type num_cases [] []).
  { intros method_type name info Hk.
    destruct method_type; [contradiction | reflexivity | reflexivity]. }
  assert (Hcall : forall method_type name inputs, method_type <> Methods ->
            method_call cls method_type name [] inputs = cls_call cls name inputs).
  { intros method_type name inputs Hk.
    destruct method_type; [contradiction | reflexivity | reflexivity]. }
  split; [|split; [|split]].
  - unfold _generate_method_test_cases, create_instance_for_method.
    rewrite (bind_eq _ _ g g1
               (None, constructor_inputs,
                [method_case cls constructor_inputs method_name [] VNone (Some e)])).
    + reflexivity.
    + rewrite (bind_eq _ _ _ _ _ (call_finished _ _ _ g H0)), Hctor.
      rewrite (bind_eq _ _ _ _ _ Hin).
      rewrite (bind_eq _ _ _ _ _ (call_finished _ _ _ g1 Hnew)). reflexivity.
  - intros prop_name prop_info. split.
    + unfold _generate_property_getter_test_cases.
      rewrite (bind_eq _ _ _ _ _ Hprop). reflexivity.
    + unfold _generate_property_setter_test_cases.
      rewrite (bind_eq _ _ _ _ _ Hprop). reflexivity.
  - intros method_type name info g0 t' c Hk Hps Hb T. rewrite (Heq _ _ _ Hk).
    unfold method_cases_with. rewrite Hps.
    unfold try_method. rewrite <- (Hcall method_type name [] Hk) in Hb, T.
    rewrite (bind_eq _ _ _ _ _ (guarded_call_finished _ _ _ _ g0 Hb T)).
    destruct c as [v|[|n|n]]; reflexivity.
  - intros method_type name info p g0 Hk Hps Hstd _ Hcalm. rewrite (Heq _ _ _ Hk).
    assert (Hcalm' : forall inputs,
              undisturbed (method_call cls method_type name [] inputs) = true).
    { intros inputs. rewrite (Hcall _ _ _ Hk). apply Hcalm. }
    assert (Hpairs : ForallOrdPairs non_equivalent
                       (map (fun v => [v])
                            (ValueGenerator.get_edge_cases_for_type
                               (hint_of (type_hints info) p)))).
    { destruct (hint_of (type_hints info) p); simpl; repeat constructor. }
    destruct (single_parameter_method_sweep cls method_type name [] p
                (type_hints info) _ Hcalm' Hpairs [] [] g0)
      as (boundary & Eb & Hb & Hgood).
    { apply Forall_forall. intros v _. reflexivity. }
    assert (Hgen : terminates (random_inputs [p] (type_hints info) (Some cls))).
    { apply standard_inputs_terminate. constructor; [exact Hstd | constructor]. }
    destruct (method_random_phase cls method_type name [] [p]
                (type_hints info) num_cases Hcalm' Hgen boundary
                ([] ++ map (fun v => [v])
                              (ValueGenerator.get_edge_cases_for_type
                                 (hint_of (type_hints info) p))) g0)
      as (random & used' & g' & Er & Hl & Hgood').
    exists boundary, random, g'. split; [|split; [|split]].
    + unfold method_cases_with. rewrite Hps.
      change (enumerate [p]) with [(0, p)]. rewrite for_each_cons.
      simpl app in Eb.
      rewrite (bind_eq _ _ g0 g0
                 (boundary, [] ++ map (fun v => [v])
                                    (ValueGenerator.get_edge_cases_for_type
                                       (hint_of (type_hints info) p)))).
      * rewrite (bind_eq _ _ _ _ _ Er). reflexivity.
      * rewrite (bind_eq _ _ _ _ _ Eb). reflexivity.
    + rewrite Hb. apply filter_ext. intros i. rewrite (Hcall _ _ _ Hk). reflexivity.
    + exact Hl.
    + assert (Hall : Forall (fun c => filed_as cls [] name c /\
                     records_call (method_call cls method_type name []) c)
                     (boundary ++ random)).
      { apply Forall_app. split; assumption. }
      revert Hall. apply Forall_impl. intros c [(H1 & H2 & H3 & H4) H5].
      repeat (split; [assumption|]). unfold records_call in H5.
      destruct (ClassMethodTestCase.raises c); rewrite (Hcall _ _ _ Hk) in H5; exact H5.
Qed.

(** C7.  Every case recorded for a property setter holds one input value
    [x]; when no error is expected, its expected output is what the getter
    returned on the instance left by the setter, called with [x] on an
    instance constructed for this case -- whatever the setter itself
    returned -- so it is [x] when the property stores its value unchanged;
    when an error is expected, the expected output is null. *)
Theorem setter_records_read_after_write
    (cls : pyclass) (prop_name : string) (prop_info : property_descriptor)
    (num_cases : nat) (g g' : rng) (cases : list ClassMethodTestCase.t)
    (c : ClassMethodTestCase.t) :
  _generate_property_setter_test_cases cls prop_name prop_info num_cases g
  = Done (cases, g') ->
  In c cases ->
  exists x,
    ClassMethodTestCase.method_inputs c = [x] /\
    match ClassMethodTestCase.raises c with
    | None =>
        (exists t1 obj t2 returned obj' t3,
           cls_new cls (ClassMethodTestCase.constructor_inputs c)
           = Finishes t1 (Returned obj) /\
           obj_setattr cls prop_name obj x = Finishes t2 (Returned (returned, obj')) /\
           obj_getattr cls prop_name obj'
           = Finishes t3 (Returned (ClassMethodTestCase.expected_output c))) /\
        ((forall obj v t2 returned obj',
            obj_setattr cls prop_name obj v = Finishes t2 (Returned (returned, obj')) ->
            exists t3, obj_getattr cls prop_name obj' = Finishes t3 (Returned v)) ->
         ClassMethodTestCase.expected_output c = x)
    | Some _ => ClassMethodTestCase.expected_output c = VNone
    end.
Proof.
  intros Hrun Hin.
  pose proof (setter_cases_reflect_oracle cls prop_name prop_info num_cases _ _ _ Hrun) as HF.
  rewrite Forall_forall in HF. destruct (HF c Hin) as (x & Hx & Hc).
  exists x. split; [exact Hx|].
  destruct (ClassMethodTestCase.raises c) as [e|].
  - apply Hc.
  - destruct Hc as [t Hwr]. unfold write_then_read in Hwr.
    apply and_then_returned in Hwr. destruct Hwr as (t1 & obj & t' & Hnew & Hwr).
    apply and_then_returned in Hwr. destruct Hwr as (t2 & [returned obj'] & t3 & Hset & Hget).
    simpl in Hget. split.
    + exists t1, obj, t2, returned, obj', t3. auto.
    + intros Hid. destruct (Hid _ _ _ _ _ Hset) as [t3' Hget'].
      rewrite Hget' in Hget. injection Hget as _ ->. reflexivity.
Qed.

(** C9.  When the declared type of a parameter is a class of the same name
    as the class under analysis, value synthesis takes that class's
    constructor descriptor, generates one value per constructor parameter
    on the standard path (where a class type gives null: no further
    self-recursion), and calls the constructor: the result is the
    constructed instance, or null when the construction raises. *)
Theorem self_referential_parameter
    (param_type class_type : pyclass) (param_name : string)
    (constructor_info : descriptor) (g : rng) :
  cls_name param_type = cls_name class_type ->
  constructor (analyze_class param_type) = Some constructor_info ->
  exists constructor_inputs g1,
    mapM (fun inner_param_name =>
            generate_standard_value (hint_of (type_hints constructor_info) inner_param_name))
         (parameters constructor_info) g = Done (constructor_inputs, g1) /\
    List.length constructor_inputs = List.length (parameters constructor_info) /\
    (forall (c : pyclass) (g0 : rng), generate_standard_value (TClass c) g0 = Done (VNone, g0)) /\
    (forall (t : N) (obj : instance),
       cls_new param_type constructor_inputs = Finishes t (Returned obj) ->
       _generate_value_for_type (TClass param_type) param_name (Some class_type) g
       = Done (obj_value obj, g1)) /\
    (forall (t : N) (e : exn),
       cls_new param_type constructor_inputs = Finishes t (Raised e) ->
       _generate_value_for_type (TClass param_type) param_name (Some class_type) g
       = Done (VNone, g1)).
Proof.
  intros Hname Hctor.
  destruct (terminates_mapM
              (fun inner_param_name =>
                 generate_standard_value
                   (hint_of (type_hints constructor_info) inner_param_name))
              (parameters constructor_info)
              (fun p => standard_value_terminates _) g)
    as (constructor_inputs & g1 & Eargs).
  exists constructor_inputs, g1. split; [exact Eargs|]. split.
  { exact (mapM_length _ _ _ _ _ Eargs). }
  split; [intros c g0; reflexivity|].
  assert (Hguard : names_class_under_analysis (TClass param_type) (Some class_type)
                   = Some param_type).
  { simpl. rewrite Hname, String.eqb_refl. reflexivity. }
  split; intros t r Hnew; unfold _generate_value_for_type; rewrite Hguard, Hctor;
    rewrite (bind_eq _ _ _ _ _ Eargs);
    rewrite (bind_eq _ _ _ _ _ (call_finished _ _ _ g1 Hnew)); reflexivity.
Qed.

End Classes.

(* ================================================================== *)
(** * The claims on concrete targets *)

Module Concrete.

Import Examples ClassAnalyzer TestCaseGenerator.

(** C2 (the code departs from the claim).  [Derived] inherits [foo] from
    [Base] and does not define it, yet the description of [Derived]
    records [foo] as defined in [Derived]; and for [Square], which
    overrides the method [area] of [Shape] by a property, [area] appears
    both among the properties and among the instance methods. *)
Lemma inherited_method_attributed_to_analysed_class :
  (assoc_get "foo" (cls_dict Derived) = None /\
   (exists f, assoc_get "foo" (cls_dict Base) = Some (AFunction f)) /\
   _get_class_hierarchy Derived = [Derived; Base] /\
   exists d, assoc_get "foo" (methods (analyze_class Derived)) = Some d /\
             defined_in d = "Derived") /\
  (exists d p, assoc_get "area" (methods (analyze_class Square)) = Some d /\
               assoc_get "area" (properties (analyze_class Square)) = Some p /\
               defined_in d = "Shape" /\ prop_defined_in p = "Square").
Proof.
  split.
  - split; [reflexivity|]. split; [eexists; reflexivity|]. split; [reflexivity|].
    eexists. split; reflexivity.
  - do 2 eexists. repeat split; reflexivity.
Qed.

(** C3 (the code departs from the claim).  On a platform with alarms, the
    first constructor candidate of [Sleeper] runs past the deadline; with
    the default disposition installed for the alarm the process is
    terminated, so no later candidate is tried and no case list is
    produced, while a function that runs past the deadline is skipped and
    the next candidates are recorded. *)
Lemma constructor_timeout_ends_generation :
  IS_WINDOWS (Runtime := posix) = false /\
  times_out (RT := posix) (cls_new Sleeper [VInt 0]) = true /\
  (exists constructor_info,
     constructor (analyze_class Sleeper) = Some constructor_info /\
     _generate_constructor_test_cases (RT := posix) Sleeper constructor_info 5 0%nat
     = Killed) /\
  generate_class_test_cases (RT := posix) Sleeper 5 0%nat = Killed /\
  times_out (RT := posix) (func_call spin [VInt 0]) = true /\
  (exists cases g',
     generate_test_cases (RT := posix) spin 0 0%nat = Done (cases, g') /\
     map TestCase.inputs cases = [[VInt 1]; [VInt (-1)]; [VInt 100]; [VInt (-100)]]).
Proof.
  split; [reflexivity|]. split; [reflexivity|]. split.
  - eexists. split; reflexivity.
  - split; [reflexivity|]. split; [reflexivity|]. do 2 eexists. split; reflexivity.
Qed.

(** C1 (the claim as stated fails).  The three cases generated for the
    function [flag] with one random case, and the three generated for the
    constructor of [Switch], each contain the tuple [(True,)] twice. *)
Lemma unfiltered_callables_repeat_inputs :
  (exists tuples g',
     recorded_inputs (RT := posix) (FreeFunction flag) 1 0%nat = Done (tuples, g') /\
     ~ ForallOrdPairs (non_equivalent (RT := posix)) tuples) /\
  (exists constructor_info tuples g',
     constructor (analyze_class Switch) = Some constructor_info /\
     recorded_inputs (RT := posix) (Constructor Switch constructor_info) 1 0%nat
     = Done (tuples, g') /\
     ~ ForallOrdPairs (non_equivalent (RT := posix)) tuples).
Proof.
  assert (Hdup : ~ ForallOrdPairs (non_equivalent (RT := posix))
                   [[VBool true]; [VBool false]; [VBool true]]).
  { intros H. inversion H as [|a l Ha Hl]; subst.
    apply Forall_cons_iff in Ha. destruct Ha as [_ Ha].
    apply Forall_cons_iff in Ha. destruct Ha as [[E _] _]. discriminate. }
  split.
  - do 2 eexists. split; [reflexivity | exact Hdup].
  - do 3 eexists. split; [reflexivity|]. split; [reflexivity | exact Hdup].
Qed.

(** C4 (the claim as stated fails).  [spin] never returns on [0]; on a
    platform with alarms that candidate is dropped, and no generated case
    has the input [0]. *)
Lemma timed_out_boundary_value_is_missing :
  exists cases g',
    generate_test_cases (RT := posix) spin 5 0%nat = Done (cases, g') /\
    ~ In [VInt 0] (map TestCase.inputs cases).
Proof.
  do 2 eexists. split; [reflexivity|]. simpl.
  intros H. repeat (destruct H as [H|H]; [discriminate|]). exact H.
Qed.

(** C10 (the claim as stated fails).  The constructor of [Guarded] takes no
    argument and raises [TimeoutException]; the constructor case and the
    case recorded for the instance method [ping] both carry that error
    kind. *)
Lemma unguarded_timeout_exception_is_recorded :
  cls_new Guarded [] = Finishes 1 (Raised TimeoutException) /\
  (exists constructor_info cases g',
     constructor (analyze_class Guarded) = Some constructor_info /\
     _generate_constructor_test_cases (RT := posix) Guarded constructor_info 5 0%nat
     = Done (cases, g') /\
     map ClassMethodTestCase.raises cases = [Some TimeoutException]) /\
  (exists method_info cases g',
     assoc_get "ping" (methods (analyze_class Guarded)) = Some method_info /\
     _generate_method_test_cases (RT := posix) Guarded "ping" method_info Methods 5 0%nat
     = Done (cases, g') /\
     map ClassMethodTestCase.raises cases = [Some TimeoutException]).
Proof.
  split; [reflexivity|]. split.
  - do 3 eexists. split; [reflexivity|]. split; reflexivity.
  - do 3 eexists. split; [reflexivity|]. split; reflexivity.
Qed.

(** Witnesses: the theorems above applied to concrete targets. *)

Lemma equivalence_filter_spec_witness :
  Forall well_formed [VInt 1; VList [VInt 2]; VDict [("a", VInt 1); ("b", VNone)]] /\
  Forall well_formed [VBool true; VTuple [VInt 2]; VDict [("b", VNone); ("a", VInt 1)]] /\
  (_are_functionally_equivalent (RT := posix)
     [VInt 1; VList [VInt 2]; VDict [("a", VInt 1); ("b", VNone)]]
     [VBool true; VTuple [VInt 2]; VDict [("b", VNone); ("a", VInt 1)]] = true <->
   List.length [VInt 1; VList [VInt 2]; VDict [("a", VInt 1); ("b", VNone)]]
   = List.length [VBool true; VTuple [VInt 2]; VDict [("b", VNone); ("a", VInt 1)]] /\
   Forall2 (structurally_equivalent (RT := posix))
     [VInt 1; VList [VInt 2]; VDict [("a", VInt 1); ("b", VNone)]]
     [VBool true; VTuple [VInt 2]; VDict [("b", VNone); ("a", VInt 1)]]).
Proof.
  assert (W1 : Forall well_formed
                 [VInt 1; VList [VInt 2]; VDict [("a", VInt 1); ("b", VNone)]]).
  { repeat constructor; simpl; intuition discriminate. }
  assert (W2 : Forall well_formed
                 [VBool true; VTuple [VInt 2]; VDict [("b", VNone); ("a", VInt 1)]]).
  { repeat constructor; simpl; intuition discriminate. }
  split; [exact W1|]. split; [exact W2|].
  exact (equivalence_filter_spec (RT := posix) _ _ W1 W2).
Defined.

Lemma recorded_inputs_pairwise_non_equivalent_witness :
  filtered_throughout
    (Method Lamp "switch"
       {| parameters := ["on"]; type_hints := [("on", TBool); ("return", TBool)];
          defined_in := "Lamp" |} Methods) = true /\
  recorded_inputs (RT := posix)
    (Method Lamp "switch"
       {| parameters := ["on"]; type_hints := [("on", TBool); ("return", TBool)];
          defined_in := "Lamp" |} Methods) 5 0%nat
  = Done ([[VBool true]; [VBool false]], 5%nat) /\
  ForallOrdPairs (non_equivalent (RT := posix)) [[VBool true]; [VBool false]].
Proof.
  split; [reflexivity|]. split; [reflexivity|].
  exact (proj1 (recorded_inputs_pairwise_non_equivalent (RT := posix))
           (Method Lamp "switch"
              {| parameters := ["on"]; type_hints := [("on", TBool); ("return", TBool)];
                 defined_in := "Lamp" |} Methods)
           5 0%nat [[VBool true]; [VBool false]] 5%nat eq_refl eq_refl).
Defined.

Lemma integer_boundary_cases_first_witness :
  func_parameters negate = ["n"] /\
  hint_of (func_type_hints negate) "n" = TInt /\
  (forall inputs, undisturbed (RT := posix) (func_call negate inputs) = true) /\
  exists boundary random g',
    _generate_edge_cases (RT := posix) negate 0%nat = Done (boundary, 0%nat) /\
    generate_test_cases (RT := posix) negate 5 0%nat = Done (boundary ++ random, g') /\
    map TestCase.inputs boundary
    = filter (fun i => negb (raises_timeout (func_call negate i)))
             [[VInt 0]; [VInt 1]; [VInt (-1)]; [VInt 100]; [VInt (-100)]] /\
    List.length random <= 5.
Proof.
  assert (Hcalm : forall inputs,
            undisturbed (RT := posix) (func_call negate inputs) = true).
  { intros inputs. reflexivity. }
  split; [reflexivity|]. split; [reflexivity|]. split; [exact Hcalm|].
  exact (integer_boundary_cases_first (RT := posix) negate "n" 5 0%nat
           eq_refl eq_refl Hcalm).
Defined.

Lemma oracle_error_is_recorded_witness :
  func_call divide [VInt 1; VInt 0]
  = Finishes 1 (Raised (OtherException "ZeroDivisionError")) /\
  times_out (RT := posix) (func_call divide [VInt 1; VInt 0]) = false /\
  is_timeout (OtherException "ZeroDivisionError") = false /\
  try_call (RT := posix) divide [VInt 1; VInt 0] [] 0%nat
  = Done ([] ++ [ {| TestCase.inputs := [VInt 1; VInt 0];
                     TestCase.expected_output := VNone;
                     TestCase.raises := Some (OtherException "ZeroDivisionError") |} ],
          0%nat) /\
  cls_new Strict [VInt 0] = Finishes 1 (Raised (OtherException "ValueError")) /\
  times_out (RT := posix) (cls_new Strict [VInt 0]) = false /\
  is_timeout (OtherException "ValueError") = false /\
  try_constructor (RT := posix) Strict [VInt 0] [] 0%nat
  = Done ([] ++ [ {| ClassMethodTestCase.class_type := Strict;
                     ClassMethodTestCase.constructor_inputs := [VInt 0];
                     ClassMethodTestCase.method_name := "__init__";
                     ClassMethodTestCase.method_inputs := [];
                     ClassMethodTestCase.expected_output := VNone;
                     ClassMethodTestCase.raises := Some (OtherException "ValueError");
                     ClassMethodTestCase.is_property_getter := false |} ],
          0%nat) /\
  method_call Strict StaticMethods "twice" [] [VStr "a"]
  = Finishes 1 (Raised (OtherException "TypeError")) /\
  times_out (RT := posix) (method_call Strict StaticMethods "twice" [] [VStr "a"]) = false /\
  is_timeout (OtherException "TypeError") = false /\
  try_method (RT := posix) Strict StaticMethods "twice" [] [VStr "a"] [] 0%nat
  = Done ([] ++ [ {| ClassMethodTestCase.class_type := Strict;
                     ClassMethodTestCase.constructor_inputs := [];
                     ClassMethodTestCase.method_name := "twice";
                     ClassMethodTestCase.method_inputs := [VStr "a"];
                     ClassMethodTestCase.expected_output := VNone;
                     ClassMethodTestCase.raises := Some (OtherException "TypeError");
                     ClassMethodTestCase.is_property_getter := false |} ],
          0%nat).
Proof.
  pose proof (oracle_error_is_recorded (RT := posix))
    as (Hfunction & Hconstructor & Hmethod & _).
  split; [reflexivity|]. split; [reflexivity|]. split; [reflexivity|].
  split.
  { exact (Hfunction divide [VInt 1; VInt 0] [] 0%nat 1%N
             (OtherException "ZeroDivisionError") eq_refl eq_refl eq_refl). }
  split; [reflexivity|]. split; [reflexivity|]. split; [reflexivity|].
  split.
  { exact (Hconstructor Strict [VInt 0] [] 0%nat 1%N (OtherException "ValueError")
             eq_refl eq_refl eq_refl). }
  split; [reflexivity|]. split; [reflexivity|]. split; [reflexivity|].
  exact (Hmethod Strict StaticMethods "twice" [] [VStr "a"] [] 0%nat 1%N
           (OtherException "TypeError") eq_refl eq_refl eq_refl).
Defined.

Lemma construction_failure_stops_instance_methods_witness :
  cls_new Strict [] = Finishes 1 (Raised (OtherException "TypeError")) /\
  constructor (analyze_class Strict)
  = Some {| parameters := ["n"]; type_hints := [("n", TInt)]; defined_in := "Strict" |} /\
  random_inputs (RT := posix) ["n"] [("n", TInt)] (Some Strict) 0%nat
  = Done ([VInt (-1000)], 1%nat) /\
  cls_new Strict [VInt (-1000)] = Finishes 1 (Raised (OtherException "ValueError")) /\
  _generate_method_test_cases (RT := posix) Strict "run"
    {| parameters := []; type_hints := []; defined_in := "Strict" |} Methods 5 0%nat
  = Done ([ {| ClassMethodTestCase.class_type := Strict;
               ClassMethodTestCase.constructor_inputs := [VInt (-1000)];
               ClassMethodTestCase.method_name := "run";
               ClassMethodTestCase.method_inputs := [];
               ClassMethodTestCase.expected_output := VNone;
               ClassMethodTestCase.raises := Some (OtherException "ValueError");
               ClassMethodTestCase.is_property_getter := false |} ], 1%nat) /\
  assoc_get "twice" (static_methods (analyze_class Strict))
  = Some {| parameters := ["n"]; type_hints := [("n", TInt); ("return", TInt)];
            defined_in := "Strict" |} /\
  (forall inputs, undisturbed (RT := posix) (cls_call Strict "twice" inputs) = true) /\
  exists boundary random g',
    _generate_method_test_cases (RT := posix) Strict "twice"
      {| parameters := ["n"]; type_hints := [("n", TInt); ("return", TInt)];
         defined_in := "Strict" |} StaticMethods 5 0%nat
    = Done (boundary ++ random, g') /\
    map ClassMethodTestCase.method_inputs boundary
    = [[VInt 0]; [VInt 1]; [VInt (-1)]; [VInt 100]; [VInt (-100)]] /\
    List.length random <= 5 /\
    Forall (fun c => ClassMethodTestCase.constructor_inputs c = [] /\
                     ClassMethodTestCase.raises c = None /\
                     exists z, ClassMethodTestCase.method_inputs c = [VInt z] /\
                               ClassMethodTestCase.expected_output c = VInt (2 * z))
           boundary.
Proof.
  pose proof (construction_failure_stops_instance_methods (RT := posix)
                Strict
                {| parameters := ["n"]; type_hints := [("n", TInt)];
                   defined_in := "Strict" |}
                "run" {| parameters := []; type_hints := []; defined_in := "Strict" |}
                5 0%nat 1%nat [VInt (-1000)] 1%N 1%N
                (OtherException "TypeError") (OtherException "ValueError")
                eq_refl eq_refl eq_refl eq_refl) as (Hrun & _ & _ & Hstatic).
  assert (Hcalm : forall inputs,
            undisturbed (RT := posix) (cls_call Strict "twice" inputs) = true).
  { intros inputs. reflexivity. }
  split; [reflexivity|]. split; [reflexivity|]. split; [reflexivity|].
  split; [reflexivity|]. split; [exact Hrun|]. split; [reflexivity|].
  split; [exact Hcalm|].
  destruct (Hstatic StaticMethods "twice"
              {| parameters := ["n"]; type_hints := [("n", TInt); ("return", TInt)];
                 defined_in := "Strict" |} "n" 0%nat
              ltac:(discriminate) eq_refl eq_refl ltac:(discriminate) Hcalm)
    as (boundary & random & g' & Hgen & Hfilter & Hl & Hall).
  assert (Hb : map ClassMethodTestCase.method_inputs boundary
               = [[VInt 0]; [VInt 1]; [VInt (-1)]; [VInt 100]; [VInt (-100)]]).
  { rewrite Hfilter. reflexivity. }
  exists boundary, random, g'. split; [exact Hgen|]. split; [exact Hb|].
  split; [exact Hl|].
  apply Forall_app in Hall. destruct Hall as [Hall _].
  rewrite Forall_forall in Hall. apply Forall_forall.
  intros c Hc. destruct (Hall c Hc) as (_ & Hci & _ & _ & Hrec).
  split; [exact Hci|].
  assert (Hin : In (ClassMethodTestCase.method_inputs c)
                   [[VInt 0]; [VInt 1]; [VInt (-1)]; [VInt 100]; [VInt (-100)]]).
  { rewrite <- Hb. apply in_map. exact Hc. }
  destruct (ClassMethodTestCase.raises c) as [e'|].
  - destruct Hrec as (_ & _ & t & Hcall). exfalso.
    destruct Hin as [E|[E|[E|[E|[E|[]]]]]]; rewrite <- E in Hcall; discriminate.
  - destruct Hrec as (t & Hcall). split; [reflexivity|].
    destruct Hin as [E|[E|[E|[E|[E|[]]]]]]; rewrite <- E in Hcall |- *;
      simpl in Hcall; injection Hcall as _ <-; eexists; split; reflexivity.
Defined.

Lemma setter_records_read_after_write_witness :
  _generate_property_setter_test_cases (RT := posix) Cell "value"
    {| has_getter := true; has_setter := true; has_deleter := false;
       prop_type_hints := [("return", TInt)]; prop_defined_in := "Cell" |} 0 0%nat
  = Done ([setter_case Cell [] "value" (VInt 0) (VInt 0) None;
           setter_case Cell [] "value" (VInt 1) (VInt 1) None;
           setter_case Cell [] "value" (VInt (-1)) (VInt (-1)) None;
           setter_case Cell [] "value" (VInt 100) (VInt 100) None;
           setter_case Cell [] "value" (VInt (-100)) (VInt (-100)) None], 0%nat) /\
  In (setter_case Cell [] "value" (VInt 100) (VInt 100) None)
     [setter_case Cell [] "value" (VInt 0) (VInt 0) None;
      setter_case Cell [] "value" (VInt 1) (VInt 1) None;
      setter_case Cell [] "value" (VInt (-1)) (VInt (-1)) None;
      setter_case Cell [] "value" (VInt 100) (VInt 100) None;
      setter_case Cell [] "value" (VInt (-100)) (VInt (-100)) None] /\
  exists x,
    [VInt 100] = [x] /\
    (exists t1 obj t2 returned obj' t3,
       cls_new Cell [] = Finishes t1 (Returned obj) /\
       obj_setattr Cell "value" obj x = Finishes t2 (Returned (returned, obj')) /\
       obj_getattr Cell "value" obj' = Finishes t3 (Returned (VInt 100))) /\
    ((forall obj v t2 returned obj',
        obj_setattr Cell "value" obj v = Finishes t2 (Returned (returned, obj')) ->
        exists t3, obj_getattr Cell "value" obj' = Finishes t3 (Returned v)) ->
     VInt 100 = x).
Proof.
  assert (Hin : In (setter_case Cell [] "value" (VInt 100) (VInt 100) None)
                  [setter_case Cell [] "value" (VInt 0) (VInt 0) None;
                   setter_case Cell [] "value" (VInt 1) (VInt 1) None;
                   setter_case Cell [] "value" (VInt (-1)) (VInt (-1)) None;
                   setter_case Cell [] "value" (VInt 100) (VInt 100) None;
                   setter_case Cell [] "value" (VInt (-100)) (VInt (-100)) None]).
  { simpl. tauto. }
  split; [reflexivity|]. split; [exact Hin|].
  exact (setter_records_read_after_write (RT := posix) Cell "value"
           {| has_getter := true; has_setter := true; has_deleter := false;
              prop_type_hints := [("return", TInt)]; prop_defined_in := "Cell" |}
           0 0%nat 0%nat _ _ eq_refl Hin).
Defined.

Lemma self_referential_parameter_witness :
  cls_name Node_annotation = cls_name Node /\
  constructor (analyze_class Node_annotation)
  = Some {| parameters := ["next"]; type_hints := [("next", TAny)]; defined_in := "Node" |} /\
  exists constructor_inputs g1,
    mapM (fun inner_param_name =>
            generate_standard_value (RT := posix)
              (hint_of [("next", TAny)] inner_param_name))
         ["next"] 0%nat = Done (constructor_inputs, g1) /\
    List.length constructor_inputs = List.length ["next"] /\
    (forall (c : pyclass) (g0 : rng),
       generate_standard_value (RT := posix) (TClass c) g0 = Done (VNone, g0)) /\
    (forall (t : N) (obj : instance),
       cls_new Node_annotation constructor_inputs = Finishes t (Returned obj) ->
       _generate_value_for_type (RT := posix) (TClass Node_annotation) "next" (Some Node)
         0%nat = Done (obj_value obj, g1)) /\
    (forall (t : N) (e : exn),
       cls_new Node_annotation constructor_inputs = Finishes t (Raised e) ->
       _generate_value_for_type (RT := posix) (TClass Node_annotation) "next" (Some Node)
         0%nat = Done (VNone, g1)).
Proof.
  split; [reflexivity|]. split; [reflexivity|].
  exact (self_referential_parameter (RT := posix) Node_annotation Node "next"
           {| parameters := ["next"]; type_hints := [("next", TAny)];
              defined_in := "Node" |} 0%nat eq_refl eq_refl).
Defined.

Lemma timeout_exception_discarded_where_guarded_witness :
  func_call busy [VInt 0] = Finishes 1 (Raised TimeoutException) /\
  try_call (RT := posix) busy [VInt 0] [] 0%nat = Done ([], 0%nat).
Proof.
  split; [reflexivity|].
  exact (proj1 (timeout_exception_discarded_where_guarded (RT := posix))
           busy [VInt 0] [] 0%nat 1%N eq_refl).
Defined.

End Concrete.

(* ================================================================== *)
(** * Further properties of the equivalence filter *)

Section FilterProperties.

Context {RT : Runtime}.

Lemma comparable_items (xs : list value) :
  (fix all (l : list value) : Prop :=
     match l with [] => True | x :: r => comparable x /\ all r end) xs
  <-> Forall comparable xs.
Proof.
  induction xs as [|x r IH]; simpl.
  - split; auto.
  - rewrite IH. split.
    + intros [H1 H2]. constructor; assumption.
    + intros H. apply Forall_cons_iff in H. exact H.
Qed.

Lemma comparable_entries (d : list (string * value)) :
  (fix all (l : list (string * value)) : Prop :=
     match l with [] => True | (_, x) :: r => comparable x /\ all r end) d
  <-> Forall (fun kv => comparable (snd kv)) d.
Proof.
  induction d as [|[k x] r IH]; simpl.
  - split; auto.
  - rewrite IH. split.
    + intros [H1 H2]. constructor; assumption.
    + intros H. apply Forall_cons_iff in H. exact H.
Qed.

Lemma float_eqb_refl (f : pyfloat) : f <> FNaN -> float_eqb f f = true.
Proof.
  destruct f as [|s|q]; simpl; intros H.
  - contradiction.
  - destruct s; reflexivity.
  - apply Qeq_bool_iff. reflexivity.
Qed.

Lemma positions_equivalent_refl_step (xs : list value) :
  Forall (fun x => well_formed x -> comparable x ->
                   position_equivalent x x = true) xs ->
  Forall well_formed xs -> Forall comparable xs ->
  positions_equivalent xs xs = true.
Proof.
  induction xs as [|x r IH]; simpl; [reflexivity|].
  intros H W C.
  apply Forall_cons_iff in H. apply Forall_cons_iff in W. apply Forall_cons_iff in C.
  destruct H as [Hx Hr]. destruct W as [Wx Wr]. destruct C as [Cx Cr].
  rewrite (Hx Wx Cx). simpl. apply IH; assumption.
Qed.

Lemma position_equivalent_refl_step (a : value) :
  parts_satisfy (fun x => well_formed x -> comparable x ->
                          position_equivalent x x = true) a ->
  well_formed a -> comparable a -> position_equivalent a a = true.
Proof.
  intros [IHseq IHdict] Wa Ca.
  destruct a as [|z|f|s|b|xs|xs|d|cn attrs].
  - simpl in *. unfold repr_equal. destruct (repr VNone); [apply String.eqb_refl | contradiction].
  - simpl. apply Qeq_bool_iff. reflexivity.
  - simpl in *. apply float_eqb_refl. exact Ca.
  - simpl. apply String.eqb_refl.
  - simpl. apply Qeq_bool_iff. reflexivity.
  - rewrite (position_equivalent_sequence (VList xs) (VList xs) xs xs eq_refl eq_refl), Nat.eqb_refl. simpl.
    apply well_formed_list in Wa. simpl in Ca. apply comparable_items in Ca.
    apply positions_equivalent_refl_step; [apply IHseq; reflexivity | exact Wa | exact Ca].
  - rewrite (position_equivalent_sequence (VTuple xs) (VTuple xs) xs xs eq_refl eq_refl), Nat.eqb_refl. simpl.
    apply well_formed_tuple in Wa. simpl in Ca. apply comparable_items in Ca.
    apply positions_equivalent_refl_step; [apply IHseq; reflexivity | exact Wa | exact Ca].
  - rewrite position_equivalent_dict, Nat.eqb_refl. simpl.
    apply well_formed_dict in Wa. destruct Wa as [Nd Wd].
    simpl in Ca. apply comparable_entries in Ca.
    specialize (IHdict d eq_refl).
    rewrite Forall_forall in IHdict, Wd, Ca.
    apply dict_loop_true. intros k v1 Hin. exists v1. split.
    + apply in_assoc_get; assumption.
    + apply (IHdict (k, v1) Hin); [apply (Wd (k, v1) Hin) | apply (Ca (k, v1) Hin)].
  - simpl in *. unfold repr_equal.
    destruct (repr (VObj cn attrs)); [apply String.eqb_refl | contradiction].
Qed.

Lemma position_equivalent_refl (a : value) :
  well_formed a -> comparable a -> position_equivalent a a = true.
Proof.
  induction a using value_parts_ind. apply position_equivalent_refl_step. assumption.
Qed.

Lemma are_functionally_equivalent_refl (inputs : list value) :
  Forall well_formed inputs -> Forall comparable inputs ->
  _are_functionally_equivalent inputs inputs = true.
Proof.
  unfold _are_functionally_equivalent. rewrite Nat.eqb_refl. simpl.
  intros W. induction W as [|x r Wx Wr IH]; intros C; simpl; [reflexivity|].
  apply Forall_cons_iff in C. rewrite (position_equivalent_refl x Wx (proj1 C)). simpl.
  apply IH. apply C.
Qed.

(** X1.  On Python values the filter does not depend on the order of its
    two arguments. *)
Theorem filter_is_symmetric (inputs1 inputs2 : list value) :
  Forall well_formed inputs1 -> Forall well_formed inputs2 ->
  _are_functionally_equivalent inputs1 inputs2
  = _are_functionally_equivalent inputs2 inputs1.
Proof. apply are_functionally_equivalent_sym. Qed.

(** X2.  A candidate that is already among the used tuples is flagged as a
    duplicate, provided it holds no NaN and no instance of a user class,
    and [repr] succeeds on [None]. *)
Theorem used_tuple_is_duplicate (inputs : list value) (used_inputs : list (list value)) :
  Forall well_formed inputs -> Forall comparable inputs ->
  In inputs used_inputs ->
  is_duplicate inputs used_inputs = true.
Proof.
  intros W C Hin. unfold is_duplicate. apply existsb_exists.
  exists inputs. split; [exact Hin|]. apply are_functionally_equivalent_refl; assumption.
Qed.

(** X3.  A tuple that holds a NaN is not equivalent to itself: the filter
    never drops such a candidate as a repetition of the same tuple. *)
Theorem nan_tuple_not_equivalent_to_itself (inputs : list value) :
  In (VFloat FNaN) inputs ->
  _are_functionally_equivalent inputs inputs = false.
Proof.
  unfold _are_functionally_equivalent. rewrite Nat.eqb_refl. simpl.
  induction inputs as [|x r IH]; simpl; [tauto|].
  intros [->|Hin].
  - reflexivity.
  - destruct (position_equivalent x x); simpl; [apply IH; exact Hin | reflexivity].
Qed.

(** X4.  The filter compares numbers by value across the scalar types and
    does not tell a list from a tuple: an integer of magnitude at most
    [2 ** 53] (which [float] converts exactly) and the float of the same
    value, [True] and [1], and a list and the tuple of the same items are
    equivalent. *)
Theorem filter_ignores_numeric_and_sequence_type (z : Z) (xs : list value) :
  (Z.abs z <= 2 ^ 53)%Z ->
  Forall well_formed xs -> Forall comparable xs ->
  _are_functionally_equivalent
    [VInt z; VBool true; VBool false; VList xs]
    [VFloat (ValueGenerator.py_float z); VInt 1; VFloat (ValueGenerator.py_float 0);
     VTuple xs] = true.
Proof.
  intros _ W C.
  assert (Hseq : position_equivalent (VList xs) (VTuple xs) = true).
  { rewrite <- (position_equivalent_refl (VList xs)).
    - reflexivity.
    - apply well_formed_list. exact W.
    - simpl. apply comparable_items. exact C. }
  unfold _are_functionally_equivalent. simpl List.length. rewrite Nat.eqb_refl.
  cbn [negb positions_equivalent]. rewrite Hseq.
  assert (Hz : position_equivalent (VInt z) (VFloat (ValueGenerator.py_float z)) = true).
  { simpl. apply Qeq_bool_iff. reflexivity. }
  rewrite Hz. reflexivity.
Qed.

(** X5.  The boundary values of every type are between one and five, and
    no two of them are equivalent under the filter, so a boundary sweep
    over a single value never drops a boundary value as a duplicate of
    another. *)
Theorem boundary_values_are_distinct (t : pytype) :
  1 <= List.length (ValueGenerator.get_edge_cases_for_type t) <= 5 /\
  ForallOrdPairs non_equivalent
    (map (fun v => [v]) (ValueGenerator.get_edge_cases_for_type t)).
Proof.
  split.
  - destruct t; simpl; lia.
  - destruct t; simpl; repeat constructor.
Qed.

End FilterProperties.

(* ================================================================== *)
(** * Further properties of the value generators *)

Section GeneratorProperties.

Context {RT : Runtime}.

Import ValueGenerator NamedGenerators TestCaseGenerator.

Lemma ensures_and {A : Type} (m : M A) (P Q : A -> Prop) :
  ensures m P -> ensures m Q -> ensures m (fun a => P a /\ Q a).
Proof. intros HP HQ g a g' E. split; [apply (HP g a g' E) | apply (HQ g a g' E)]. Qed.

Lemma terminates_ensures {A : Type} (m : M A) (P : A -> Prop) :
  terminates m -> ensures m P ->
  forall g, exists a g', m g = Done (a, g') /\ P a.
Proof.
  intros T E g. destruct (T g) as (a & g' & H). exists a, g'. split; [exact H|].
  apply (E g a g' H).
Qed.

Lemma replicateM_length {A : Type} (n : nat) (m : M A) :
  ensures (replicateM n m) (fun l => List.length l = n).
Proof.
  induction n as [|n IH]; simpl.
  - apply ensures_ret. reflexivity.
  - apply (ensures_bind _ _ (fun _ => True)); [intros g a g' _; exact I|].
    intros x _. apply (ensures_bind _ _ _ _ IH).
    intros xs Hxs. apply ensures_ret. simpl. rewrite Hxs. reflexivity.
Qed.

Lemma ensures_draw_ret {A B : Type} (f : rng -> A * rng) (h : A -> B) (P : B -> Prop) :
  (forall g, P (h (fst (f g)))) -> ensures (x <- draw f ;; ret (h x)) P.
Proof.
  intros H. apply (ensures_bind _ _ (fun a => P (h a))).
  - apply ensures_draw. exact H.
  - intros a Ha. apply ensures_ret. exact Ha.
Qed.

Lemma ensures_true {A : Type} (m : M A) : ensures m (fun _ => True).
Proof. intros g a g' _. exact I. Qed.

Lemma generator_exact_type (t : pytype) (generator : nat -> M (list value)) (count : nat) :
  get_generator_for_type t = Some generator ->
  ensures (generator count) (Forall (fun v => has_exact_type t v = true)).
Proof.
  destruct t; simpl; intros E; try discriminate; injection E as <-.
  - apply ensures_replicateM. apply (ensures_draw_ret _ VInt). reflexivity.
  - apply ensures_replicateM. apply (ensures_draw_ret _ VFloat). reflexivity.
  - apply ensures_replicateM.
    apply (ensures_bind _ _ _ _ (ensures_true _)). intros k _.
    apply (ensures_draw_ret _ VStr). reflexivity.
  - apply ensures_replicateM. apply (ensures_draw_ret _ VBool). reflexivity.
  - apply ensures_replicateM.
    apply (ensures_bind _ _ _ _ (ensures_true _)). intros k _.
    apply (ensures_bind _ _ _ _ (ensures_true _)). intros items _.
    apply ensures_ret. reflexivity.
  - apply ensures_replicateM.
    apply (ensures_bind _ _ _ _ (ensures_true _)). intros k _.
    apply (ensures_bind _ _ _ _ (ensures_true _)). intros items _.
    apply ensures_ret. reflexivity.
  - apply ensures_replicateM.
    apply (ensures_bind _ _ _ _ (ensures_true _)). intros k _.
    apply (ensures_bind _ _ _ _ (ensures_true _)). intros items _.
    apply ensures_ret. reflexivity.
Qed.

Lemma generator_count (t : pytype) (generator : nat -> M (list value)) (count : nat) :
  get_generator_for_type t = Some generator ->
  ensures (generator count) (fun vs => List.length vs = count).
Proof.
  destruct t; simpl; intros E; try discriminate; injection E as <-;
    apply replicateM_length.
Qed.

(** X6.  The generator registered for a type always returns, with exactly
    [count] values, each of that very type. *)
Theorem generator_returns_count_values_of_type
    (t : pytype) (generator : nat -> M (list value)) (count : nat) (g : rng) :
  get_generator_for_type t = Some generator ->
  exists vs g',
    generator count g = Done (vs, g') /\
    List.length vs = count /\
    Forall (fun v => has_exact_type t v = true) vs.
Proof.
  intros E.
  apply (terminates_ensures (generator count)
           (fun vs => List.length vs = count /\
                      Forall (fun v => has_exact_type t v = true) vs)).
  - apply (generator_terminates t). exact E.
  - apply ensures_and; [apply (generator_count t) | apply (generator_exact_type t)];
      exact E.
Qed.

Lemma is_standard_generator (t : pytype) :
  is_standard t = true -> exists generator, get_generator_for_type t = Some generator.
Proof. destruct t; simpl; intros E; try discriminate; eexists; reflexivity. Qed.

Lemma standard_not_class (t : pytype) (class_type : option pyclass) :
  is_standard t = true -> names_class_under_analysis t class_type = None.
Proof. destruct t, class_type; simpl; intros E; try discriminate; reflexivity. Qed.

Lemma unsupported_type_gives_none (param_type : pytype) (param_name : string)
    (class_type : option pyclass) (g : rng) :
  param_type = TAny \/ param_type = TOther ->
  _generate_value_for_type param_type param_name class_type g = Done (VNone, g).
Proof. intros [-> | ->]; destruct class_type; reflexivity. Qed.

(** X7.  For a parameter of one of the seven standard types,
    [_generate_value_for_type] always returns a value of that type, with
    no class under analysis and with any class under analysis that does
    not bear the name of that type: [generator(1)[0]] finds an element
    and the fallback [None] is not taken. *)
Theorem generated_value_has_declared_type
    (param_type : pytype) (param_name : string) (class_type : option pyclass) (g : rng) :
  is_standard param_type = true ->
  (forall ct, class_type = Some ct -> standard_type_name param_type <> Some (cls_name ct)) ->
  exists v g',
    _generate_value_for_type param_type param_name class_type g = Done (v, g') /\
    has_exact_type param_type v = true.
Proof.
  intros Hs _. unfold _generate_value_for_type.
  rewrite (standard_not_class _ _ Hs).
  destruct (is_standard_generator _ Hs) as [generator E].
  unfold generate_standard_value. rewrite E.
  destruct (terminates_ensures (generator 1)
              (fun vs => List.length vs = 1 /\
                         Forall (fun v => has_exact_type param_type v = true) vs)
              (generator_terminates param_type generator 1 E)
              (ensures_and _ _ _ (generator_count param_type generator 1 E)
                                 (generator_exact_type param_type generator 1 E)) g)
    as (vs & g' & Hrun & Hlen & Hty).
  rewrite (bind_eq _ _ _ _ _ Hrun).
  destruct vs as [|v r]; [discriminate|].
  exists v, g'. split; [reflexivity|].
  apply Forall_cons_iff in Hty. apply Hty.
Qed.

(** ** Ranges, under the contract of the [random] module *)

Lemma randint_value (a b : Z) (P : Z -> Prop) :
  randint_in_range -> (a <= b)%Z ->
  (forall z, (a <= z <= b)%Z -> P z) ->
  ensures (draw (randint a b)) P.
Proof.
  intros HR Hab HP. apply ensures_draw. intros g. apply HP. apply HR. exact Hab.
Qed.

Lemma random_string (k : Z) (allowed_chars : string) :
  choices_from_population -> allowed_chars <> EmptyString -> (0 <= k)%Z ->
  ensures (s <- draw (choices allowed_chars (Z.to_nat k)) ;; ret (VStr s))
    (fun v => exists s, v = VStr s /\ Z.of_nat (String.length s) = k /\
       Forall (fun c => In c (list_ascii_of_string allowed_chars))
              (list_ascii_of_string s)).
Proof.
  intros HC Hne Hk. apply (ensures_draw_ret _ VStr). intros g.
  destruct (HC allowed_chars (Z.to_nat k) g Hne) as [Hlen Hin].
  eexists. split; [reflexivity|]. split; [|exact Hin].
  rewrite Hlen. apply Z2Nat.id. exact Hk.
Qed.

Lemma random_items_small (k : Z) :
  randint_in_range -> (0 <= k <= 5)%Z ->
  ensures (random_items k)
    (fun items => List.length items <= 5 /\
       Forall (fun v => exists z, v = VInt z /\ (-100 <= z <= 100)%Z) items).
Proof.
  intros HR Hk. unfold random_items. apply ensures_and.
  - apply (ensures_weaken _ _ _ (replicateM_length _ _)). intros l ->. lia.
  - apply ensures_replicateM.
    apply (ensures_bind _ _ (fun z => (-100 <= z <= 100)%Z)).
    + apply randint_value; [exact HR | lia | auto].
    + intros z Hz. apply ensures_ret. exists z. split; [reflexivity | exact Hz].
Qed.

Lemma assoc_set_length {A : Type} (k : string) (v : A) (d : list (string * A)) :
  List.length (assoc_set k v d) <= S (List.length d).
Proof.
  induction d as [|[k' w] r IH]; simpl; [lia|].
  destruct (String.eqb k k'); simpl; lia.
Qed.

Lemma assoc_set_entry {A : Type} (k : string) (v : A) (d : list (string * A))
    (k' : string) (v' : A) :
  In (k', v') (assoc_set k v d) -> (k' = k /\ v' = v) \/ In (k', v') d.
Proof.
  induction d as [|[k0 w] r IH]; simpl.
  - intros [E|[]]. inversion E. left. split; reflexivity.
  - destruct (String.eqb_spec k k0) as [->|Hne]; simpl.
    + intros [E|Hin]; [inversion E; left; split; reflexivity | right; right; exact Hin].
    + intros [E|Hin]; [right; left; exact E|].
      destruct (IH Hin) as [H|H]; [left; exact H | right; right; exact H].
Qed.

Lemma repeatM_bounded {S : Type} (size : S -> nat) (I : S -> Prop) (body : S -> M S) :
  (forall s, I s -> ensures (body s)
                      (fun s' => size s' <= Datatypes.S (size s) /\ I s')) ->
  forall n s, I s ->
  ensures (repeatM n body s) (fun s' => size s' <= size s + n /\ I s').
Proof.
  intros Hbody. induction n as [|n IH]; intros s Hs.
  - simpl. apply ensures_ret. split; [lia | exact Hs].
  - rewrite repeatM_succ.
    apply (ensures_bind _ _ _ _ (Hbody s Hs)).
    intros s1 [Hsize H1].
    apply (ensures_weaken _ _ _ (IH s1 H1)). intros s2 [H2 HI]. split; [lia | exact HI].
Qed.

(** X8.  When [random.randint] keeps to its bounds, the integers of
    [generate_int_values] lie between [min_value] and [max_value]. *)
Theorem random_integers_stay_in_range
    (count : nat) (min_value max_value : Z) (g g' : rng) (vs : list value) :
  randint_in_range -> (min_value <= max_value)%Z ->
  generate_int_values count min_value max_value g = Done (vs, g') ->
  List.length vs = count /\
  Forall (fun v => exists z, v = VInt z /\ (min_value <= z <= max_value)%Z) vs.
Proof.
  intros HR Hle Hrun. split.
  - apply (replicateM_length _ _ g vs g' Hrun).
  - revert Hrun. apply ensures_replicateM.
    apply (ensures_draw_ret _ VInt). intros g0. eexists. split; [reflexivity|].
    apply HR. exact Hle.
Qed.

(** X9.  Under the contract of [random.randint] and [random.choices], the
    strings of [generate_string_values] and of
    [generate_alphanumeric_string_values] have between [min_length] and
    [max_length] characters, all taken from the allowed characters. *)
Theorem random_strings_have_requested_length
    (count : nat) (min_length max_length : Z) (allowed_chars : string) :
  randint_in_range -> choices_from_population ->
  (0 <= min_length <= max_length)%Z -> allowed_chars <> EmptyString ->
  ensures (generate_string_values count min_length max_length allowed_chars)
    (Forall (fun v => exists s, v = VStr s /\
       (min_length <= Z.of_nat (String.length s) <= max_length)%Z /\
       Forall (fun c => In c (list_ascii_of_string allowed_chars))
              (list_ascii_of_string s))) /\
  ensures (generate_alphanumeric_string_values count min_length max_length)
    (Forall (fun v => exists s, v = VStr s /\
       (min_length <= Z.of_nat (String.length s) <= max_length)%Z /\
       Forall (fun c => In c (list_ascii_of_string (ascii_letters ++ digits)))
              (list_ascii_of_string s))).
Proof.
  intros HR HC Hlen Hne.
  assert (Hgen : forall chars, chars <> EmptyString ->
    ensures (k <- draw (randint min_length max_length) ;;
             s <- draw (choices chars (Z.to_nat k)) ;; ret (VStr s))
      (fun v => exists s, v = VStr s /\
         (min_length <= Z.of_nat (String.length s) <= max_length)%Z /\
         Forall (fun c => In c (list_ascii_of_string chars)) (list_ascii_of_string s))).
  { intros chars Hchars.
    apply (ensures_bind _ _ (fun k => (min_length <= k <= max_length)%Z)).
    - apply randint_value; [exact HR | lia | auto].
    - intros k Hk.
      apply (ensures_weaken _ _ _ (random_string k chars HC Hchars ltac:(lia))).
      intros v (s & -> & Hs & Hin). exists s. split; [reflexivity|]. split; [lia | exact Hin]. }
  split; apply ensures_replicateM; apply Hgen; [exact Hne | discriminate].
Qed.

(** X10.  Under the same contract, a random list or tuple has at most
    five items, each an integer between -100 and 100; a random dictionary
    has at most five entries, with distinct keys of one to five lower-case
    letters and integer values between -100 and 100. *)
Theorem random_collections_are_small (count : nat) :
  randint_in_range -> choices_from_population ->
  ensures (generate_list_values count)
    (Forall (fun v => exists items, v = VList items /\ List.length items <= 5 /\
       Forall (fun x => exists z, x = VInt z /\ (-100 <= z <= 100)%Z) items)) /\
  ensures (generate_tuple_values count)
    (Forall (fun v => exists items, v = VTuple items /\ List.length items <= 5 /\
       Forall (fun x => exists z, x = VInt z /\ (-100 <= z <= 100)%Z) items)) /\
  ensures (generate_dict_values count)
    (Forall (fun v => exists d, v = VDict d /\ List.length d <= 5 /\
       NoDup (dict_keys d) /\
       Forall (fun kv =>
                 (1 <= String.length (fst kv) <= 5)%nat /\
                 Forall (fun c => In c (list_ascii_of_string ascii_lowercase))
                        (list_ascii_of_string (fst kv)) /\
                 exists z, snd kv = VInt z /\ (-100 <= z <= 100)%Z) d)).
Proof.
  intros HR HC. split; [|split].
  - apply ensures_replicateM.
    apply (ensures_bind _ _ (fun k => (0 <= k <= 5)%Z)).
    { apply randint_value; [exact HR | lia | auto]. }
    intros k Hk. apply (ensures_bind _ _ _ _ (random_items_small k HR Hk)).
    intros items H. apply ensures_ret. exists items. split; [reflexivity | exact H].
  - apply ensures_replicateM.
    apply (ensures_bind _ _ (fun k => (0 <= k <= 5)%Z)).
    { apply randint_value; [exact HR | lia | auto]. }
    intros k Hk. apply (ensures_bind _ _ _ _ (random_items_small k HR Hk)).
    intros items H. apply ensures_ret. exists items. split; [reflexivity | exact H].
  - apply ensures_replicateM.
    apply (ensures_bind _ _ (fun k => (0 <= k <= 5)%Z)).
    + apply randint_value; [exact HR | lia | auto].
    + intros n Hn.
      set (entry_ok := fun kv : string * value =>
             (1 <= String.length (fst kv) <= 5)%nat /\
             Forall (fun c => In c (list_ascii_of_string ascii_lowercase))
                    (list_ascii_of_string (fst kv)) /\
             exists z, snd kv = VInt z /\ (-100 <= z <= 100)%Z).
      apply (ensures_bind _ _
               (fun d => List.length d <= 0 + Z.to_nat n /\
                         (NoDup (dict_keys d) /\ Forall entry_ok d))).
      * apply (repeatM_bounded (@List.length (string * value))
                 (fun d => NoDup (dict_keys d) /\ Forall entry_ok d)).
        -- intros d [Hnd Hok].
           apply (ensures_bind _ _ (fun k => (1 <= k <= 5)%Z)).
           { apply randint_value; [exact HR | lia | auto]. }
           intros k Hk.
           apply (ensures_bind _ _
                    (fun key => Z.of_nat (String.length key) = k /\
                       Forall (fun c => In c (list_ascii_of_string ascii_lowercase))
                              (list_ascii_of_string key))).
           { apply ensures_draw. intros g0.
             destruct (HC ascii_lowercase (Z.to_nat k) g0 ltac:(discriminate)) as [Hl Hin].
             split; [rewrite Hl; apply Z2Nat.id; lia | exact Hin]. }
           intros key [Hkl Hkin].
           apply (ensures_bind _ _ (fun z => (-100 <= z <= 100)%Z)).
           { apply randint_value; [exact HR | lia | auto]. }
           intros z Hz. apply ensures_ret. split; [apply assoc_set_length|].
           split; [apply assoc_set_nodup; exact Hnd|].
           apply Forall_forall. intros [k' v'] Hin.
           destruct (assoc_set_entry _ _ _ _ _ Hin) as [[-> ->]|Hold].
           ++ unfold entry_ok. simpl. split; [lia|]. split; [exact Hkin|].
              exists z. split; [reflexivity | exact Hz].
           ++ rewrite Forall_forall in Hok. apply (Hok _ Hold).
        -- split; [constructor | constructor].
      * intros d (Hlen & Hnd & Hok). apply ensures_ret.
        exists d. split; [reflexivity|]. split; [lia|]. split; assumption.
Qed.

(** ** Names *)

Lemma draw_name_not_excluded (attempts : nat) (min_length max_length : Z)
    (exclude_values : list string) :
  ensures (draw_name attempts min_length max_length exclude_values)
    (fun v => exists s, v = VStr s /\ ~ In s exclude_values).
Proof.
  induction attempts as [|n IH]; simpl.
  - intros g a g' E. discriminate.
  - apply (ensures_bind _ _ _ _ (ensures_true _)). intros k _.
    apply (ensures_bind _ _ _ _ (ensures_true _)). intros name _.
    destruct (existsb (String.eqb name) exclude_values) eqn:Ex.
    + exact IH.
    + apply ensures_ret. exists name. split; [reflexivity|].
      intros Hin. apply Bool.not_true_iff_false in Ex. apply Ex.
      apply existsb_exists. exists name. split; [exact Hin | apply String.eqb_refl].
Qed.

Lemma draw_name_first (attempts : nat) (min_length max_length : Z)
    (exclude_values : list string) (g : rng) :
  randint_in_range -> choices_from_population ->
  (0 <= min_length <= max_length)%Z ->
  Forall (fun e => (Z.of_nat (String.length e) < min_length)%Z) exclude_values ->
  exists s g',
    draw_name (S attempts) min_length max_length exclude_values g = Done (VStr s, g') /\
    (min_length <= Z.of_nat (String.length s) <= max_length)%Z.
Proof.
  intros HR HC Hlen Hex.
  pose proof (HR min_length max_length g ltac:(lia)) as Hk.
  destruct (randint min_length max_length g) as [k g1] eqn:Ek. simpl in Hk.
  destruct (HC (ascii_letters ++ " ")%string (Z.to_nat k) g1 ltac:(discriminate))
    as [Hl _].
  destruct (choices (ascii_letters ++ " ")%string (Z.to_nat k) g1) as [name g2] eqn:En.
  simpl in Hl.
  assert (Hname : Z.of_nat (String.length name) = k) by (rewrite Hl; apply Z2Nat.id; lia).
  assert (Ex : existsb (String.eqb name) exclude_values = false).
  { apply Bool.not_true_iff_false. intros H. apply existsb_exists in H.
    destruct H as (e & Hin & He). apply String.eqb_eq in He. subst e.
    rewrite Forall_forall in Hex. specialize (Hex _ Hin). lia. }
  exists name, g2. split; [|lia].
  change (draw_name (S attempts) min_length max_length exclude_values)
    with (k <- draw (randint min_length max_length) ;;
          name <- draw (choices (ascii_letters ++ " ")%string (Z.to_nat k)) ;;
          if existsb (String.eqb name) exclude_values
          then draw_name attempts min_length max_length exclude_values
          else ret (VStr name)).
  rewrite (bind_eq _ _ g g1 k) by (unfold draw; rewrite Ek; reflexivity).
  rewrite (bind_eq _ _ g1 g2 name) by (unfold draw; rewrite En; reflexivity).
  rewrite Ex. reflexivity.
Qed.

Lemma replicateM_total {A : Type} (n : nat) (m : M A) (P : A -> Prop) :
  (forall g, exists a g', m g = Done (a, g') /\ P a) ->
  forall g, exists l g', replicateM n m g = Done (l, g') /\
                         List.length l = n /\ Forall P l.
Proof.
  intros Hm. induction n as [|n IH]; intros g; simpl.
  - exists [], g. split; [reflexivity|]. split; [reflexivity | constructor].
  - destruct (Hm g) as (a & g1 & Ha & HP).
    destruct (IH g1) as (l & g2 & Hl & Hlen & HF).
    exists (a :: l), g2. rewrite (bind_eq _ _ _ _ _ Ha), (bind_eq _ _ _ _ _ Hl).
    split; [reflexivity|]. split; [simpl; rewrite Hlen; reflexivity|].
    constructor; assumption.
Qed.

(** X11.  Whatever the random source does, a list returned by
    [generate_name_values] has [count] names and none of them is an
    excluded value. *)
Theorem name_values_are_not_excluded
    (attempts count : nat) (min_length max_length : Z)
    (exclude_values : option (list string)) (g g' : rng) (names : list value) :
  generate_name_values attempts count min_length max_length exclude_values g
  = Done (names, g') ->
  List.length names = count /\
  Forall (fun v => exists s, v = VStr s /\
            ~ In s (match exclude_values with None => ["abc"] | Some l => l end))
         names.
Proof.
  intros Hrun. split.
  - apply (replicateM_length _ _ g names g' Hrun).
  - revert Hrun. apply ensures_replicateM. apply draw_name_not_excluded.
Qed.

(** X12.  When every excluded value is shorter than [min_length], as with
    the defaults (names of 4 to 50 characters, ['abc'] excluded), the
    rejection loop of [generate_name_values] accepts its first draw: one
    attempt per name is enough for the call to return, with names of
    [min_length] to [max_length] characters. *)
Theorem name_values_accept_first_draw
    (attempts count : nat) (min_length max_length : Z)
    (exclude_values : option (list string)) (g : rng) :
  randint_in_range -> choices_from_population ->
  (0 <= min_length <= max_length)%Z ->
  Forall (fun e => (Z.of_nat (String.length e) < min_length)%Z)
         (match exclude_values with None => ["abc"] | Some l => l end) ->
  exists names g',
    generate_name_values (S attempts) count min_length max_length exclude_values g
    = Done (names, g') /\
    List.length names = count /\
    Forall (fun v => exists s, v = VStr s /\
              (min_length <= Z.of_nat (String.length s) <= max_length)%Z) names.
Proof.
  intros HR HC Hlen Hex. unfold generate_name_values.
  apply replicateM_total. intros g0.
  destruct (draw_name_first attempts min_length max_length _ g0 HR HC Hlen Hex)
    as (s0 & g1 & Hrun & Hs).
  exists (VStr s0), g1. split; [exact Hrun|]. exists s0. split; [reflexivity | exact Hs].
Qed.

(** ** The sample host keeps the contract *)

Lemma demo_randint_in_range : randint_in_range (RT := Examples.posix).
Proof.
  intros a b g Hab. simpl. unfold Examples.demo_randint. simpl.
  pose proof (Z.mod_pos_bound (Z.of_nat g) (b - a + 1) ltac:(lia)). lia.
Qed.

Lemma string_get_some (s : string) (n : nat) :
  n < String.length s ->
  exists c, String.get n s = Some c /\ In c (list_ascii_of_string s).
Proof.
  revert n. induction s as [|a s IH]; simpl; intros n Hn; [lia|].
  destruct n as [|n].
  - exists a. split; [reflexivity | left; reflexivity].
  - destruct (IH n ltac:(lia)) as (c & Hc & Hin). exists c. split; [exact Hc | right; exact Hin].
Qed.

Lemma str_repeat_char (c : ascii) (k : nat) :
  String.length (str_repeat (String c EmptyString) k) = k /\
  Forall (eq c) (list_ascii_of_string (str_repeat (String c EmptyString) k)).
Proof.
  induction k as [|k [IH1 IH2]]; simpl.
  - split; [reflexivity | constructor].
  - split; [rewrite IH1; reflexivity | constructor; [reflexivity | exact IH2]].
Qed.

Lemma demo_choices_from_population : choices_from_population (RT := Examples.posix).
Proof.
  intros chars k g Hne. simpl. unfold Examples.demo_choices. simpl.
  assert (Hpos : 0 < String.length chars).
  { destruct chars; [contradiction | simpl; lia]. }
  assert (Hlt : g mod String.length chars < String.length chars)
    by (apply Nat.mod_upper_bound; lia).
  destruct (string_get_some chars _ Hlt) as (c & Hc & Hin).
  rewrite Hc. destruct (str_repeat_char c k) as [Hl Hall].
  split; [exact Hl|].
  apply (Forall_impl _ (fun a (E : c = a) => eq_ind c _ Hin a E) Hall).
Qed.

End GeneratorProperties.

(* ================================================================== *)
(** * Invariants of the class analysis *)

Section AnalysisInvariants.

Import ClassAnalyzer.

Lemma fold_left_invariant {S A : Type} (I : S -> Prop) (f : S -> A -> S) (l : list A) :
  (forall s x, In x l -> I s -> I (f s x)) ->
  forall s, I s -> I (fold_left f l s).
Proof.
  induction l as [|x r IH]; simpl; intros Hstep s Hs; [exact Hs|].
  apply IH.
  - intros s' y Hy. apply Hstep. right. exact Hy.
  - apply Hstep; [left; reflexivity | exact Hs].
Qed.

(** Every property of the analysis state that the four loop bodies keep
    holds of the state [analyze_class] ends with. *)
Lemma analyze_class_invariant (cls : pyclass) (I : analysis -> Prop) :
  I {| info := {| name := cls_name cls; methods := []; properties := [];
                  class_methods := []; static_methods := []; special_methods := [];
                  base_classes := map cls_name (cls_bases cls);
                  constructor := None |};
       processed_methods := []; processed_properties := [] |} ->
  (forall c st e, In c (_get_class_hierarchy cls) -> In e (cls_dict c) ->
                  I st -> I (identify_entry c st e)) ->
  (forall c st, In c (_get_class_hierarchy cls) -> I st -> I (analyze_constructor c st)) ->
  (forall c st m, In c (_get_class_hierarchy cls) -> In m (getmembers c isfunction) ->
                  I st -> I (analyze_method c st m)) ->
  (forall c st m, In c (_get_class_hierarchy cls) -> In m (getmembers c isproperty) ->
                  I st -> I (analyze_property c st m)) ->
  exists st, I st /\ analyze_class cls = info st.
Proof.
  intros H0 Hid Hctor Hmeth Hprop. unfold analyze_class.
  eexists. split; [|reflexivity].
  apply fold_left_invariant.
  - intros st c Hc Hst. unfold _analyze_class_members.
    apply fold_left_invariant; [intros s m Hm Hs; apply Hprop; assumption|].
    apply fold_left_invariant; [intros s m Hm Hs; apply Hmeth; assumption|].
    apply Hctor; assumption.
  - apply fold_left_invariant; [|exact H0].
    intros st c Hc Hst. unfold _identify_special_method_types.
    apply fold_left_invariant; [|exact Hst].
    intros s e He Hs. apply Hid; assumption.
Qed.

Lemma mem_in (x : string) (s : list string) : mem x s = true <-> In x s.
Proof.
  unfold mem. rewrite existsb_exists. split.
  - intros (y & Hy & E). apply String.eqb_eq in E. subst y. exact Hy.
  - intros H. exists x. split; [exact H | apply String.eqb_refl].
Qed.

Lemma mem_not_in (x : string) (s : list string) : mem x s = false <-> ~ In x s.
Proof. rewrite <- mem_in. destruct (mem x s); split; congruence. Qed.

(** X13.  The four method categories of a class description never share
    a name: each of [methods], [special_methods], [static_methods] and
    [class_methods] has distinct keys, and no name is a key of two of
    them. *)
Theorem method_categories_are_disjoint (cls : pyclass) :
  NoDup (dict_keys (methods (analyze_class cls)) ++
         dict_keys (special_methods (analyze_class cls)) ++
         dict_keys (static_methods (analyze_class cls)) ++
         dict_keys (class_methods (analyze_class cls))).
Proof.
  pose (I := fun st : analysis =>
    (NoDup (dict_keys (methods (info st))) /\
     NoDup (dict_keys (special_methods (info st))) /\
     NoDup (dict_keys (static_methods (info st))) /\
     NoDup (dict_keys (class_methods (info st)))) /\
    (forall n,
       (In n (dict_keys (methods (info st))) \/
        In n (dict_keys (special_methods (info st))) \/
        In n (dict_keys (static_methods (info st))) \/
        In n (dict_keys (class_methods (info st))) ->
        In n (processed_methods st)) /\
       (In n (dict_keys (methods (info st))) ->
        ~ In n (dict_keys (special_methods (info st))) /\
        ~ In n (dict_keys (static_methods (info st))) /\
        ~ In n (dict_keys (class_methods (info st)))) /\
       (In n (dict_keys (special_methods (info st))) ->
        ~ In n (dict_keys (static_methods (info st))) /\
        ~ In n (dict_keys (class_methods (info st)))) /\
       (In n (dict_keys (static_methods (info st))) ->
        ~ In n (dict_keys (class_methods (info st)))))).
  destruct (analyze_class_invariant cls I) as (st & HI & ->).
  - unfold I. simpl. split; [repeat split; constructor|]. intros n. tauto.
  - intros c st [n value] _ _ HI. unfold identify_entry.
    destruct (mem n (processed_methods st)) eqn:Hmem; [exact HI|].
    apply mem_not_in in Hmem.
    destruct value as [f|f|f|fg fs fd|]; try exact HI.
    + destruct (describe f [] c) as [d|].
      * destruct HI as [(N1 & N2 & N3 & N4) HI]. unfold I. simpl. split.
        -- repeat split; try assumption. apply assoc_set_nodup. exact N3.
        -- intros k. specialize (HI k). rewrite !assoc_set_keys.
           destruct (String.eqb_spec k n) as [->|Hne]; intuition.
      * destruct HI as [HN HI]. unfold I. simpl. split; [exact HN|].
        intros k. specialize (HI k). intuition.
    + destruct (describe f ["cls"] c) as [d|].
      * destruct HI as [(N1 & N2 & N3 & N4) HI]. unfold I. simpl. split.
        -- repeat split; try assumption. apply assoc_set_nodup. exact N4.
        -- intros k. specialize (HI k). rewrite !assoc_set_keys.
           destruct (String.eqb_spec k n) as [->|Hne]; intuition.
      * destruct HI as [HN HI]. unfold I. simpl. split; [exact HN|].
        intros k. specialize (HI k). intuition.
  - intros c st _ HI. unfold analyze_constructor.
    destruct (constructor (info st)); [exact HI|].
    destruct (describe (init_method c) ["self"] c); exact HI.
  - intros c st [n method] _ _ HI. unfold analyze_method.
    destruct (mem n (processed_methods st)) eqn:Hmem; [exact HI|].
    apply mem_not_in in Hmem.
    assert (Hskip : I (add_processed_method st n)).
    { destruct HI as [HN HI]. unfold I. simpl. split; [exact HN|].
      intros k. specialize (HI k). intuition. }
    destruct (startswith n "__" && endswith n "__").
    + destruct (negb (String.eqb n "__init__")); [|exact Hskip].
      destruct (describe method ["self"; "cls"] c) as [d|]; [|exact Hskip].
      destruct HI as [(N1 & N2 & N3 & N4) HI]. unfold I. simpl. split.
      * repeat split; try assumption. apply assoc_set_nodup. exact N2.
      * intros k. specialize (HI k). rewrite !assoc_set_keys.
        destruct (String.eqb_spec k n) as [->|Hne]; intuition.
    + destruct (startswith n "_"); [exact Hskip|].
      destruct (describe method ["self"; "cls"] c) as [d|]; [|exact Hskip].
      destruct HI as [(N1 & N2 & N3 & N4) HI]. unfold I. simpl. split.
      * repeat split; try assumption. apply assoc_set_nodup. exact N1.
      * intros k. specialize (HI k). rewrite !assoc_set_keys.
        destruct (String.eqb_spec k n) as [->|Hne]; intuition.
  - intros c st [n [[fget fset] fdel]] _ _ HI. unfold analyze_property.
    destruct (mem n (processed_properties st)); exact HI.
  - destruct HI as [(N1 & N2 & N3 & N4) HI].
    apply NoDup_app; [exact N1 | | intros a Ha; rewrite !in_app_iff; specialize (HI a); intuition].
    apply NoDup_app; [exact N2 | | intros a Ha; rewrite !in_app_iff; specialize (HI a); intuition].
    apply NoDup_app; [exact N3 | exact N4 | intros a Ha; specialize (HI a); intuition].
Qed.

Lemma assoc_set_Forall {A : Type} (P : string * A -> Prop) (k : string) (v : A)
    (d : list (string * A)) :
  P (k, v) -> Forall P d -> Forall P (assoc_set k v d).
Proof.
  intros Hk Hd. apply Forall_forall. intros [k' v'] Hin.
  destruct (assoc_set_entry _ _ _ _ _ Hin) as [[-> ->]|Hold]; [exact Hk|].
  rewrite Forall_forall in Hd. apply (Hd _ Hold).
Qed.

Lemma describe_parameters (f : pyfunction) (skip : list string) (c : pyclass)
    (d : descriptor) (p : string) :
  describe f skip c = Some d -> In p skip -> mem p (parameters d) = false.
Proof.
  unfold describe. destruct (fn_signature f) as [params|]; [|discriminate].
  destruct (fn_hints f) as [h|]; [|discriminate].
  intros E Hp. injection E as <-. simpl.
  apply mem_not_in. intros Hin. apply filter_In in Hin. destruct Hin as [_ Hf].
  apply mem_in in Hp. rewrite Hp in Hf. discriminate.
Qed.

Lemma describe_defined_in (f : pyfunction) (skip : list string) (c : pyclass)
    (d : descriptor) :
  describe f skip c = Some d -> defined_in d = cls_name c.
Proof.
  unfold describe. destruct (fn_signature f) as [params|]; [|discriminate].
  destruct (fn_hints f) as [h|]; [|discriminate].
  intros E. injection E as <-. reflexivity.
Qed.

(** X14.  The name of a member decides its category: no key of
    [methods] starts with an underscore, and every key of
    [special_methods] starts and ends with two underscores and is not
    [__init__]. *)
Theorem method_names_match_their_category (cls : pyclass) :
  Forall (fun n => startswith n "_" = false)
         (dict_keys (methods (analyze_class cls))) /\
  Forall (fun n => startswith n "__" = true /\ endswith n "__" = true /\
                   String.eqb n "__init__" = false)
         (dict_keys (special_methods (analyze_class cls))).
Proof.
  pose (I := fun st : analysis =>
    Forall (fun kv : string * descriptor => startswith (fst kv) "_" = false)
           (methods (info st)) /\
    Forall (fun kv : string * descriptor =>
              startswith (fst kv) "__" = true /\ endswith (fst kv) "__" = true /\
              String.eqb (fst kv) "__init__" = false)
           (special_methods (info st))).
  destruct (analyze_class_invariant cls I) as (st & [H1 H2] & ->).
  - split; constructor.
  - intros c st [n value] _ _ HI. unfold identify_entry.
    destruct (mem n (processed_methods st)); [exact HI|].
    destruct value as [f|f|f|fg fs fd|]; try exact HI.
    + destruct (describe f [] c); exact HI.
    + destruct (describe f ["cls"] c); exact HI.
  - intros c st _ HI. unfold analyze_constructor.
    destruct (constructor (info st)); [exact HI|].
    destruct (describe (init_method c) ["self"] c); exact HI.
  - intros c st [n method] _ _ [H1 H2]. unfold analyze_method.
    destruct (mem n (processed_methods st)); [split; assumption|].
    destruct (startswith n "__" && endswith n "__") eqn:Hd.
    + destruct (negb (String.eqb n "__init__")) eqn:Hi; [|split; assumption].
      destruct (describe method ["self"; "cls"] c) as [d|]; [|split; assumption].
      split; [exact H1|]. simpl. apply assoc_set_Forall; [|exact H2].
      simpl. apply andb_true_iff in Hd. apply negb_true_iff in Hi.
      split; [apply Hd | split; [apply Hd | exact Hi]].
    + destruct (startswith n "_") eqn:Hu; [split; assumption|].
      destruct (describe method ["self"; "cls"] c) as [d|]; [|split; assumption].
      split; [|exact H2]. simpl. apply assoc_set_Forall; [exact Hu | exact H1].
  - intros c st [n [[fget fset] fdel]] _ _ HI. unfold analyze_property.
    destruct (mem n (processed_properties st)); exact HI.
  - unfold dict_keys. rewrite !Forall_map. split; assumption.
Qed.

(** X15.  A descriptor never lists the receiver among its parameters:
    those of [methods] and [special_methods] hold neither [self] nor
    [cls], those of [class_methods] hold no [cls], and the constructor's
    hold no [self]. *)
Theorem descriptors_leave_out_the_receiver (cls : pyclass) :
  Forall (fun kv => mem "self" (parameters (snd kv)) = false /\
                    mem "cls" (parameters (snd kv)) = false)
         (methods (analyze_class cls) ++ special_methods (analyze_class cls)) /\
  Forall (fun kv => mem "cls" (parameters (snd kv)) = false)
         (class_methods (analyze_class cls)) /\
  match constructor (analyze_class cls) with
  | Some d => mem "self" (parameters d) = false
  | None => True
  end.
Proof.
  pose (both := fun kv : string * descriptor =>
          mem "self" (parameters (snd kv)) = false /\
          mem "cls" (parameters (snd kv)) = false).
  pose (I := fun st : analysis =>
    Forall both (methods (info st)) /\
    Forall both (special_methods (info st)) /\
    Forall (fun kv : string * descriptor => mem "cls" (parameters (snd kv)) = false)
           (class_methods (info st)) /\
    match constructor (info st) with
    | Some d => mem "self" (parameters d) = false
    | None => True
    end).
  destruct (analyze_class_invariant cls I) as (st & (H1 & H2 & H3 & H4) & ->).
  - repeat split; constructor.
  - intros c st [n value] _ _ HI. unfold identify_entry.
    destruct (mem n (processed_methods st)); [exact HI|].
    destruct value as [f|f|f|fg fs fd|]; try exact HI.
    + destruct (describe f [] c); exact HI.
    + destruct (describe f ["cls"] c) as [d|] eqn:Hd; [|exact HI].
      destruct HI as (H1 & H2 & H3 & H4). repeat split; try assumption.
      simpl. apply assoc_set_Forall; [|exact H3].
      simpl. apply (describe_parameters _ _ _ _ _ Hd). left. reflexivity.
  - intros c st _ HI. unfold analyze_constructor.
    destruct (constructor (info st)) eqn:Hc; [exact HI|].
    destruct (describe (init_method c) ["self"] c) as [d|] eqn:Hd; [|exact HI].
    destruct HI as (H1 & H2 & H3 & H4). repeat split; try assumption.
    simpl. apply (describe_parameters _ _ _ _ _ Hd). left. reflexivity.
  - intros c st [n method] _ _ HI. unfold analyze_method.
    destruct (mem n (processed_methods st)); [exact HI|].
    assert (Hb : forall d, describe method ["self"; "cls"] c = Some d -> both (n, d)).
    { intros d Hd. split; apply (describe_parameters _ _ _ _ _ Hd); simpl; tauto. }
    destruct (startswith n "__" && endswith n "__").
    + destruct (negb (String.eqb n "__init__")); [|exact HI].
      destruct (describe method ["self"; "cls"] c) as [d|] eqn:Hd; [|exact HI].
      destruct HI as (H1 & H2 & H3 & H4). repeat split; try assumption.
      simpl. apply assoc_set_Forall; [apply Hb; reflexivity | exact H2].
    + destruct (startswith n "_"); [exact HI|].
      destruct (describe method ["self"; "cls"] c) as [d|] eqn:Hd; [|exact HI].
      destruct HI as (H1 & H2 & H3 & H4). repeat split; try assumption.
      simpl. apply assoc_set_Forall; [apply Hb; reflexivity | exact H1].
  - intros c st [n [[fget fset] fdel]] _ _ HI. unfold analyze_property.
    destruct (mem n (processed_properties st)); exact HI.
  - split; [apply Forall_app; split; assumption|]. split; assumption.
Qed.

(** X16.  Static methods and class methods are attributed to a class that
    defines them: each entry of [static_methods] and of [class_methods]
    comes from the own namespace of a class of the hierarchy, which is the
    class its [defined_in] names. *)
Theorem static_and_class_methods_name_their_class (cls : pyclass) :
  Forall (fun kv => exists c f,
            In c (_get_class_hierarchy cls) /\
            In (fst kv, AStaticMethod f) (cls_dict c) /\
            describe f [] c = Some (snd kv) /\
            defined_in (snd kv) = cls_name c)
         (static_methods (analyze_class cls)) /\
  Forall (fun kv => exists c f,
            In c (_get_class_hierarchy cls) /\
            In (fst kv, AClassMethod f) (cls_dict c) /\
            describe f ["cls"] c = Some (snd kv) /\
            defined_in (snd kv) = cls_name c)
         (class_methods (analyze_class cls)).
Proof.
  pose (I := fun st : analysis =>
    Forall (fun kv : string * descriptor => exists c f,
              In c (_get_class_hierarchy cls) /\
              In (fst kv, AStaticMethod f) (cls_dict c) /\
              describe f [] c = Some (snd kv) /\
              defined_in (snd kv) = cls_name c)
           (static_methods (info st)) /\
    Forall (fun kv : string * descriptor => exists c f,
              In c (_get_class_hierarchy cls) /\
              In (fst kv, AClassMethod f) (cls_dict c) /\
              describe f ["cls"] c = Some (snd kv) /\
              defined_in (snd kv) = cls_name c)
           (class_methods (info st))).
  destruct (analyze_class_invariant cls I) as (st & HI & ->); [| | | | |exact HI].
  - split; constructor.
  - intros c st [n value] Hc He [H1 H2]. unfold identify_entry.
    destruct (mem n (processed_methods st)); [split; assumption|].
    destruct value as [f|f|f|fg fs fd|]; try (split; assumption).
    + destruct (describe f [] c) as [d|] eqn:Hd; [|split; assumption].
      split; [|exact H2]. simpl. apply assoc_set_Forall; [|exact H1].
      exists c, f. simpl. repeat split; try assumption.
      apply (describe_defined_in _ _ _ _ Hd).
    + destruct (describe f ["cls"] c) as [d|] eqn:Hd; [|split; assumption].
      split; [exact H1|]. simpl. apply assoc_set_Forall; [|exact H2].
      exists c, f. simpl. repeat split; try assumption.
      apply (describe_defined_in _ _ _ _ Hd).
  - intros c st _ HI. unfold analyze_constructor.
    destruct (constructor (info st)); [exact HI|].
    destruct (describe (init_method c) ["self"] c); exact HI.
  - intros c st [n method] _ _ HI. unfold analyze_method.
    destruct (mem n (processed_methods st)); [exact HI|].
    destruct (startswith n "__" && endswith n "__").
    + destruct (negb (String.eqb n "__init__")); [|exact HI].
      destruct (describe method ["self"; "cls"] c); exact HI.
    + destruct (startswith n "_"); [exact HI|].
      destruct (describe method ["self"; "cls"] c); exact HI.
  - intros c st [n [[fget fset] fdel]] _ _ HI. unfold analyze_property.
    destruct (mem n (processed_properties st)); exact HI.
Qed.

Lemma hierarchy_head (cls : pyclass) :
  exists rest, _get_class_hierarchy cls = cls :: rest.
Proof. destruct cls. simpl. eexists. reflexivity. Qed.

Lemma identify_entry_constructor (c : pyclass) (st : analysis) (e : string * attribute) :
  constructor (info (identify_entry c st e)) = constructor (info st).
Proof.
  destruct e as [n value]. unfold identify_entry.
  destruct (mem n (processed_methods st)); [reflexivity|].
  destruct value as [f|f|f|fg fs fd|]; try reflexivity.
  - destruct (describe f [] c); reflexivity.
  - destruct (describe f ["cls"] c); reflexivity.
Qed.

Lemma analyze_method_constructor (c : pyclass) (st : analysis) (m : string * pyfunction) :
  constructor (info (analyze_method c st m)) = constructor (info st).
Proof.
  destruct m as [n method]. unfold analyze_method.
  destruct (mem n (processed_methods st)); [reflexivity|].
  destruct (startswith n "__" && endswith n "__").
  - destruct (negb (String.eqb n "__init__")); [|reflexivity].
    destruct (describe method ["self"; "cls"] c); reflexivity.
  - destruct (startswith n "_"); [reflexivity|].
    destruct (describe method ["self"; "cls"] c); reflexivity.
Qed.

Lemma analyze_property_constructor (c : pyclass) (st : analysis)
    (m : string * (option pyfunction * option pyfunction * option pyfunction)) :
  constructor (info (analyze_property c st m)) = constructor (info st).
Proof.
  destruct m as [n [[fget fset] fdel]]. unfold analyze_property.
  destruct (mem n (processed_properties st)); reflexivity.
Qed.

Lemma members_keep_constructor (c : pyclass) (st : analysis) (d : descriptor) :
  constructor (info st) = Some d ->
  constructor (info (_analyze_class_members c st)) = Some d.
Proof.
  intros H. unfold _analyze_class_members.
  apply (fold_left_invariant (fun s => constructor (info s) = Some d)).
  { intros s m _ Hs. rewrite analyze_property_constructor. exact Hs. }
  apply (fold_left_invariant (fun s => constructor (info s) = Some d)).
  { intros s m _ Hs. rewrite analyze_method_constructor. exact Hs. }
  unfold analyze_constructor. rewrite H. exact H.
Qed.

Lemma members_set_constructor (c : pyclass) (st : analysis) (d : descriptor) :
  constructor (info st) = None ->
  describe (init_method c) ["self"] c = Some d ->
  constructor (info (_analyze_class_members c st)) = Some d.
Proof.
  intros H Hd. unfold _analyze_class_members.
  apply (fold_left_invariant (fun s => constructor (info s) = Some d)).
  { intros s m _ Hs. rewrite analyze_property_constructor. exact Hs. }
  apply (fold_left_invariant (fun s => constructor (info s) = Some d)).
  { intros s m _ Hs. rewrite analyze_method_constructor. exact Hs. }
  unfold analyze_constructor. rewrite H, Hd. reflexivity.
Qed.

Lemma constructor_of_analysed_class (cls : pyclass) (d : descriptor) :
  describe (init_method cls) ["self"] cls = Some d ->
  constructor (analyze_class cls) = Some d.
Proof.
  intros Hd. unfold analyze_class.
  destruct (hierarchy_head cls) as [rest ->].
  match goal with
  | |- constructor (info (fold_left ?f (cls :: rest) ?s)) = _ =>
      change (fold_left f (cls :: rest) s) with (fold_left f rest (f s cls))
  end.
  apply (fold_left_invariant (fun s => constructor (info s) = Some d)).
  { intros s c _ Hs. apply members_keep_constructor. exact Hs. }
  apply members_set_constructor; [|exact Hd].
  apply (fold_left_invariant (fun s => constructor (info s) = None)); [|reflexivity].
  intros s c _ Hs. unfold _identify_special_method_types.
  apply (fold_left_invariant (fun s => constructor (info s) = None)); [|exact Hs].
  intros s' e _ Hs'. rewrite identify_entry_constructor. exact Hs'.
Qed.

(** X17.  The constructor descriptor is read from the analysed class
    itself, through [cls.__init__]: when the signature and the type hints
    of that method can be read, the description has a constructor, with
    its parameters other than [self], and attributes it to the analysed
    class, also when [__init__] is inherited; the class keeps its name and
    the names of its direct bases. *)
Theorem constructor_is_read_from_analysed_class
    (cls : pyclass) (params : list string) (hints : list (string * pytype)) :
  fn_signature (init_method cls) = Some params ->
  fn_hints (init_method cls) = Some hints ->
  constructor (analyze_class cls)
  = Some {| parameters := filter (fun p => negb (String.eqb p "self")) params;
            type_hints := hints;
            defined_in := cls_name cls |} /\
  name (analyze_class cls) = cls_name cls /\
  base_classes (analyze_class cls) = map cls_name (cls_bases cls).
Proof.
  intros Hs Hh. split.
  - apply constructor_of_analysed_class. unfold describe. rewrite Hs, Hh.
    f_equal. f_equal. apply filter_ext. intros p. simpl.
    rewrite orb_false_r. reflexivity.
  - pose (I := fun st : analysis =>
      name (info st) = cls_name cls /\
      base_classes (info st) = map cls_name (cls_bases cls)).
    destruct (analyze_class_invariant cls I) as (st & HI & ->); [| | | | |exact HI].
    + split; reflexivity.
    + intros c st [n value] _ _ HI. unfold identify_entry.
      destruct (mem n (processed_methods st)); [exact HI|].
      destruct value as [f|f|f|fg fs fd|]; try exact HI.
      * destruct (describe f [] c); exact HI.
      * destruct (describe f ["cls"] c); exact HI.
    + intros c st _ HI. unfold analyze_constructor.
      destruct (constructor (info st)); [exact HI|].
      destruct (describe (init_method c) ["self"] c); exact HI.
    + intros c st [n method] _ _ HI. unfold analyze_method.
      destruct (mem n (processed_methods st)); [exact HI|].
      destruct (startswith n "__" && endswith n "__").
      * destruct (negb (String.eqb n "__init__")); [|exact HI].
        destruct (describe method ["self"; "cls"] c); exact HI.
      * destruct (startswith n "_"); [exact HI|].
        destruct (describe method ["self"; "cls"] c); exact HI.
    + intros c st [n [[fget fset] fdel]] _ _ HI. unfold analyze_property.
      destruct (mem n (processed_properties st)); exact HI.
Qed.

End AnalysisInvariants.

(* ================================================================== *)
(** * The shape and the number of the generated cases *)

Section CaseShapes.

Context {RT : Runtime}.

Import ClassAnalyzer TestCaseGenerator.

Lemma for_each_bounded {A S : Type} (size : S -> nat) (I : S -> Prop) (w : nat)
    (xs : list A) (body : A -> S -> M S) :
  (forall x s, In x xs -> I s ->
     ensures (body x s) (fun s' => size s' <= size s + w /\ I s')) ->
  forall s, I s ->
  ensures (for_each xs body s)
    (fun s' => size s' <= size s + w * List.length xs /\ I s').
Proof.
  induction xs as [|x r IH]; intros Hbody s Hs.
  - simpl. apply ensures_ret. split; [lia | exact Hs].
  - rewrite for_each_cons.
    apply (ensures_bind _ _ _ _ (Hbody x s (or_introl eq_refl) Hs)).
    intros s1 [Hsize H1].
    apply (ensures_weaken _ _ _ (IH (fun y t Hy => Hbody y t (or_intror Hy)) s1 H1)).
    intros s2 [H2 HI]. split; [simpl; lia | exact HI].
Qed.

Lemma enumerate_length {A : Type} (xs : list A) :
  List.length (enumerate xs) = List.length xs.
Proof. unfold enumerate. rewrite length_combine, length_seq. apply Nat.min_id. Qed.

Lemma edge_value_count (t : pytype) :
  List.length (ValueGenerator.get_edge_cases_for_type t) <= 5.
Proof. destruct t; simpl; lia. Qed.

Lemma edge_inputs_length (param_names : list string) (hints : list (string * pytype))
    (idx : nat) (edge_value : value) (class_type : option pyclass) :
  ensures (edge_inputs param_names hints idx edge_value class_type)
    (fun inputs => List.length inputs = List.length param_names).
Proof.
  unfold edge_inputs. apply (ensures_weaken _ _ _ (mapM_length _ _)).
  intros ys ->. apply enumerate_length.
Qed.

Lemma random_inputs_length (param_names : list string) (hints : list (string * pytype))
    (class_type : option pyclass) :
  ensures (random_inputs param_names hints class_type)
    (fun inputs => List.length inputs = List.length param_names).
Proof. unfold random_inputs. apply mapM_length. Qed.





(** ** Cases of a class *)

Lemma ensures_match_list {A B : Type} (l : list A) (m1 m2 : M B) (P : B -> Prop) :
  (l = [] -> ensures m1 P) -> (l <> [] -> ensures m2 P) ->
  ensures (match l with [] => m1 | _ :: _ => m2 end) P.
Proof.
  intros H1 H2. destruct l; [apply H1; reflexivity | apply H2; discriminate].
Qed.

Lemma try_method_case (cls : pyclass) (method_type : method_kind) (method_name : string)
    (constructor_inputs inputs : list value) (test_cases : list ClassMethodTestCase.t) :
  ensures (try_method cls method_type method_name constructor_inputs inputs test_cases)
    (fun cases => cases = test_cases \/
       exists out r,
         cases = test_cases ++
                 [method_case cls constructor_inputs method_name inputs out r]).
Proof.
  unfold try_method. apply (ensures_bind _ _ _ _ (ensures_true _)).
  intros [out|[|e|e]] _; apply ensures_ret.
  - right. eexists. eexists. reflexivity.
  - left. reflexivity.
  - left. reflexivity.
  - right. eexists. eexists. reflexivity.
Qed.

Lemma try_constructor_case (cls : pyclass) (inputs : list value)
    (test_cases : list ClassMethodTestCase.t) :
  ensures (try_constructor cls inputs test_cases)
    (fun cases => cases = test_cases \/
       exists r, cases = test_cases ++ [constructor_case cls inputs r]).
Proof.
  unfold try_constructor. apply (ensures_bind _ _ _ _ (ensures_true _)).
  intros [out|[|e|e]] _; apply ensures_ret.
  - right. eexists. reflexivity.
  - left. reflexivity.
  - left. reflexivity.
  - right. eexists. reflexivity.
Qed.

Lemma create_instance_for_method_shape (cls : pyclass) (method_name : string)
    (method_type : method_kind) :
  ensures (create_instance_for_method cls method_name method_type)
    (fun r => snd r = [] \/
       (method_type = Methods /\ fst (fst r) = None /\
        exists e, snd r = [method_case cls (snd (fst r)) method_name [] VNone (Some e)])).
Proof.
  unfold create_instance_for_method. destruct method_type;
    try (apply ensures_ret; left; reflexivity).
  apply (ensures_bind _ _ _ _ (ensures_true _)).
  intros [obj|e0] _; [apply ensures_ret; left; reflexivity|].
  destruct (constructor (analyze_class cls)) as [constructor_info|];
    [|apply ensures_ret; left; reflexivity].
  apply (ensures_bind _ _ _ _ (ensures_true _)). intros constructor_inputs _.
  apply (ensures_bind _ _ _ _ (ensures_true _)).
  intros [obj|e] _; apply ensures_ret; [left; reflexivity|].
  right. split; [reflexivity|]. split; [reflexivity|]. exists e. reflexivity.
Qed.

Lemma method_candidate_shape (cls : pyclass) (method_type : method_kind)
    (method_name : string) (constructor_inputs inputs : list value)
    (st : list ClassMethodTestCase.t * list (list value))
    (L : ClassMethodTestCase.t -> Prop) :
  (forall out r, L (method_case cls constructor_inputs method_name inputs out r)) ->
  Forall L (fst st) ->
  ensures (method_candidate cls method_type method_name constructor_inputs inputs st)
    (fun st' => List.length (fst st') <= S (List.length (fst st)) /\ Forall L (fst st')).
Proof.
  intros HL Hst. destruct st as [test_cases used_inputs]. unfold method_candidate.
  destruct (is_duplicate inputs used_inputs).
  - apply ensures_ret. split; [lia | exact Hst].
  - apply (ensures_bind _ _ _ _ (try_method_case _ _ _ _ _ _)).
    intros cases [->|(out & r & ->)]; apply ensures_ret; simpl.
    + split; [lia | exact Hst].
    + split; [rewrite length_app; simpl; lia|]. apply Forall_snoc; [exact Hst | apply HL].
Qed.

Lemma method_cases_with_shape (cls : pyclass) (method_name : string)
    (method_info : descriptor) (method_type : method_kind) (num_cases : nat)
    (constructor_inputs : list value) :
  ensures (method_cases_with cls method_name method_info method_type num_cases
             constructor_inputs [])
    (fun cases =>
       List.length cases <= Nat.max 1 (5 * List.length (parameters method_info) + num_cases) /\
       Forall (fun c =>
                 ClassMethodTestCase.class_type c = cls /\
                 ClassMethodTestCase.method_name c = method_name /\
                 ClassMethodTestCase.is_property_getter c = false /\
                 ClassMethodTestCase.constructor_inputs c = constructor_inputs /\
                 List.length (ClassMethodTestCase.method_inputs c)
                 = List.length (parameters method_info)) cases).
Proof.
  set (L := fun c : ClassMethodTestCase.t =>
              ClassMethodTestCase.class_type c = cls /\
              ClassMethodTestCase.method_name c = method_name /\
              ClassMethodTestCase.is_property_getter c = false /\
              ClassMethodTestCase.constructor_inputs c = constructor_inputs /\
              List.length (ClassMethodTestCase.method_inputs c)
              = List.length (parameters method_info)).
  unfold method_cases_with. cbv zeta. apply ensures_match_list.
  - intros E. apply (ensures_weaken _ _ _ (try_method_case _ _ _ _ _ _)).
    intros cases [->|(out & r & ->)].
    + split; [cbn [List.length app]; lia | constructor].
    + split; [cbn [List.length app]; lia|]. constructor; [|constructor].
      unfold L. simpl. rewrite E. repeat split; reflexivity.
  - intros _.
    set (size := fun st : list ClassMethodTestCase.t * list (list value) =>
                   List.length (fst st)).
    set (I := fun st : list ClassMethodTestCase.t * list (list value) => Forall L (fst st)).
    apply (ensures_bind _ _
             (fun st => size st <= 5 * List.length (parameters method_info) /\ I st)).
    + eapply ensures_weaken.
      * apply (for_each_bounded size I 5); [|constructor].
        intros [idx param_name] st _ Hst.
        eapply ensures_weaken.
        -- apply (for_each_bounded size I 1); [|exact Hst].
           intros edge_value st1 _ Hst1.
           apply (ensures_bind _ _ _ _ (edge_inputs_length _ _ _ _ _)).
           intros inputs Hin.
           apply (ensures_weaken _ _ _
                    (method_candidate_shape cls method_type method_name
                       constructor_inputs inputs st1 L
                       ltac:(intros out r; unfold L; simpl; repeat split; exact Hin)
                       Hst1)).
           intros st' [H1 H2]. split; [unfold size; lia | exact H2].
        -- intros st' [Hsz Hok]. split; [|exact Hok].
           pose proof (edge_value_count (hint_of (type_hints method_info) param_name)).
           lia.
      * intros st' [Hsz Hok]. rewrite enumerate_length in Hsz.
        split; [unfold size in *; simpl in Hsz; lia | exact Hok].
    + intros st [Hsz Hok].
      eapply ensures_bind.
      * apply (repeatM_bounded size I); [|exact Hok].
        intros st1 Hst1.
        apply (ensures_bind _ _ _ _ (random_inputs_length _ _ _)).
        intros inputs Hin.
        apply (ensures_weaken _ _ _
                 (method_candidate_shape cls method_type method_name
                    constructor_inputs inputs st1 L
                    ltac:(intros out r; unfold L; simpl; repeat split; exact Hin)
                    Hst1)).
        intros st' [H1 H2]. split; [unfold size; lia | exact H2].
      * intros [test_cases used] [H1 H2]. apply ensures_ret.
        unfold size in *. cbn [fst] in *. split; [lia | exact H2].
Qed.

Lemma method_cases_shape (cls : pyclass) (method_name : string)
    (method_info : descriptor) (method_type : method_kind) (num_cases : nat) :
  ensures (_generate_method_test_cases cls method_name method_info method_type num_cases)
    (fun cases =>
       List.length cases <= Nat.max 1 (5 * List.length (parameters method_info) + num_cases) /\
       exists constructor_inputs,
         Forall (fun c =>
                   ClassMethodTestCase.class_type c = cls /\
                   ClassMethodTestCase.method_name c = method_name /\
                   ClassMethodTestCase.is_property_getter c = false /\
                   ClassMethodTestCase.constructor_inputs c = constructor_inputs /\
                   (ClassMethodTestCase.method_inputs c = [] \/
                    List.length (ClassMethodTestCase.method_inputs c)
                    = List.length (parameters method_info))) cases).
Proof.
  unfold _generate_method_test_cases.
  apply (ensures_bind _ _ _ _ (create_instance_for_method_shape _ _ _)).
  intros [[valid_instance constructor_inputs] test_cases] H. simpl in H.
  assert (Hwith : ensures
    (method_cases_with cls method_name method_info method_type num_cases
       constructor_inputs [])
    (fun cases =>
       List.length cases <= Nat.max 1 (5 * List.length (parameters method_info) + num_cases) /\
       exists constructor_inputs,
         Forall (fun c =>
                   ClassMethodTestCase.class_type c = cls /\
                   ClassMethodTestCase.method_name c = method_name /\
                   ClassMethodTestCase.is_property_getter c = false /\
                   ClassMethodTestCase.constructor_inputs c = constructor_inputs /\
                   (ClassMethodTestCase.method_inputs c = [] \/
                    List.length (ClassMethodTestCase.method_inputs c)
                    = List.length (parameters method_info))) cases)).
  { apply (ensures_weaken _ _ _ (method_cases_with_shape _ _ _ _ _ _)).
    intros cases [H1 H2]. split; [exact H1|]. exists constructor_inputs.
    revert H2. apply Forall_impl. intros c Hc. intuition. }
  destruct H as [->|(-> & -> & e & ->)].
  - destruct method_type; [destruct valid_instance|..]; try exact Hwith.
    apply ensures_ret. split; [cbn [List.length app]; lia|]. exists constructor_inputs. constructor.
  - apply ensures_ret. split; [cbn [List.length app]; lia|]. exists constructor_inputs.
    constructor; [|constructor]. simpl. repeat split; try reflexivity. left. reflexivity.
Qed.

(** X19.  The cases generated for a method are at most five for each
    parameter plus [num_cases] (one when the method has no parameter or
    when construction failed); they all belong to the class and the
    method, are not flagged as property getters, share one list of
    constructor inputs, and hold one input for each parameter, or none in
    the case recorded for a failed construction. *)
Theorem method_cases_are_labelled
    (cls : pyclass) (method_name : string) (method_info : descriptor)
    (method_type : method_kind) (num_cases : nat) (g g' : rng)
    (cases : list ClassMethodTestCase.t) :
  _generate_method_test_cases cls method_name method_info method_type num_cases g
  = Done (cases, g') ->
  List.length cases <= Nat.max 1 (5 * List.length (parameters method_info) + num_cases) /\
  exists constructor_inputs,
    Forall (fun c =>
              ClassMethodTestCase.class_type c = cls /\
              ClassMethodTestCase.method_name c = method_name /\
              ClassMethodTestCase.is_property_getter c = false /\
              ClassMethodTestCase.constructor_inputs c = constructor_inputs /\
              (ClassMethodTestCase.method_inputs c = [] \/
               List.length (ClassMethodTestCase.method_inputs c)
               = List.length (parameters method_info))) cases.
Proof. intros Hrun. exact (method_cases_shape _ _ _ _ _ g cases g' Hrun). Qed.

Lemma constructor_candidate_shape (cls : pyclass) (inputs : list value)
    (st : list ClassMethodTestCase.t * list (list value))
    (L : ClassMethodTestCase.t -> Prop) :
  (forall r, L (constructor_case cls inputs r)) ->
  Forall L (fst st) ->
  ensures (constructor_candidate cls inputs st)
    (fun st' => List.length (fst st') <= S (List.length (fst st)) /\ Forall L (fst st')).
Proof.
  intros HL Hst. destruct st as [test_cases used_inputs]. unfold constructor_candidate.
  destruct (is_duplicate inputs used_inputs).
  - apply ensures_ret. split; [lia | exact Hst].
  - apply (ensures_bind _ _ _ _ (try_constructor_case _ _ _)).
    intros cases [->|(r & ->)]; apply ensures_ret; simpl.
    + split; [lia | exact Hst].
    + split; [rewrite length_app; simpl; lia|]. apply Forall_snoc; [exact Hst | apply HL].
Qed.

Lemma constructor_cases_shape (cls : pyclass) (constructor_info : descriptor)
    (num_cases : nat) :
  ensures (_generate_constructor_test_cases cls constructor_info num_cases)
    (fun cases =>
       List.length cases
       <= Nat.max 1 (5 * List.length (parameters constructor_info) + num_cases) /\
       Forall (fun c =>
                 ClassMethodTestCase.class_type c = cls /\
                 ClassMethodTestCase.method_name c = "__init__" /\
                 ClassMethodTestCase.method_inputs c = [] /\
                 ClassMethodTestCase.expected_output c = VNone /\
                 ClassMethodTestCase.is_property_getter c = false /\
                 List.length (ClassMethodTestCase.constructor_inputs c)
                 = List.length (parameters constructor_info)) cases).
Proof.
  set (L := fun c : ClassMethodTestCase.t =>
              ClassMethodTestCase.class_type c = cls /\
              ClassMethodTestCase.method_name c = "__init__" /\
              ClassMethodTestCase.method_inputs c = [] /\
              ClassMethodTestCase.expected_output c = VNone /\
              ClassMethodTestCase.is_property_getter c = false /\
              List.length (ClassMethodTestCase.constructor_inputs c)
              = List.length (parameters constructor_info)).
  assert (HL : forall inputs r,
            List.length inputs = List.length (parameters constructor_info) ->
            L (constructor_case cls inputs r)).
  { intros inputs r Hin. unfold L. simpl. repeat split. exact Hin. }
  unfold _generate_constructor_test_cases. cbv zeta. apply ensures_match_list.
  - intros E. apply (ensures_bind _ _ _ _ (ensures_true _)).
    intros [obj|e] _; apply ensures_ret;
      (split; [cbn [List.length]; lia|]); (constructor; [|constructor]);
      apply HL; rewrite E; reflexivity.
  - intros _.
    set (size := fun st : list ClassMethodTestCase.t * list (list value) =>
                   List.length (fst st)).
    set (I := fun st : list ClassMethodTestCase.t * list (list value) => Forall L (fst st)).
    apply (ensures_bind _ _
             (fun st => size st <= 5 * List.length (parameters constructor_info) /\ I st)).
    + unfold constructor_edge_cases. cbv zeta. eapply ensures_weaken.
      * apply (for_each_bounded size I 5); [|constructor].
        intros [idx param_name] st _ Hst.
        eapply ensures_weaken.
        -- apply (for_each_bounded size I 1); [|exact Hst].
           intros edge_value st1 _ Hst1.
           apply (ensures_bind _ _ _ _ (edge_inputs_length _ _ _ _ _)).
           intros inputs Hin.
           apply (ensures_weaken _ _ _
                    (constructor_candidate_shape cls inputs st1 L
                       (fun r => HL inputs r Hin) Hst1)).
           intros st' [H1 H2]. split; [unfold size; lia | exact H2].
        -- intros st' [Hsz Hok]. split; [|exact Hok].
           pose proof (edge_value_count (hint_of (type_hints constructor_info) param_name)).
           lia.
      * intros st' [Hsz Hok]. rewrite enumerate_length in Hsz.
        split; [unfold size in *; simpl in Hsz; lia | exact Hok].
    + intros [test_cases used_inputs] [Hsz Hok]. unfold size, I in *. cbn [fst] in *.
      eapply ensures_weaken.
      * apply (repeatM_bounded (@List.length ClassMethodTestCase.t) (Forall L));
          [|exact Hok].
        intros s Hs.
        apply (ensures_bind _ _ _ _ (random_inputs_length _ _ _)).
        intros inputs Hin.
        apply (ensures_weaken _ _ _ (try_constructor_case cls inputs s)).
        intros cases [->|(r & ->)].
        -- split; [lia | exact Hs].
        -- split; [rewrite length_app; simpl; lia|].
           apply Forall_snoc; [exact Hs | apply HL; exact Hin].
      * intros cases [H1 H2]. split; [lia | exact H2].
Qed.

(** X20.  The cases generated for a constructor are at most five for each
    parameter plus [num_cases] (one for a constructor without
    parameters); each is filed under [__init__] for the class, has no
    method input and no expected value, and holds one constructor input
    for each parameter. *)
Theorem constructor_cases_are_labelled
    (cls : pyclass) (constructor_info : descriptor) (num_cases : nat) (g g' : rng)
    (cases : list ClassMethodTestCase.t) :
  _generate_constructor_test_cases cls constructor_info num_cases g = Done (cases, g') ->
  List.length cases
  <= Nat.max 1 (5 * List.length (parameters constructor_info) + num_cases) /\
  Forall (fun c =>
            ClassMethodTestCase.class_type c = cls /\
            ClassMethodTestCase.method_name c = "__init__" /\
            ClassMethodTestCase.method_inputs c = [] /\
            ClassMethodTestCase.expected_output c = VNone /\
            ClassMethodTestCase.is_property_getter c = false /\
            List.length (ClassMethodTestCase.constructor_inputs c)
            = List.length (parameters constructor_info)) cases.
Proof. intros Hrun. exact (constructor_cases_shape _ _ _ g cases g' Hrun). Qed.

Lemma getter_cases_shape (cls : pyclass) (prop_name : string)
    (prop_info : property_descriptor) (num_cases : nat) :
  ensures (_generate_property_getter_test_cases cls prop_name prop_info num_cases)
    (fun cases =>
       List.length cases <= 1 /\
       Forall (fun c =>
                 ClassMethodTestCase.class_type c = cls /\
                 ClassMethodTestCase.method_name c = ("get_" ++ prop_name)%string /\
                 ClassMethodTestCase.method_inputs c = [] /\
                 ClassMethodTestCase.is_property_getter c = true) cases).
Proof.
  unfold _generate_property_getter_test_cases.
  apply (ensures_bind _ _ _ _ (ensures_true _)).
  intros [[valid_instance constructor_inputs]|] _;
    [|apply ensures_ret; split; [simpl; lia | constructor]].
  apply (ensures_bind _ _ _ _ (ensures_true _)).
  intros [out|[|e|e]] _; apply ensures_ret.
  - split; [simpl; lia|]. constructor; [|constructor]. simpl. repeat split.
  - split; [simpl; lia | constructor].
  - split; [simpl; lia | constructor].
  - split; [simpl; lia|]. constructor; [|constructor]. simpl. repeat split.
Qed.

(** X21.  A property getter yields at most one case, whatever
    [num_cases] is: the argument is not used.  The case is filed under
    [get_] followed by the property name, has no method input and is
    flagged as a property getter. *)
Theorem getter_records_at_most_one_case
    (cls : pyclass) (prop_name : string) (prop_info : property_descriptor)
    (num_cases : nat) (g g' : rng) (cases : list ClassMethodTestCase.t) :
  _generate_property_getter_test_cases cls prop_name prop_info num_cases g
  = Done (cases, g') ->
  List.length cases <= 1 /\
  Forall (fun c =>
            ClassMethodTestCase.class_type c = cls /\
            ClassMethodTestCase.method_name c = ("get_" ++ prop_name)%string /\
            ClassMethodTestCase.method_inputs c = [] /\
            ClassMethodTestCase.is_property_getter c = true) cases /\
  (forall n, _generate_property_getter_test_cases cls prop_name prop_info n g
             = Done (cases, g')).
Proof.
  intros Hrun. destruct (getter_cases_shape _ _ _ _ g cases g' Hrun) as [H1 H2].
  split; [exact H1|]. split; [exact H2|]. intros n. exact Hrun.
Qed.

Lemma setter_cases_shape (cls : pyclass) (prop_name : string)
    (prop_info : property_descriptor) (num_cases : nat) :
  ensures (_generate_property_setter_test_cases cls prop_name prop_info num_cases)
    (Forall (fun c =>
               ClassMethodTestCase.class_type c = cls /\
               ClassMethodTestCase.method_name c = ("set_" ++ prop_name)%string)).
Proof.
  set (L := fun c : ClassMethodTestCase.t =>
              ClassMethodTestCase.class_type c = cls /\
              ClassMethodTestCase.method_name c = ("set_" ++ prop_name)%string).
  assert (Hcand : forall constructor_inputs v (st : list ClassMethodTestCase.t * list value),
            Forall L (fst st) ->
            ensures (setter_candidate cls prop_name constructor_inputs v st)
                    (fun st' => Forall L (fst st'))).
  { intros constructor_inputs v [test_cases used_inputs] Hst. unfold setter_candidate.
    destruct (existsb _ used_inputs); [apply ensures_ret; exact Hst|].
    apply (ensures_bind _ _ _ _ (ensures_true _)).
    intros [out|[|e|e]] _; apply ensures_ret; simpl; try exact Hst;
      (apply Forall_snoc; [exact Hst | split; reflexivity]). }
  unfold _generate_property_setter_test_cases.
  apply (ensures_bind _ _ _ _ (ensures_true _)).
  intros [[valid_instance constructor_inputs]|] _; [|apply ensures_ret; constructor].
  cbv zeta.
  apply (ensures_bind _ _ (fun st => Forall L (fst st))).
  - apply (ensures_for_each _ _ (fun st => Forall L (fst st))); [|constructor].
    intros v st _ Hst. apply Hcand. exact Hst.
  - intros st Hst.
    apply (ensures_bind _ _ (fun st => Forall L (fst st))).
    + apply (ensures_repeatM _ _ (fun st => Forall L (fst st))); [|exact Hst].
      intros st1 Hst1. apply (ensures_bind _ _ _ _ (ensures_true _)).
      intros v _. apply Hcand. exact Hst1.
    + intros [test_cases used] H. apply ensures_ret. exact H.
Qed.

Lemma filed_cases_set (cls : pyclass) (k : string) (cases : list ClassMethodTestCase.t)
    (test_cases : list (string * list ClassMethodTestCase.t)) :
  Forall (fun c => ClassMethodTestCase.method_name c = k /\
                   ClassMethodTestCase.class_type c = cls) cases ->
  NoDup (dict_keys test_cases) /\
  Forall (fun kv => Forall (fun c => ClassMethodTestCase.method_name c = fst kv /\
                                     ClassMethodTestCase.class_type c = cls) (snd kv))
         test_cases ->
  NoDup (dict_keys (assoc_set k cases test_cases)) /\
  Forall (fun kv => Forall (fun c => ClassMethodTestCase.method_name c = fst kv /\
                                     ClassMethodTestCase.class_type c = cls) (snd kv))
         (assoc_set k cases test_cases).
Proof.
  intros Hc [Hnd Hall]. split; [apply assoc_set_nodup; exact Hnd|].
  apply assoc_set_Forall; [exact Hc | exact Hall].
Qed.

(** X22.  In the dictionary [generate_class_test_cases] returns, every
    case is filed under its own [method_name] and belongs to the analysed
    class: the constructor cases under [__init__], the cases of a method
    under its name, those of a property under [get_] and [set_] followed
    by its name. *)
Theorem class_cases_are_filed_under_their_name
    (cls : pyclass) (num_cases : nat) (g g' : rng)
    (test_cases : list (string * list ClassMethodTestCase.t)) :
  generate_class_test_cases cls num_cases g = Done (test_cases, g') ->
  NoDup (dict_keys test_cases) /\
  Forall (fun kv => Forall (fun c => ClassMethodTestCase.method_name c = fst kv /\
                                     ClassMethodTestCase.class_type c = cls) (snd kv))
         test_cases.
Proof.
  revert g test_cases g'.
  change (ensures (generate_class_test_cases cls num_cases)
            (fun test_cases =>
               NoDup (dict_keys test_cases) /\
               Forall (fun kv =>
                         Forall (fun c => ClassMethodTestCase.method_name c = fst kv /\
                                          ClassMethodTestCase.class_type c = cls) (snd kv))
                      test_cases)).
  set (D := fun test_cases : list (string * list ClassMethodTestCase.t) =>
       NoDup (dict_keys test_cases) /\
       Forall (fun kv => Forall (fun c => ClassMethodTestCase.method_name c = fst kv /\
                                          ClassMethodTestCase.class_type c = cls) (snd kv))
              test_cases).
  unfold generate_class_test_cases. cbv zeta.
  apply (ensures_bind _ _ D).
  { destruct (constructor (analyze_class cls)) as [constructor_info|].
    - apply (ensures_bind _ _ _ _ (constructor_cases_shape _ _ _)).
      intros cases [_ Hc]. apply ensures_ret. apply filed_cases_set.
      + revert Hc. apply Forall_impl. intros c Hc. intuition.
      + split; constructor.
    - apply ensures_ret. split; constructor. }
  intros test_cases HD.
  apply (ensures_bind _ _ D).
  { apply (ensures_for_each _ _ D); [|exact HD].
    intros [method_type method_dict] s _ Hs.
    apply (ensures_for_each _ _ D); [|exact Hs].
    intros [method_name method_info] s1 _ Hs1.
    apply (ensures_bind _ _ _ _ (method_cases_shape _ _ _ _ _)).
    intros cases [_ (ci & Hc)]. apply ensures_ret. apply filed_cases_set; [|exact Hs1].
    revert Hc. apply Forall_impl. intros c Hc. intuition. }
  intros test_cases1 HD1.
  apply (ensures_for_each _ _ D); [|exact HD1].
  intros [prop_name prop_info] s _ Hs.
  apply (ensures_bind _ _ D).
  { destruct (has_getter prop_info); [|apply ensures_ret; exact Hs].
    apply (ensures_bind _ _ _ _ (getter_cases_shape _ _ _ _)).
    intros cases [_ Hc]. apply ensures_ret. apply filed_cases_set; [|exact Hs].
    revert Hc. apply Forall_impl. intros c Hc. intuition. }
  intros s1 Hs1.
  destruct (has_setter prop_info); [|apply ensures_ret; exact Hs1].
  apply (ensures_bind _ _ _ _ (setter_cases_shape _ _ _ _)).
  intros cases Hc. apply ensures_ret. apply filed_cases_set; [|exact Hs1].
  revert Hc. apply Forall_impl. intros c Hc. intuition.
Qed.

(** X23.  For an instance method the alarm is armed before the instance
    is built, so its three seconds run over construction and call
    together: where alarms are armed, the alarm goes off while the
    candidate runs exactly when the two running times together reach the
    deadline, be the call alone ever so short; and a candidate whose
    construction and call together end before the deadline is recorded
    with what the call returned. *)
Theorem deadline_covers_construction_and_call
    (cls : pyclass) (method_name : string) (constructor_inputs inputs : list value)
    (test_cases : list ClassMethodTestCase.t) (g : rng)
    (t1 t2 : N) (obj : instance) (v : value) :
  IS_WINDOWS = false ->
  cls_new cls constructor_inputs = Finishes t1 (Returned obj) ->
  obj_call cls method_name obj inputs = Finishes t2 (Returned v) ->
  (times_out (method_call cls Methods method_name constructor_inputs inputs) = true
   <-> (DEADLINE <= t1 + t2)%N) /\
  ((t1 + t2 < DEADLINE)%N ->
   exists c,
     try_method cls Methods method_name constructor_inputs inputs test_cases g
     = Done (test_cases ++ [c], g) /\
     ClassMethodTestCase.constructor_inputs c = constructor_inputs /\
     ClassMethodTestCase.method_inputs c = inputs /\
     ClassMethodTestCase.expected_output c = v /\
     ClassMethodTestCase.raises c = None).
Proof.
  intros Hw Hnew Hcall.
  assert (Eb : method_call cls Methods method_name constructor_inputs inputs
               = Finishes (t1 + t2) (Returned v)).
  { unfold method_call, and_then. rewrite Hnew, Hcall. reflexivity. }
  split.
  - unfold times_out. rewrite Hw, Eb. simpl. rewrite negb_true_iff. apply N.ltb_ge.
  - intros Hsum. eexists. split.
    + unfold try_method.
      rewrite (bind_eq _ _ g g (Returned v)); [reflexivity|].
      apply (guarded_call_finished _ _ _ _ g Eb).
      unfold times_out. rewrite Hw, Eb. simpl. rewrite negb_false_iff. apply N.ltb_lt.
      exact Hsum.
    + repeat split.
Qed.


(** ** Parameters without a supported annotation *)

Lemma mapM_const {A B : Type} (f : A -> M B) (xs : list A) (v : B) :
  (forall x g, In x xs -> f x g = Done (v, g)) ->
  forall g, mapM f xs g = Done (repeat v (List.length xs), g).
Proof.
  induction xs as [|x r IH]; intros Hf g; [reflexivity|].
  simpl. rewrite (bind_eq _ _ _ _ _ (Hf x g (or_introl eq_refl))).
  rewrite (bind_eq _ _ _ _ _ (IH (fun y g0 Hy => Hf y g0 (or_intror Hy)) g)).
  reflexivity.
Qed.

Lemma edge_inputs_none (param_names : list string) (hints : list (string * pytype))
    (idx : nat) (class_type : option pyclass) (g : rng) :
  Forall (fun p => hint_of hints p = TAny \/ hint_of hints p = TOther) param_names ->
  edge_inputs param_names hints idx VNone class_type g
  = Done (repeat VNone (List.length param_names), g).
Proof.
  intros Hall. unfold edge_inputs.
  rewrite (mapM_const _ _ VNone); [rewrite enumerate_length; reflexivity|].
  intros [inner_idx inner_param] g0 Hin.
  destruct (Nat.eqb inner_idx idx); [reflexivity|].
  apply unsupported_type_gives_none.
  rewrite Forall_forall in Hall. apply Hall.
  unfold enumerate in Hin. apply in_combine_r in Hin. exact Hin.
Qed.

Lemma random_inputs_none (param_names : list string) (hints : list (string * pytype))
    (class_type : option pyclass) (g : rng) :
  Forall (fun p => hint_of hints p = TAny \/ hint_of hints p = TOther) param_names ->
  random_inputs param_names hints class_type g
  = Done (repeat VNone (List.length param_names), g).
Proof.
  intros Hall. unfold random_inputs. apply mapM_const.
  intros p g0 Hin. apply unsupported_type_gives_none.
  rewrite Forall_forall in Hall. apply Hall. exact Hin.
Qed.

Lemma unsupported_edge_value (t : pytype) :
  t = TAny \/ t = TOther -> ValueGenerator.get_edge_cases_for_type t = [VNone].
Proof. intros [-> | ->]; reflexivity. Qed.

Lemma nones_equivalent (n : nat) :
  repr VNone <> None ->
  _are_functionally_equivalent (repeat VNone n) (repeat VNone n) = true.
Proof.
  intros Hrepr. apply are_functionally_equivalent_refl.
  - apply Forall_forall. intros x Hx. apply repeat_spec in Hx. subst x. exact I.
  - apply Forall_forall. intros x Hx. apply repeat_spec in Hx. subst x. exact Hrepr.
Qed.

Lemma none_candidate (cls : pyclass) (method_type : method_kind) (method_name : string)
    (constructor_inputs : list value) (n : nat)
    (st : list ClassMethodTestCase.t * list (list value)) :
  repr VNone <> None ->
  (fst st = [] /\ snd st = []) \/
  (snd st = [repeat VNone n] /\ List.length (fst st) <= 1 /\
   Forall (fun c => ClassMethodTestCase.method_inputs c = repeat VNone n) (fst st)) ->
  ensures (method_candidate cls method_type method_name constructor_inputs
             (repeat VNone n) st)
    (fun st' =>
       (fst st' = [] /\ snd st' = []) \/
       (snd st' = [repeat VNone n] /\ List.length (fst st') <= 1 /\
        Forall (fun c => ClassMethodTestCase.method_inputs c = repeat VNone n) (fst st'))).
Proof.
  intros Hrepr H. destruct st as [test_cases used_inputs]. simpl in H.
  unfold method_candidate. destruct H as [[-> ->]|(-> & Hlen & Hall)].
  - simpl. apply (ensures_bind _ _ _ _ (try_method_case _ _ _ _ _ _)).
    intros cases [->|(out & r & ->)]; apply ensures_ret; right; simpl.
    + split; [reflexivity|]. split; [lia | constructor].
    + split; [reflexivity|]. split; [lia|]. constructor; [reflexivity | constructor].
  - unfold is_duplicate. simpl. rewrite (nones_equivalent n Hrepr). simpl.
    apply ensures_ret. right. simpl. split; [reflexivity|]. split; assumption.
Qed.

Lemma unannotated_cases_with (cls : pyclass) (method_name : string)
    (method_info : descriptor) (method_type : method_kind) (num_cases : nat)
    (constructor_inputs : list value) :
  repr VNone <> None ->
  Forall (fun p => hint_of (type_hints method_info) p = TAny \/
                   hint_of (type_hints method_info) p = TOther)
         (parameters method_info) ->
  ensures (method_cases_with cls method_name method_info method_type num_cases
             constructor_inputs [])
    (fun cases =>
       List.length cases <= 1 /\
       Forall (fun c => Forall (eq VNone) (ClassMethodTestCase.method_inputs c)) cases).
Proof.
  intros Hrepr Hall.
  set (n := List.length (parameters method_info)).
  set (J := fun st : list ClassMethodTestCase.t * list (list value) =>
       (fst st = [] /\ snd st = []) \/
       (snd st = [repeat VNone n] /\ List.length (fst st) <= 1 /\
        Forall (fun c => ClassMethodTestCase.method_inputs c = repeat VNone n) (fst st))).
  unfold method_cases_with. cbv zeta. apply ensures_match_list.
  - intros E. apply (ensures_weaken _ _ _ (try_method_case _ _ _ _ _ _)).
    intros cases [->|(out & r & ->)].
    + split; [simpl; lia | constructor].
    + split; [simpl; lia|]. constructor; [constructor | constructor].
  - intros _. apply (ensures_bind _ _ J).
    + apply (ensures_for_each _ _ J); [|left; split; reflexivity].
      intros [idx param_name] st Hin Hst.
      assert (Hp : In param_name (parameters method_info)).
      { unfold enumerate in Hin. apply in_combine_r in Hin. exact Hin. }
      rewrite Forall_forall in Hall.
      rewrite (unsupported_edge_value _ (Hall _ Hp)).
      apply (ensures_for_each _ _ J); [|exact Hst].
      intros edge_value st1 [<-|[]] Hst1.
      intros g a g' Hrun.
      rewrite (bind_eq _ _ _ _ _
                 (edge_inputs_none (parameters method_info) (type_hints method_info)
                    idx (Some cls) g ltac:(apply Forall_forall; exact Hall))) in Hrun.
      exact (none_candidate cls method_type method_name constructor_inputs n st1
               Hrepr Hst1 g a g' Hrun).
    + intros st Hst. apply (ensures_bind _ _ J).
      * apply (ensures_repeatM _ _ J); [|exact Hst].
        intros st1 Hst1 g a g' Hrun.
        rewrite (bind_eq _ _ _ _ _
                   (random_inputs_none (parameters method_info) (type_hints method_info)
                      (Some cls) g Hall)) in Hrun.
        exact (none_candidate cls method_type method_name constructor_inputs n st1
                 Hrepr Hst1 g a g' Hrun).
      * intros [test_cases used] HJ. apply ensures_ret.
        destruct HJ as [[E _]|(_ & Hlen & HF)]; simpl in *.
        -- subst test_cases. split; [simpl; lia | constructor].
        -- split; [exact Hlen|]. revert HF. apply Forall_impl.
           intros c ->. apply Forall_forall. intros x Hx.
           apply repeat_spec in Hx. symmetry. exact Hx.
Qed.

(** X24.  A method whose parameters carry no supported annotation is
    tried with [None] for every parameter, in the boundary sweep and in
    every random candidate; the equivalence filter drops all but the
    first, so the method gets at most one case. *)
Theorem unannotated_method_gets_one_case
    (cls : pyclass) (method_name : string) (method_info : descriptor)
    (method_type : method_kind) (num_cases : nat) (g g' : rng)
    (cases : list ClassMethodTestCase.t) :
  repr VNone <> None ->
  Forall (fun p => hint_of (type_hints method_info) p = TAny \/
                   hint_of (type_hints method_info) p = TOther)
         (parameters method_info) ->
  _generate_method_test_cases cls method_name method_info method_type num_cases g
  = Done (cases, g') ->
  List.length cases <= 1 /\
  Forall (fun c => Forall (eq VNone) (ClassMethodTestCase.method_inputs c)) cases.
Proof.
  intros Hrepr Hall. revert g cases g'.
  change (ensures
            (_generate_method_test_cases cls method_name method_info method_type num_cases)
            (fun cases =>
               List.length cases <= 1 /\
               Forall (fun c => Forall (eq VNone) (ClassMethodTestCase.method_inputs c))
                      cases)).
  unfold _generate_method_test_cases.
  apply (ensures_bind _ _ _ _ (create_instance_for_method_shape _ _ _)).
  intros [[valid_instance constructor_inputs] test_cases] H. simpl in H.
  pose proof (unannotated_cases_with cls method_name method_info method_type num_cases
                constructor_inputs Hrepr Hall) as Hwith.
  destruct H as [->|(-> & -> & e & ->)].
  - destruct method_type; [destruct valid_instance|..]; try exact Hwith.
    apply ensures_ret. split; [simpl; lia | constructor].
  - apply ensures_ret. split; [simpl; lia|]. constructor; [constructor | constructor].
Qed.

End CaseShapes.

(* ================================================================== *)
(** * The serializer, the window and the coverage figures *)

Section Rendering.

Import PytestGenerator.

(** X25.  The serializer renders every case of a function exactly once:
    there are as many checks as cases, and each case has its check, an
    equality for a case that returned and an expected error for a case
    that raised. *)
Theorem every_function_case_is_rendered (test_cases : list TestCase.t) :
  List.length (function_checks test_cases) = List.length test_cases /\
  Forall (fun tc =>
            In (match TestCase.raises tc with
                | None => AssertEqual (TestCase.inputs tc) (TestCase.expected_output tc)
                | Some e => AssertRaises (TestCase.inputs tc) e
                end)
               (function_checks test_cases))
         test_cases.
Proof.
  unfold function_checks, regular_cases, exception_cases. split.
  - rewrite length_app, length_map.
    induction test_cases as [|tc r IH]; [reflexivity|].
    simpl. destruct (TestCase.raises tc) eqn:E; simpl; rewrite ?E; simpl; lia.
  - apply Forall_forall. intros tc Hin. apply in_or_app.
    destruct (TestCase.raises tc) as [e|] eqn:E.
    + right. apply in_flat_map. exists tc. split.
      * apply filter_In. split; [exact Hin | rewrite E; reflexivity].
      * rewrite E. left. reflexivity.
    + left. apply in_map_iff. exists tc. split; [reflexivity|].
      apply filter_In. split; [exact Hin | rewrite E; reflexivity].
Qed.

End Rendering.

Section Window.

Import Utils.

(** X26.  The window [set_window_size_and_position] asks for is never
    larger than the screen nor than the requested size, lies within the
    screen, and is centred: the right and bottom margins exceed the left
    and top ones by at most one pixel. *)
Theorem window_is_centred_on_screen (screen_width screen_height width height : Z) :
  let '((max_width, max_height), (x, y)) :=
    set_window_size_and_position screen_width screen_height width height in
  (max_width <= screen_width /\ max_width <= width /\
   max_height <= screen_height /\ max_height <= height /\
   0 <= x /\ x + max_width <= screen_width /\
   0 <= y /\ y + max_height <= screen_height /\
   0 <= (screen_width - (x + max_width)) - x <= 1 /\
   0 <= (screen_height - (y + max_height)) - y <= 1)%Z.
Proof.
  unfold set_window_size_and_position. cbv zeta.
  pose proof (Z.le_min_l width screen_width).
  pose proof (Z.le_min_r width screen_width).
  pose proof (Z.le_min_l height screen_height).
  pose proof (Z.le_min_r height screen_height).
  pose proof (Z.div_mod (screen_width - Z.min width screen_width) 2 ltac:(lia)).
  pose proof (Z.mod_pos_bound (screen_width - Z.min width screen_width) 2 ltac:(lia)).
  pose proof (Z.div_mod (screen_height - Z.min height screen_height) 2 ltac:(lia)).
  pose proof (Z.mod_pos_bound (screen_height - Z.min height screen_height) 2 ltac:(lia)).
  lia.
Qed.

End Window.

Section Coverage.

Import CoverageAnalyzer.

Lemma insert_permutation (x : Z) (l : list Z) : Permutation (insert x l) (x :: l).
Proof.
  induction l as [|y r IH]; simpl; [apply Permutation_refl|].
  destruct (x <=? y)%Z; [apply Permutation_refl|].
  apply (Permutation_trans (perm_skip y IH)). apply perm_swap.
Qed.

Lemma sorted_permutation (l : list Z) : Permutation (sorted l) l.
Proof.
  induction l as [|x r IH]; simpl; [constructor|].
  apply (Permutation_trans (insert_permutation x (sorted r))).
  apply perm_skip. exact IH.
Qed.

Lemma insert_keeps_sorted (x : Z) (l : list Z) : Sorted Z.le l -> Sorted Z.le (insert x l).
Proof.
  induction l as [|y r IH]; simpl; intros Hs.
  - repeat constructor.
  - destruct (Z.leb_spec x y) as [Hle|Hgt].
    + constructor; [exact Hs | constructor; exact Hle].
    + inversion Hs as [|? ? Hr Hhd]; subst. constructor; [apply IH; exact Hr|].
      destruct r as [|z r']; simpl.
      * constructor. lia.
      * destruct (Z.leb_spec x z); constructor; [lia|].
        inversion Hhd; subst. assumption.
Qed.

Lemma sorted_is_sorted (l : list Z) : Sorted Z.le (sorted l).
Proof.
  induction l as [|x r IH]; simpl; [constructor | apply insert_keeps_sorted; exact IH].
Qed.

Lemma run_last (first : Z) (count : nat) :
  List.last (map (fun i => (first + Z.of_nat i)%Z) (seq 0 (S count))) 0%Z
  = (first + Z.of_nat count)%Z.
Proof. rewrite seq_S, map_app. simpl. apply last_last. Qed.

Lemma run_extend (first : Z) (count : nat) :
  map (fun i => (first + Z.of_nat i)%Z) (seq 0 (S count))
    ++ [(first + Z.of_nat count + 1)%Z]
  = map (fun i => (first + Z.of_nat i)%Z) (seq 0 (S (S count))).
Proof.
  rewrite (seq_S (S count)), map_app. simpl. do 3 f_equal. lia.
Qed.

Lemma run_members (first : Z) (count : nat) (n : Z) :
  In n (map (fun i => (first + Z.of_nat i)%Z) (seq 0 (S count)))
  <-> (first <= n <= first + Z.of_nat count)%Z.
Proof.
  rewrite in_map_iff. split.
  - intros (i & <- & Hi). apply in_seq in Hi. lia.
  - intros Hn. exists (Z.to_nat (n - first)). split; [lia|]. apply in_seq. lia.
Qed.

Lemma separated_snoc (groups : list (list Z)) (group : list Z) :
  separated groups ->
  (groups = [] \/ List.hd 0%Z group <> (List.last (List.last groups []) 0 + 1)%Z) ->
  separated (groups ++ [group]).
Proof.
  induction groups as [|g r IH]; simpl; intros Hs Hlast; [tauto|].
  destruct Hs as [Hg Hr]. destruct r as [|g' r'].
  - simpl. destruct Hlast as [E|H]; [discriminate|]. simpl in H. tauto.
  - split; [exact Hg|]. apply IH; [exact Hr|]. right.
    destruct Hlast as [E|H]; [discriminate | exact H].
Qed.

Lemma group_line_empty (groups : list (list Z)) (line : Z) :
  group_line (groups, []) line = (groups, [line]).
Proof. reflexivity. Qed.

Lemma group_line_cons (groups : list (list Z)) (c0 : Z) (cur : list Z) (line : Z) :
  group_line (groups, c0 :: cur) line
  = if (line =? List.last (c0 :: cur) 0 + 1)%Z
    then (groups, (c0 :: cur) ++ [line])
    else (groups ++ [c0 :: cur], [line]).
Proof. reflexivity. Qed.

(** What the grouping loop keeps of [(groups, current_group)]. *)
Lemma group_line_invariant (lines : list Z) :
  forall (st : list (list Z) * list Z),
    Forall consecutive (fst st) /\ separated (fst st) /\
    (snd st = [] -> fst st = []) /\
    (snd st <> [] ->
     consecutive (snd st) /\
     (fst st = [] \/
      List.hd 0%Z (snd st) <> (List.last (List.last (fst st) []) 0 + 1)%Z)) ->
    (Forall consecutive (fst (fold_left group_line lines st)) /\
     separated (fst (fold_left group_line lines st)) /\
     (snd (fold_left group_line lines st) = [] ->
      fst (fold_left group_line lines st) = []) /\
     (snd (fold_left group_line lines st) <> [] ->
      consecutive (snd (fold_left group_line lines st)) /\
      (fst (fold_left group_line lines st) = [] \/
       List.hd 0%Z (snd (fold_left group_line lines st))
       <> (List.last (List.last (fst (fold_left group_line lines st)) []) 0 + 1)%Z))) /\
    List.concat (fst (fold_left group_line lines st)) ++ snd (fold_left group_line lines st)
    = List.concat (fst st) ++ snd st ++ lines.
Proof.
  induction lines as [|line rest IH]; intros [groups cur] H.
  - simpl. split; [exact H | rewrite app_nil_r; reflexivity].
  - cbn [fold_left]. cbn [fst snd] in H.
    destruct H as (Hruns & Hsep & Hempty & Hcur).
    destruct cur as [|c0 cur'].
    + specialize (Hempty eq_refl). subst groups. rewrite group_line_empty.
      destruct (IH ([], [line])) as [IH1 IH2].
      * cbn [fst snd]. split; [constructor|]. split; [exact I|]. split; [discriminate|].
        intros _. split; [exists line, 0; simpl; f_equal; lia | left; reflexivity].
      * split; [exact IH1 | exact IH2].
    + destruct (Hcur ltac:(discriminate)) as [(first & count & Hrun) Hfirst].
      rewrite group_line_cons.
      destruct (Z.eqb_spec line (List.last (c0 :: cur') 0 + 1)%Z) as [E|NE].
      * destruct (IH (groups, (c0 :: cur') ++ [line])) as [IH1 IH2].
        -- cbn [fst snd]. split; [exact Hruns|]. split; [exact Hsep|].
           split; [intros C; destruct cur'; discriminate|].
           intros _. split.
           ++ exists first, (S count).
              rewrite E, Hrun, run_last. apply run_extend.
           ++ destruct Hfirst as [Hg|Hg]; [left; exact Hg | right; exact Hg].
        -- split; [exact IH1|]. rewrite IH2. cbn [fst snd].
           rewrite <- !app_assoc. reflexivity.
      * destruct (IH (groups ++ [c0 :: cur'], [line])) as [IH1 IH2].
        -- cbn [fst snd]. split.
           { apply Forall_app. split; [exact Hruns|]. constructor; [|constructor].
             exists first, count. exact Hrun. }
           split; [apply separated_snoc; [exact Hsep | exact Hfirst]|].
           split; [discriminate|]. intros _. split.
           ++ exists line, 0. simpl. f_equal. lia.
           ++ right. rewrite last_last. cbn [hd]. exact NE.
        -- split; [exact IH1|]. rewrite IH2. cbn [fst snd].
           rewrite List.concat_app. simpl. rewrite app_nil_r, <- !app_assoc. reflexivity.
Qed.

Lemma missing_line_groups_spec (missing_lines : list Z) :
  Forall consecutive (missing_line_groups missing_lines) /\
  separated (missing_line_groups missing_lines) /\
  List.concat (missing_line_groups missing_lines) = sorted missing_lines.
Proof.
  unfold missing_line_groups.
  pose proof (group_line_invariant (sorted missing_lines) ([], [])) as H.
  simpl in H. destruct H as [(Hruns & Hsep & Hempty & Hcur) Hcat].
  { split; [constructor|]. split; [exact I|]. split; [reflexivity|].
    intros C. contradiction. }
  destruct (fold_left group_line (sorted missing_lines) ([], [])) as [groups cur].
  simpl in *. destruct cur as [|c0 cur'].
  - rewrite app_nil_r in Hcat. repeat split; assumption.
  - destruct (Hcur ltac:(discriminate)) as [Hrun Hfirst]. split; [|split].
    + apply Forall_app. split; [exact Hruns | constructor; [exact Hrun | constructor]].
    + apply separated_snoc; assumption.
    + rewrite List.concat_app. simpl. rewrite app_nil_r. exact Hcat.
Qed.

(** X27.  The groups of missing lines are a partition of the sorted
    missing lines into maximal runs: put end to end they give the missing
    lines in ascending order, each group is a non-empty run of consecutive
    numbers, and no group starts on the line after the end of the group
    before it. *)
Theorem missing_line_groups_are_maximal_runs (missing_lines : list Z) :
  List.concat (missing_line_groups missing_lines) = sorted missing_lines /\
  Sorted Z.le (sorted missing_lines) /\
  Permutation (sorted missing_lines) missing_lines /\
  Forall consecutive (missing_line_groups missing_lines) /\
  separated (missing_line_groups missing_lines).
Proof.
  destruct (missing_line_groups_spec missing_lines) as (H1 & H2 & H3).
  split; [exact H3|]. split; [apply sorted_is_sorted|].
  split; [apply sorted_permutation|]. split; assumption.
Qed.

Lemma format_group_members (group : list Z) (n : Z) :
  consecutive group -> (in_range (format_group group) n <-> In n group).
Proof.
  intros (first & count & ->). rewrite run_members.
  destruct count as [|count].
  - simpl. lia.
  - change (format_group (map (fun i => (first + Z.of_nat i)%Z) (seq 0 (S (S count)))))
      with (Lines (List.hd 0%Z (map (fun i => (first + Z.of_nat i)%Z)
                                    (seq 0 (S (S count)))))
                  (List.last (map (fun i => (first + Z.of_nat i)%Z)
                                  (seq 0 (S (S count)))) 0%Z)).
    rewrite run_last. simpl hd. simpl in_range. lia.
Qed.

(** X28.  The ranges written under "Missing Lines" stand for the missing
    lines and for nothing else: a line number lies in one of the written
    ranges exactly when it is a missing line. *)
Theorem written_ranges_are_the_missing_lines (missing_lines : list Z) (n : Z) :
  In n missing_lines <->
  exists r, In r (missing_line_ranges missing_lines) /\ in_range r n.
Proof.
  destruct (missing_line_groups_spec missing_lines) as (Hruns & _ & Hcat).
  unfold missing_line_ranges. rewrite Forall_forall in Hruns. split.
  - intros Hin.
    apply (Permutation_in _ (Permutation_sym (sorted_permutation missing_lines))) in Hin.
    rewrite <- Hcat in Hin. apply List.in_concat in Hin. destruct Hin as (group & Hg & Hn).
    exists (format_group group). split; [apply in_map; exact Hg|].
    apply format_group_members; [apply Hruns; exact Hg | exact Hn].
  - intros (r & Hr & Hn). apply in_map_iff in Hr. destruct Hr as (group & <- & Hg).
    apply (Permutation_in _ (sorted_permutation missing_lines)).
    rewrite <- Hcat. apply List.in_concat. exists group. split; [exact Hg|].
    apply format_group_members in Hn; [exact Hn | apply Hruns; exact Hg].
Qed.

Lemma intersection_length (s t : list Z) :
  List.length (intersection s t) <= List.length s.
Proof. unfold intersection. apply filter_length_le. Qed.

Lemma range_length (a b : Z) : List.length (range a b) = Z.to_nat (b - a).
Proof. unfold range. rewrite length_map, length_seq. reflexivity. Qed.

(** X29.  Every entry of the function coverage counts at most as many
    covered lines and as many missing lines as the function has lines; a
    function counts the lines from its first to its last, both included,
    its missing lines are missing lines of the file, and the percentage
    of the entry is the one of its own two counts: the integer 0 for a
    function without lines, else the rounded quotient, in per cent, of
    its covered and its total lines. *)
Theorem function_coverage_is_bounded
    (nodes : list function_def) (executed_lines missing_lines : list Z) :
  List.length (_analyze_function_coverage nodes executed_lines missing_lines)
  = List.length nodes /\
  Forall (fun e =>
            fe_covered_lines e <= fe_total_lines e /\
            List.length (fe_missing_lines e) <= fe_total_lines e /\
            fe_total_lines e = Z.to_nat (fe_end_line e - fe_start_line e + 1) /\
            incl (fe_missing_lines e) missing_lines /\
            fe_coverage_percentage e
            = match fe_total_lines e with
              | O => IntegerZero
              | S _ => RoundedPercentage (fe_covered_lines e) (fe_total_lines e)
              end)
         (_analyze_function_coverage nodes executed_lines missing_lines).
Proof.
  unfold _analyze_function_coverage. split; [apply length_map|].
  apply Forall_map. apply Forall_forall. intros node _. simpl.
  split; [apply intersection_length|]. split; [apply intersection_length|].
  split; [rewrite range_length; f_equal; lia|]. split.
  - intros x Hx. unfold intersection in Hx. apply filter_In in Hx.
    destruct Hx as [_ Hx]. apply existsb_exists in Hx. destruct Hx as (y & Hy & E).
    apply Z.eqb_eq in E. subst y. exact Hy.
  - unfold percentage. destruct (List.length (range _ _)); reflexivity.
Qed.

Lemma list_sum_le {A : Type} (f h : A -> nat) (l : list A) :
  Forall (fun x => f x <= h x) l -> list_sum (map f l) <= list_sum (map h l).
Proof.
  induction 1 as [|x r Hx Hr IH]; simpl; lia.
Qed.

(** X30.  A report of [_generate_coverage_report] counts the executed
    lines as covered and the executed and the missing lines as its lines.
    The summary of a list of such reports and of dictionaries without
    line counts counts every entry of the list as a file analysed; for an
    empty list it holds no totals and the integer 0 as coverage; otherwise
    its totals are the sums of the counts of the reports, the covered
    lines are no more than the lines, and its coverage is the integer 0
    when there is no line at all, else the rounded quotient, in per cent,
    of the two totals. *)
Theorem coverage_summary_adds_up
    (inputs : list (option (string * list Z * list Z * list Z * list function_def))) :
  let coverage_results :=
    map (option_map (fun input => _generate_coverage_report (fst input) (snd input)))
        inputs in
  let lines_of := fun input : option (string * list Z * list Z * list Z * list function_def) =>
    match input with
    | Some (_, executed, missing, _, _) => List.length executed + List.length missing
    | None => 0
    end in
  let covered_of := fun input : option (string * list Z * list Z * list Z * list function_def) =>
    match input with
    | Some (_, executed, _, _, _) => List.length executed
    | None => 0
    end in
  let total := list_sum (map lines_of inputs) in
  let covered := list_sum (map covered_of inputs) in
  map (option_map (fun r => (covered_lines r, total_lines r))) coverage_results
  = map (option_map (fun input =>
           match input with
           | (_, executed, missing, _, _) =>
               (List.length executed, List.length executed + List.length missing)
           end)) inputs /\
  sm_files_analyzed (generate_coverage_summary coverage_results) = List.length inputs /\
  covered <= total /\
  match inputs with
  | [] =>
      sm_total_coverage (generate_coverage_summary coverage_results) = IntegerZero /\
      sm_total_lines (generate_coverage_summary coverage_results) = None /\
      sm_covered_lines (generate_coverage_summary coverage_results) = None
  | _ :: _ =>
      sm_total_lines (generate_coverage_summary coverage_results) = Some total /\
      sm_covered_lines (generate_coverage_summary coverage_results) = Some covered /\
      sm_total_coverage (generate_coverage_summary coverage_results)
      = match total with
        | O => IntegerZero
        | S _ => RoundedPercentage covered total
        end
  end.
Proof.
  intros coverage_results lines_of covered_of total covered.
  assert (Hlines : list_sum (map (fun result => match result with
                                                 | Some r => total_lines r
                                                 | None => 0
                                                 end) coverage_results) = total).
  { unfold coverage_results, total. rewrite map_map. f_equal. apply map_ext.
    intros [[[[[filename executed] missing] excluded] nodes]|]; reflexivity. }
  assert (Hcovered : list_sum (map (fun result => match result with
                                                   | Some r => covered_lines r
                                                   | None => 0
                                                   end) coverage_results) = covered).
  { unfold coverage_results, covered. rewrite map_map. f_equal. apply map_ext.
    intros [[[[[filename executed] missing] excluded] nodes]|]; reflexivity. }
  split.
  { unfold coverage_results. rewrite map_map. apply map_ext.
    intros [[[[[filename executed] missing] excluded] nodes]|]; reflexivity. }
  split.
  { unfold generate_coverage_summary.
    destruct coverage_results as [|r0 rest] eqn:E.
    - unfold coverage_results in E. destruct inputs; [reflexivity | discriminate].
    - rewrite <- E. cbv zeta. simpl sm_files_analyzed. unfold coverage_results.
      apply length_map. }
  split.
  { unfold covered, total. apply list_sum_le. apply Forall_forall.
    intros [[[[[filename executed] missing] excluded] nodes]|] _; simpl; lia. }
  destruct inputs as [|input rest].
  - repeat split.
  - assert (Hne : coverage_results <> []) by discriminate.
    revert Hlines Hcovered. clearbody coverage_results.
    destruct coverage_results as [|r0 results]; [congruence|]. intros Hlines Hcovered.
    unfold generate_coverage_summary. cbv zeta.
    cbn [sm_total_lines sm_covered_lines sm_total_coverage].
    rewrite Hlines, Hcovered. repeat split.
    unfold percentage. destruct total; reflexivity.
Qed.

End Coverage.

(* ================================================================== *)
(** * The further properties on the sample targets *)

Module MoreConcrete.

Import Examples MoreExamples ClassAnalyzer TestCaseGenerator ValueGenerator NamedGenerators.

Lemma filter_is_symmetric_witness :
  Forall well_formed [VInt 1; VDict [("a", VInt 1); ("b", VNone)]] /\
  Forall well_formed [VBool true; VDict [("b", VNone); ("a", VFloat (py_float 1))]] /\
  _are_functionally_equivalent (RT := posix)
    [VInt 1; VDict [("a", VInt 1); ("b", VNone)]]
    [VBool true; VDict [("b", VNone); ("a", VFloat (py_float 1))]]
  = _are_functionally_equivalent (RT := posix)
      [VBool true; VDict [("b", VNone); ("a", VFloat (py_float 1))]]
      [VInt 1; VDict [("a", VInt 1); ("b", VNone)]].
Proof.
  assert (W1 : Forall well_formed [VInt 1; VDict [("a", VInt 1); ("b", VNone)]]).
  { repeat constructor; simpl; intuition discriminate. }
  assert (W2 : Forall well_formed
                 [VBool true; VDict [("b", VNone); ("a", VFloat (py_float 1))]]).
  { repeat constructor; simpl; intuition discriminate. }
  split; [exact W1|]. split; [exact W2|].
  exact (filter_is_symmetric (RT := posix) _ _ W1 W2).
Defined.

Lemma used_tuple_is_duplicate_witness :
  Forall well_formed [VInt 1; VNone] /\
  Forall (comparable (RT := posix)) [VInt 1; VNone] /\
  In [VInt 1; VNone] [[VInt 0; VNone]; [VInt 1; VNone]] /\
  is_duplicate (RT := posix) [VInt 1; VNone] [[VInt 0; VNone]; [VInt 1; VNone]] = true.
Proof.
  assert (W : Forall well_formed [VInt 1; VNone]) by (repeat constructor).
  assert (C : Forall (comparable (RT := posix)) [VInt 1; VNone]).
  { constructor; [exact I|]. constructor; [|constructor]. simpl. discriminate. }
  assert (Hin : In [VInt 1; VNone] [[VInt 0; VNone]; [VInt 1; VNone]]).
  { right. left. reflexivity. }
  split; [exact W|]. split; [exact C|]. split; [exact Hin|].
  exact (used_tuple_is_duplicate (RT := posix) _ _ W C Hin).
Defined.

Lemma nan_tuple_not_equivalent_to_itself_witness :
  In (VFloat FNaN) [VInt 1; VFloat FNaN] /\
  _are_functionally_equivalent (RT := posix) [VInt 1; VFloat FNaN] [VInt 1; VFloat FNaN]
  = false.
Proof.
  assert (Hin : In (VFloat FNaN) [VInt 1; VFloat FNaN]) by (right; left; reflexivity).
  split; [exact Hin|].
  exact (nan_tuple_not_equivalent_to_itself (RT := posix) _ Hin).
Defined.

Lemma filter_ignores_numeric_and_sequence_type_witness :
  (Z.abs 3 <= 2 ^ 53)%Z /\
  Forall well_formed [VInt 1; VStr "a"] /\
  Forall (comparable (RT := posix)) [VInt 1; VStr "a"] /\
  _are_functionally_equivalent (RT := posix)
    [VInt 3; VBool true; VBool false; VList [VInt 1; VStr "a"]]
    [VFloat (py_float 3); VInt 1; VFloat (py_float 0); VTuple [VInt 1; VStr "a"]] = true.
Proof.
  assert (W : Forall well_formed [VInt 1; VStr "a"]) by (repeat constructor).
  assert (C : Forall (comparable (RT := posix)) [VInt 1; VStr "a"])
    by (repeat constructor).
  assert (Hz : (Z.abs 3 <= 2 ^ 53)%Z) by (vm_compute; discriminate).
  split; [exact Hz|]. split; [exact W|]. split; [exact C|].
  exact (filter_ignores_numeric_and_sequence_type (RT := posix) 3 _ Hz W C).
Defined.

Lemma generator_returns_count_values_of_type_witness :
  get_generator_for_type (RT := posix) TList = Some generate_list_values /\
  exists vs g',
    generate_list_values (RT := posix) 3 0%nat = Done (vs, g') /\
    List.length vs = 3 /\
    Forall (fun v => has_exact_type TList v = true) vs.
Proof.
  split; [reflexivity|].
  exact (generator_returns_count_values_of_type (RT := posix) TList
           generate_list_values 3 0%nat eq_refl).
Defined.

Lemma generated_value_has_declared_type_witness :
  is_standard TStr = true /\
  (forall ct, Some Lamp = Some ct -> standard_type_name TStr <> Some (cls_name ct)) /\
  exists v g',
    _generate_value_for_type (RT := posix) TStr "s" (Some Lamp) 0%nat = Done (v, g') /\
    has_exact_type TStr v = true.
Proof.
  assert (Hname : forall ct, Some Lamp = Some ct ->
                    standard_type_name TStr <> Some (cls_name ct)).
  { intros ct [= <-]. discriminate. }
  split; [reflexivity|]. split; [exact Hname|].
  exact (generated_value_has_declared_type (RT := posix) TStr "s" (Some Lamp) 0%nat
           eq_refl Hname).
Defined.

Lemma random_integers_stay_in_range_witness :
  randint_in_range (RT := posix) /\
  (-1000 <= 1000)%Z /\
  generate_int_values (RT := posix) 3 (-1000) 1000 0%nat
  = Done ([VInt (-1000); VInt (-999); VInt (-998)], 3%nat) /\
  List.length [VInt (-1000); VInt (-999); VInt (-998)] = 3 /\
  Forall (fun v => exists z, v = VInt z /\ (-1000 <= z <= 1000)%Z)
         [VInt (-1000); VInt (-999); VInt (-998)].
Proof.
  assert (Hle : (-1000 <= 1000)%Z) by lia.
  split; [exact demo_randint_in_range|]. split; [exact Hle|]. split; [reflexivity|].
  exact (random_integers_stay_in_range (RT := posix) 3 (-1000) 1000 0%nat 3%nat _
           demo_randint_in_range Hle eq_refl).
Defined.

Lemma random_strings_have_requested_length_witness :
  randint_in_range (RT := posix) /\
  choices_from_population (RT := posix) /\
  (0 <= 0 <= 20)%Z /\
  (ascii_letters ++ digits)%string <> EmptyString /\
  ensures (generate_string_values (RT := posix) 3 0 20 (ascii_letters ++ digits))
    (Forall (fun v => exists s, v = VStr s /\
       (0 <= Z.of_nat (String.length s) <= 20)%Z /\
       Forall (fun c => In c (list_ascii_of_string (ascii_letters ++ digits)))
              (list_ascii_of_string s))) /\
  ensures (generate_alphanumeric_string_values (RT := posix) 3 0 20)
    (Forall (fun v => exists s, v = VStr s /\
       (0 <= Z.of_nat (String.length s) <= 20)%Z /\
       Forall (fun c => In c (list_ascii_of_string (ascii_letters ++ digits)))
              (list_ascii_of_string s))).
Proof.
  assert (Hlen : (0 <= 0 <= 20)%Z) by lia.
  assert (Hne : (ascii_letters ++ digits)%string <> EmptyString) by discriminate.
  split; [exact demo_randint_in_range|]. split; [exact demo_choices_from_population|].
  split; [exact Hlen|]. split; [exact Hne|].
  exact (random_strings_have_requested_length (RT := posix) 3 0 20
           (ascii_letters ++ digits)
           demo_randint_in_range demo_choices_from_population Hlen Hne).
Defined.

Lemma random_collections_are_small_witness :
  randint_in_range (RT := posix) /\
  choices_from_population (RT := posix) /\
  ensures (generate_list_values (RT := posix) 3)
    (Forall (fun v => exists items, v = VList items /\ List.length items <= 5 /\
       Forall (fun x => exists z, x = VInt z /\ (-100 <= z <= 100)%Z) items)) /\
  ensures (generate_tuple_values (RT := posix) 3)
    (Forall (fun v => exists items, v = VTuple items /\ List.length items <= 5 /\
       Forall (fun x => exists z, x = VInt z /\ (-100 <= z <= 100)%Z) items)) /\
  ensures (generate_dict_values (RT := posix) 3)
    (Forall (fun v => exists d, v = VDict d /\ List.length d <= 5 /\
       NoDup (dict_keys d) /\
       Forall (fun kv =>
                 (1 <= String.length (fst kv) <= 5)%nat /\
                 Forall (fun c => In c (list_ascii_of_string ascii_lowercase))
                        (list_ascii_of_string (fst kv)) /\
                 exists z, snd kv = VInt z /\ (-100 <= z <= 100)%Z) d)).
Proof.
  split; [exact demo_randint_in_range|]. split; [exact demo_choices_from_population|].
  exact (random_collections_are_small (RT := posix) 3
           demo_randint_in_range demo_choices_from_population).
Defined.

Lemma name_values_are_not_excluded_witness :
  generate_name_values (RT := posix) 3 2 4 50 None 0%nat
  = Done ([VStr "bbbb"; VStr "dddddd"], 4%nat) /\
  List.length [VStr "bbbb"; VStr "dddddd"] = 2 /\
  Forall (fun v => exists s, v = VStr s /\ ~ In s ["abc"])
         [VStr "bbbb"; VStr "dddddd"].
Proof.
  split; [reflexivity|].
  exact (name_values_are_not_excluded (RT := posix) 3 2 4 50 None 0%nat 4%nat _ eq_refl).
Defined.

Lemma name_values_accept_first_draw_witness :
  randint_in_range (RT := posix) /\
  choices_from_population (RT := posix) /\
  (0 <= 4 <= 50)%Z /\
  Forall (fun e => (Z.of_nat (String.length e) < 4)%Z) ["abc"] /\
  exists names g',
    generate_name_values (RT := posix) 1 2 4 50 None 0%nat = Done (names, g') /\
    List.length names = 2 /\
    Forall (fun v => exists s, v = VStr s /\
              (4 <= Z.of_nat (String.length s) <= 50)%Z) names.
Proof.
  assert (Hlen : (0 <= 4 <= 50)%Z) by lia.
  assert (Hex : Forall (fun e => (Z.of_nat (String.length e) < 4)%Z) ["abc"]).
  { constructor; [simpl; lia | constructor]. }
  split; [exact demo_randint_in_range|]. split; [exact demo_choices_from_population|].
  split; [exact Hlen|]. split; [exact Hex|].
  exact (name_values_accept_first_draw (RT := posix) 0 2 4 50 None 0%nat
           demo_randint_in_range demo_choices_from_population Hlen Hex).
Defined.

Lemma constructor_is_read_from_analysed_class_witness :
  assoc_get "__init__" (cls_dict Dimmer) = None /\
  fn_signature (init_method Dimmer) = Some ["self"; "on"] /\
  fn_hints (init_method Dimmer) = Some [("on", TBool)] /\
  constructor (analyze_class Dimmer)
  = Some {| parameters := filter (fun p => negb (String.eqb p "self")) ["self"; "on"];
            type_hints := [("on", TBool)];
            defined_in := cls_name Dimmer |} /\
  name (analyze_class Dimmer) = cls_name Dimmer /\
  base_classes (analyze_class Dimmer) = map cls_name (cls_bases Dimmer).
Proof.
  split; [reflexivity|]. split; [reflexivity|]. split; [reflexivity|].
  exact (constructor_is_read_from_analysed_class Dimmer ["self"; "on"] [("on", TBool)]
           eq_refl eq_refl).
Defined.


Lemma method_cases_are_labelled_witness :
  _generate_method_test_cases (RT := posix) Lamp "switch"
    {| parameters := ["on"]; type_hints := [("on", TBool); ("return", TBool)];
       defined_in := "Lamp" |} Methods 5 0%nat
  = Done ([method_case Lamp [] "switch" [VBool true] (VBool true) None;
           method_case Lamp [] "switch" [VBool false] (VBool false) None], 5%nat) /\
  List.length [method_case Lamp [] "switch" [VBool true] (VBool true) None;
               method_case Lamp [] "switch" [VBool false] (VBool false) None]
  <= Nat.max 1 (5 * List.length ["on"] + 5) /\
  exists constructor_inputs,
    Forall (fun c =>
              ClassMethodTestCase.class_type c = Lamp /\
              ClassMethodTestCase.method_name c = "switch" /\
              ClassMethodTestCase.is_property_getter c = false /\
              ClassMethodTestCase.constructor_inputs c = constructor_inputs /\
              (ClassMethodTestCase.method_inputs c = [] \/
               List.length (ClassMethodTestCase.method_inputs c) = List.length ["on"]))
           [method_case Lamp [] "switch" [VBool true] (VBool true) None;
            method_case Lamp [] "switch" [VBool false] (VBool false) None].
Proof.
  split; [reflexivity|].
  exact (method_cases_are_labelled (RT := posix) Lamp "switch"
           {| parameters := ["on"]; type_hints := [("on", TBool); ("return", TBool)];
              defined_in := "Lamp" |} Methods 5 0%nat 5%nat _ eq_refl).
Defined.

Lemma constructor_cases_are_labelled_witness :
  _generate_constructor_test_cases (RT := posix) Switch
    {| parameters := ["on"]; type_hints := [("on", TBool)]; defined_in := "Switch" |}
    2 0%nat
  = Done ([constructor_case Switch [VBool true] None;
           constructor_case Switch [VBool false] None;
           constructor_case Switch [VBool true] None;
           constructor_case Switch [VBool false] None], 2%nat) /\
  List.length [constructor_case Switch [VBool true] None;
               constructor_case Switch [VBool false] None;
               constructor_case Switch [VBool true] None;
               constructor_case Switch [VBool false] None]
  <= Nat.max 1 (5 * List.length ["on"] + 2) /\
  Forall (fun c =>
            ClassMethodTestCase.class_type c = Switch /\
            ClassMethodTestCase.method_name c = "__init__" /\
            ClassMethodTestCase.method_inputs c = [] /\
            ClassMethodTestCase.expected_output c = VNone /\
            ClassMethodTestCase.is_property_getter c = false /\
            List.length (ClassMethodTestCase.constructor_inputs c) = List.length ["on"])
         [constructor_case Switch [VBool true] None;
          constructor_case Switch [VBool false] None;
          constructor_case Switch [VBool true] None;
          constructor_case Switch [VBool false] None].
Proof.
  split; [reflexivity|].
  exact (constructor_cases_are_labelled (RT := posix) Switch
           {| parameters := ["on"]; type_hints := [("on", TBool)];
              defined_in := "Switch" |} 2 0%nat 2%nat _ eq_refl).
Defined.

Lemma getter_records_at_most_one_case_witness :
  _generate_property_getter_test_cases (RT := posix) Cell "value"
    {| has_getter := true; has_setter := true; has_deleter := false;
       prop_type_hints := [("return", TInt)]; prop_defined_in := "Cell" |} 5 0%nat
  = Done ([getter_case Cell [] "value" (VInt 0) None], 0%nat) /\
  List.length [getter_case Cell [] "value" (VInt 0) None] <= 1 /\
  Forall (fun c =>
            ClassMethodTestCase.class_type c = Cell /\
            ClassMethodTestCase.method_name c = ("get_" ++ "value")%string /\
            ClassMethodTestCase.method_inputs c = [] /\
            ClassMethodTestCase.is_property_getter c = true)
         [getter_case Cell [] "value" (VInt 0) None] /\
  (forall n,
     _generate_property_getter_test_cases (RT := posix) Cell "value"
       {| has_getter := true; has_setter := true; has_deleter := false;
          prop_type_hints := [("return", TInt)]; prop_defined_in := "Cell" |} n 0%nat
     = Done ([getter_case Cell [] "value" (VInt 0) None], 0%nat)).
Proof.
  split; [reflexivity|].
  exact (getter_records_at_most_one_case (RT := posix) Cell "value"
           {| has_getter := true; has_setter := true; has_deleter := false;
              prop_type_hints := [("return", TInt)]; prop_defined_in := "Cell" |}
           5 0%nat 0%nat _ eq_refl).
Defined.

Lemma class_cases_are_filed_under_their_name_witness :
  generate_class_test_cases (RT := posix) Cell 1 0%nat
  = Done ([("__init__", [constructor_case Cell [] None]);
           ("get_value", [getter_case Cell [] "value" (VInt 0) None]);
           ("set_value",
            [setter_case Cell [] "value" (VInt 0) (VInt 0) None;
             setter_case Cell [] "value" (VInt 1) (VInt 1) None;
             setter_case Cell [] "value" (VInt (-1)) (VInt (-1)) None;
             setter_case Cell [] "value" (VInt 100) (VInt 100) None;
             setter_case Cell [] "value" (VInt (-100)) (VInt (-100)) None;
             setter_case Cell [] "value" (VInt (-1000)) (VInt (-1000)) None])],
          1%nat) /\
  NoDup ["__init__"; "get_value"; "set_value"] /\
  Forall (fun kv => Forall (fun c => ClassMethodTestCase.method_name c = fst kv /\
                                     ClassMethodTestCase.class_type c = Cell) (snd kv))
         [("__init__", [constructor_case Cell [] None]);
          ("get_value", [getter_case Cell [] "value" (VInt 0) None]);
          ("set_value",
           [setter_case Cell [] "value" (VInt 0) (VInt 0) None;
            setter_case Cell [] "value" (VInt 1) (VInt 1) None;
            setter_case Cell [] "value" (VInt (-1)) (VInt (-1)) None;
            setter_case Cell [] "value" (VInt 100) (VInt 100) None;
            setter_case Cell [] "value" (VInt (-100)) (VInt (-100)) None;
            setter_case Cell [] "value" (VInt (-1000)) (VInt (-1000)) None])].
Proof.
  split; [reflexivity|].
  exact (class_cases_are_filed_under_their_name (RT := posix) Cell 1 0%nat 1%nat _
           eq_refl).
Defined.

Lemma deadline_covers_construction_and_call_witness :
  IS_WINDOWS (Runtime := posix) = false /\
  cls_new Heavy [] = Finishes 2000 (Returned {| inst_class := "Heavy"; inst_attrs := [] |}) /\
  obj_call Heavy "work" {| inst_class := "Heavy"; inst_attrs := [] |} []
  = Finishes 2000 (Returned VNone) /\
  (times_out (RT := posix) (method_call Heavy Methods "work" [] []) = true
   <-> (DEADLINE <= 2000 + 2000)%N) /\
  times_out (RT := posix)
    (obj_call Heavy "work" {| inst_class := "Heavy"; inst_attrs := [] |} []) = false.
Proof.
  split; [reflexivity|]. split; [reflexivity|]. split; [reflexivity|].
  split; [|reflexivity].
  exact (proj1 (deadline_covers_construction_and_call (RT := posix) Heavy "work" [] [] []
                  0%nat 2000%N 2000%N {| inst_class := "Heavy"; inst_attrs := [] |}
                  VNone eq_refl eq_refl eq_refl)).
Defined.

Lemma unannotated_method_gets_one_case_witness :
  repr (Runtime := posix) VNone <> None /\
  Forall (fun p => hint_of [] p = TAny \/ hint_of [] p = TOther) ["item"; "label"] /\
  _generate_method_test_cases (RT := posix) Box "put"
    {| parameters := ["item"; "label"]; type_hints := []; defined_in := "Box" |}
    Methods 5 0%nat
  = Done ([method_case Box [] "put" [VNone; VNone] VNone None], 0%nat) /\
  List.length [method_case Box [] "put" [VNone; VNone] VNone None] <= 1 /\
  Forall (fun c => Forall (eq VNone) (ClassMethodTestCase.method_inputs c))
         [method_case Box [] "put" [VNone; VNone] VNone None].
Proof.
  assert (Hrepr : repr (Runtime := posix) VNone <> None) by discriminate.
  assert (Hall : Forall (fun p => hint_of [] p = TAny \/ hint_of [] p = TOther)
                        ["item"; "label"]).
  { repeat constructor. }
  split; [exact Hrepr|]. split; [exact Hall|]. split; [reflexivity|].
  exact (unannotated_method_gets_one_case (RT := posix) Box "put"
           {| parameters := ["item"; "label"]; type_hints := []; defined_in := "Box" |}
           Methods 5 0%nat 0%nat _ Hrepr Hall eq_refl).
Defined.

End MoreConcrete.
